(** * noaadata: the AIVDM bitfield decoder and the message-1 codec

    A shallow embedding of [contrib/ais.py] (the pseudo-instruction
    interpreter, its bit vector, the fragment reassembly and the
    post-processing passes of [parse_ais_messages]) and of the
    [encode]/[decode] pair of [ais/ais_msg_1.py], with the properties
    of the specification stated and settled on them.

    Python integers are [Z]; the ['B'] array of [BitVector] is a
    [list Z] of bytes; the [values] dictionary is a [gmap string value];
    exceptions are the [Raise] side of [result]. *)

From Stdlib Require Import ZArith List String Ascii Bool Lia.
From Stdlib Require Import DecimalString DecimalZ DecimalPos QArith Qabs.
From stdpp Require Import base option gmap strings.

Import ListNotations.
Local Open Scope string_scope.
Local Open Scope Z_scope.

(** ** Exceptions and results *)

Record BitVector := mkBitVector { bits : list Z; bitlen : Z }.

Inductive value :=
| VInt (n : Z)
| VStr (s : string)
| VRaw (b : BitVector).

Inductive exn :=
| IndexError
| KeyError (key : string)
| TypeError
| ValueError
| UnboundLocalError (var : string)
| AISUnpackingException (fieldname : string) (v : value).

Inductive result (A : Type) :=
| Ok (a : A)
| Raise (e : exn).
Arguments Ok {A} a.
Arguments Raise {A} e.

Definition bind {A B} (r : result A) (k : A -> result B) : result B :=
  match r with
  | Ok a => k a
  | Raise e => Raise e
  end.

#[global] Instance result_bind : MBind result := fun A B k r => bind r k.
#[global] Instance result_ret : MRet result := fun A a => Ok a.

(** ** Python sequences *)

(** [l[i]] for a list, tuple or array: a negative index counts from
    the end, an index outside [-len, len) raises [IndexError]. *)
Definition py_getitem {A} (l : list A) (i : Z) : result A :=
  let n := Z.of_nat (length l) in
  let j := if i <? 0 then i + n else i in
  if (j <? 0) || (n <=? j) then Raise IndexError
  else match nth_error l (Z.to_nat j) with
       | Some a => Ok a
       | None => Raise IndexError
       end.

(** [l[i] = x], same index rule. *)
Definition py_setitem {A} (l : list A) (i : Z) (x : A) : result (list A) :=
  let n := Z.of_nat (length l) in
  let j := if i <? 0 then i + n else i in
  if (j <? 0) || (n <=? j) then Raise IndexError
  else Ok (<[Z.to_nat j := x]> l).

(** The clamped bound of a slice: [k] itself, or [len + k] for a
    negative [k], kept inside [0, len]. *)
Definition py_bound {A} (l : list A) (k : Z) : nat :=
  let n := Z.of_nat (length l) in
  Z.to_nat (Z.min n (Z.max 0 (if k <? 0 then k + n else k))).

(** [l[a:]], [l[:b]] and [l[a:b]]. *)
Definition py_slice_from {A} (l : list A) (a : Z) : list A :=
  skipn (py_bound l a) l.
Definition py_slice_to {A} (l : list A) (b : Z) : list A :=
  firstn (py_bound l b) l.
Definition py_slice {A} (l : list A) (a b : Z) : list A :=
  skipn (py_bound l a) (firstn (py_bound l b) l).

(** [range(a, b)] and [range(n)]. *)
Definition py_range (a b : Z) : list Z :=
  map (fun k => a + Z.of_nat k) (seq 0 (Z.to_nat (b - a))).

(** ** The bit vector (class [BitVector]) *)

Definition BITS_PER_BYTE : Z := 8.

(** [BitVector()], and [BitVector(data, length)]. *)
Definition BitVector_new : BitVector := mkBitVector [] 0.
Definition BitVector_init (data : list Z) (length : option Z) : BitVector :=
  mkBitVector data
    (match length with
     | None => Z.of_nat (List.length data) * 8
     | Some n => n
     end).

(** The six inner steps of [from_sixbit] for one armoured code [ch]:
    bit [i] of [ch] is or-ed into the byte at [bitlen/8], at position
    [7 - bitlen % 8], for [i] from 5 down to 0. *)
Fixpoint sixbit_push (self : BitVector) (ch : Z) (shifts : list Z)
  : result BitVector :=
  match shifts with
  | [] => Ok self
  | i :: shifts' =>
      self' ← (if Z.eqb (Z.land (Z.shiftr ch i) 1) 0 then Ok self
                else
                  let k := bitlen self / 8 in
                  b ← py_getitem (bits self) k;
                  bs ← py_setitem (bits self) k
                         (Z.lor b (Z.shiftl 1 (7 - bitlen self mod 8)));
                  Ok (mkBitVector bs (bitlen self)));
      sixbit_push (mkBitVector (bits self') (bitlen self' + 1)) ch shifts'
  end.

(** The armour code of a character: [ord(ch) - 48], less 8 above 40. *)
Definition armor (c : ascii) : Z :=
  let ch := Z.of_nat (nat_of_ascii c) - 48 in
  if 40 <? ch then ch - 8 else ch.

Fixpoint sixbit_chars (self : BitVector) (data : string) : result BitVector :=
  match data with
  | EmptyString => Ok self
  | String c rest =>
      self' ← sixbit_push self (armor c) [5; 4; 3; 2; 1; 0];
      sixbit_chars self' rest
  end.

Definition from_sixbit (self : BitVector) (data : string) : result BitVector :=
  sixbit_chars
    (mkBitVector (bits self ++ repeat 0 (String.length data)) (bitlen self))
    data.

(** The byte loop of [ubits]. *)
Fixpoint ubits_loop (bs : list Z) (idx : list Z) (fld : Z) : result Z :=
  match idx with
  | [] => Ok fld
  | i :: idx' =>
      b ← py_getitem bs i;
      ubits_loop bs idx' (Z.lor (Z.shiftl fld BITS_PER_BYTE) b)
  end.

(** A shift by a negative count raises [ValueError]. *)
Definition py_shiftl (a n : Z) : result Z :=
  if n <? 0 then Raise ValueError else Ok (Z.shiftl a n).

Definition ubits (self : BitVector) (start width : Z) : result Z :=
  fld ← ubits_loop (bits self)
          (py_range (start / BITS_PER_BYTE)
                    ((start + width + BITS_PER_BYTE - 1) / BITS_PER_BYTE)) 0;
  let end_ := (start + width) mod BITS_PER_BYTE in
  let fld := if Z.eqb end_ 0 then fld
             else Z.shiftr fld (BITS_PER_BYTE - end_) in
  m ← py_shiftl (-1) width;
  Ok (Z.land fld (Z.lnot m)).

Definition sbits (self : BitVector) (start width : Z) : result Z :=
  fld ← ubits self start width;
  m ← py_shiftl 1 (width - 1);
  if Z.eqb (Z.land fld m) 0 then Ok fld
  else Ok (- (2 ^ width - fld)).

(** Bit [i] of the buffer, counted from the most significant bit of
    the first byte, as [from_sixbit] lays the bits down. *)
Definition getbit (self : BitVector) (i : Z) : bool :=
  Z.testbit (nth (Z.to_nat (i / 8)) (bits self) 0) (7 - i mod 8).

(** The array holds unsigned bytes, and the bit length stays within it. *)
Definition bytes_ok (bs : list Z) : Prop := Forall (fun b => 0 <= b < 256) bs.
Definition wf (self : BitVector) : Prop :=
  bytes_ok (bits self) /\ 0 <= bitlen self <= 8 * Z.of_nat (length (bits self)).

(** ** The pseudo-instructions (classes [bitfield], [spare], [dispatch]) *)

(** The reporting hooks and legend tables a field can carry.  They are
    applied by the [scaled] pass of the driver only (floating-point
    formatting); the unpacker carries them through by reference. *)
Inductive hook :=
| cnb_status_legends | cnb_rot_format | cnb_latlon_format
| cnb_speed_format | cnb_course_format | cnb_second_format
| epfd_type_legends | ship_type_legends
| type9_alt_format | type9_speed_format
| short_latlon_format | aide_type_legends.

Record bitfield := mk_bitfield {
  name : string;                      (* Name of field *)
  width : Z;                          (* Bit width *)
  type : string;                      (* signed, unsigned, string, or raw *)
  oob : option Z;                     (* Out-of-band value *)
  legend : string;                    (* Human-friendly description *)
  validator : option (value -> bool); (* Validation checker *)
  formatter : option hook             (* Custom reporting hook *)
}.

#[warnings="-register-all"]
Inductive inst :=
| Spare (width : Z)
| Dispatch (fieldname : string) (subtypes : list (option (list inst)))
           (compute : value -> value)
| Field (f : bitfield).

(** One cooked entry: the list [[name, value, type, legend, formatter]]
    the unpacker appends, or the tuple the grouping pass builds
    ([c_tuple]: a tuple refuses item assignment). *)
Record cooked_field := mk_cooked {
  c_name : string;
  c_value : value;
  c_type : string;
  c_legend : string;
  c_formatter : option hook;
  c_tuple : bool
}.

(** ** The unpacker ([aivdm_unpack]) *)

Definition dquote : ascii := ascii_of_nat 34.

(** The text alphabet indexed by a six-bit code. *)
Definition sixbit_alphabet : string :=
  "@ABCDEFGHIJKLMNOPQRSTUVWXYZ[\]^- !" ++
  String dquote "#$%&`()*+,-./0123456789:;<=>?".

(** [s.replace("@", " ")]. *)
Fixpoint replace_at (s : string) : string :=
  match s with
  | EmptyString => EmptyString
  | String c rest =>
      String (if Ascii.eqb c "@" then " "%char else c) (replace_at rest)
  end.

(** [s.rstrip()]: trailing ASCII whitespace removed. *)
Definition is_space (c : ascii) : bool :=
  let n := nat_of_ascii c in
  Nat.eqb n 32 || (Nat.leb 9 n && Nat.leb n 13).
Fixpoint rstrip (s : string) : string :=
  match s with
  | EmptyString => EmptyString
  | String c rest =>
      match rstrip rest with
      | EmptyString => if is_space c then EmptyString else String c EmptyString
      | r => String c r
      end
  end.

(** The character loop of a ['string'] field. *)
Fixpoint text_loop (data : BitVector) (offset : Z) (idx : list Z)
  (value : string) : result string :=
  match idx with
  | [] => Ok value
  | i :: idx' =>
      k ← ubits data (offset + 6 * i) 6;
      c ← py_getitem (list_ascii_of_string sixbit_alphabet) k;
      text_loop data offset idx' (value ++ String c EmptyString)
  end.

(** The locals of one activation of [aivdm_unpack]: the cursor, the
    variable [value] (unbound until a field of a known type has been
    read) and the list under construction. *)
Record frame := mk_frame {
  offset : Z;
  value_ : option value;
  cooked : list cooked_field
}.

(** The [if]/[elif] chain on [inst.type]: the new binding of [value].
    A type that is none of the four leaves the variable as it was. *)
Definition field_value (data : BitVector) (offset : Z) (f : bitfield)
  (old : option value) : result (option value) :=
  if String.eqb (type f) "unsigned" then
    n ← ubits data offset (width f); Ok (Some (VInt n))
  else if String.eqb (type f) "signed" then
    n ← sbits data offset (width f); Ok (Some (VInt n))
  else if String.eqb (type f) "string" then
    s ← text_loop data offset (py_range 0 (width f / 6)) "";
    Ok (Some (VStr (rstrip (replace_at s))))
  else if String.eqb (type f) "raw" then
    Ok (Some (VRaw (BitVector_init (py_slice_from (bits data) (offset / 8))
                                   (Some (bitlen data - offset)))))
  else Ok old.

(** [inst.validator and not inst.validator(value)]. *)
Definition rejected (f : bitfield) (v : value) : bool :=
  match validator f with
  | None => false
  | Some p => negb (p v)
  end.

(** A list index has to be an integer. *)
Definition as_index (v : value) : result Z :=
  match v with
  | VInt n => Ok n
  | _ => Raise TypeError
  end.

(** The [for] loop over the instructions, for a given loop body: it
    stops as soon as the cursor has reached the bit length. *)
Section ForLoop.
Variable data : BitVector.
Variable body : inst -> frame -> gmap string value ->
                result (frame * gmap string value).

Fixpoint for_loop (instructions : list inst) (fr : frame)
  (values : gmap string value) : result (frame * gmap string value) :=
  match instructions with
  | [] => Ok (fr, values)
  | i :: rest =>
      if bitlen data <=? offset fr then Ok (fr, values)
      else
        '(fr', values') ← body i fr values;
        for_loop rest fr' values'
  end.
End ForLoop.

(** The loop body, one branch per instruction class.  A dispatch runs
    the loop of the selected subtype in a fresh frame at the current
    cursor, on the same [values] dictionary, and appends what it
    returns; the cursor of the caller is not touched. *)
Fixpoint unpack_inst (data : BitVector) (i : inst) (fr : frame)
  (values : gmap string value) {struct i}
  : result (frame * gmap string value) :=
  match i with
  | Spare w =>
      Ok (mk_frame (offset fr + w) (value_ fr) (cooked fr), values)
  | Dispatch fieldname subtypes compute =>
      let runs :=
        map (fun o => match o with
                      | None => None
                      | Some s => Some (for_loop data (unpack_inst data) s)
                      end) subtypes in
      v ← match values !! fieldname with
          | Some v => Ok v
          | None => Raise (KeyError fieldname)
          end;
      k ← as_index (compute v);
      sub ← py_getitem runs k;
      match sub with
      | None => Raise TypeError
      | Some run =>
          '(fr', values') ← run (mk_frame (offset fr) None []) values;
          Ok (mk_frame (offset fr) (value_ fr) (cooked fr ++ cooked fr'),
              values')
      end
  | Field f =>
      value ← field_value data (offset fr) f (value_ fr);
      match value with
      | None => Raise (UnboundLocalError "value")
      | Some v =>
          let values' := <[name f := v]> values in
          if rejected f v then Raise (AISUnpackingException (name f) v)
          else
            Ok (mk_frame (offset fr + width f) (Some v)
                  (cooked fr ++
                   [mk_cooked (name f) v (type f) (legend f)
                              (formatter f) false]),
                values')
      end
  end.

Definition unpack_loop (data : BitVector) (instructions : list inst)
  (fr : frame) (values : gmap string value)
  : result (frame * gmap string value) :=
  for_loop data (unpack_inst data) instructions fr values.

(** [aivdm_unpack(data, offset, values, instructions)]: the list it
    returns, with the dictionary as the call leaves it. *)
Definition aivdm_unpack (data : BitVector) (offset : Z)
  (values : gmap string value) (instructions : list inst)
  : result (list cooked_field * gmap string value) :=
  '(fr, values') ← unpack_loop data instructions (mk_frame offset None []) values;
  Ok (cooked fr, values').

(** ** The instruction tables *)

(** Python 2 orders an integer before a value of any other type, so a
    comparison of a string or a bit vector with an integer constant has
    a fixed outcome. *)
Definition py_ge (v : value) (k : Z) : bool :=
  match v with VInt n => k <=? n | _ => true end.
Definition py_gt (v : value) (k : Z) : bool :=
  match v with VInt n => k <? n | _ => true end.
Definition py_le (v : value) (k : Z) : bool :=
  match v with VInt n => n <=? k | _ => false end.
Definition py_ne (v : value) (k : Z) : bool :=
  match v with VInt n => negb (n =? k) | _ => true end.

(** [str(n)] for an integer. *)
Definition py_str_int (n : Z) : string := NilZero.string_of_int (Z.to_int n).

Definition hex_digit (d : Z) : ascii :=
  match nth_error (list_ascii_of_string "0123456789abcdef") (Z.to_nat d) with
  | Some c => c
  | None => "?"%char
  end.
(** ["%02x" % d] for a byte. *)
Definition hex2 (d : Z) : string :=
  String (hex_digit (d / 16)) (String (hex_digit (d mod 16)) EmptyString).

(** [BitVector.__repr__]. *)
Definition BitVector_repr (self : BitVector) : string :=
  py_str_int (bitlen self) ++ ":" ++
  String.concat "" (map hex2 (py_slice_to (bits self) ((bitlen self + 7) / 8))).

(** [repr(v)].  For a string only the opening quote is exact (the
    escapes of the body are not reproduced); the one caller reads the
    first two characters. *)
Definition py_repr (v : value) : string :=
  match v with
  | VInt n => py_str_int n
  | VStr s => "'" ++ s ++ "'"
  | VRaw b => BitVector_repr b
  end.

(** [s[:2]]. *)
Definition str_head2 (s : string) : string :=
  string_of_list_ascii (py_slice_to (list_ascii_of_string s) 2).

(** The [compute] hook of the second dispatch of message 24:
    [lambda m: 1 if `m`[:2]=='98' else 0]. *)
Definition type24b_compute (m : value) : value :=
  VInt (if String.eqb (str_head2 (py_repr m)) "98" then 1 else 0).

Definition cnb : list inst := [
  Field (mk_bitfield "status" 4 "unsigned" (Some 0) "Navigation Status"
           None (Some cnb_status_legends));
  Field (mk_bitfield "turn" 8 "signed" (Some (-128)) "Rate of Turn"
           None (Some cnb_rot_format));
  Field (mk_bitfield "speed" 10 "unsigned" (Some 1023) "Speed Over Ground"
           None (Some cnb_speed_format));
  Field (mk_bitfield "accuracy" 1 "unsigned" None "Position Accuracy"
           None None);
  Field (mk_bitfield "lon" 28 "signed" (Some 108600000) "Longitude"
           None (Some cnb_latlon_format));
  Field (mk_bitfield "lat" 27 "signed" (Some 54600000) "Latitude"
           None (Some cnb_latlon_format));
  Field (mk_bitfield "course" 12 "unsigned" (Some 3600) "Course Over Ground"
           None (Some cnb_course_format));
  Field (mk_bitfield "heading" 9 "unsigned" (Some 511) "True Heading"
           None None);
  Field (mk_bitfield "second" 6 "unsigned" None "Time Stamp"
           None (Some cnb_second_format));
  Field (mk_bitfield "maneuver" 2 "unsigned" None "Maneuver Indicator"
           None None);
  Spare 3;
  Field (mk_bitfield "raim" 1 "unsigned" None "RAIM flag"
           None None);
  Field (mk_bitfield "radio" 19 "unsigned" None "Radio status"
           None None)
].

Definition type4 : list inst := [
  Field (mk_bitfield "year" 14 "unsigned" (Some 0) "Year"
           None None);
  Field (mk_bitfield "month" 4 "unsigned" (Some 0) "Month"
           None None);
  Field (mk_bitfield "day" 5 "unsigned" (Some 0) "Day"
           None None);
  Field (mk_bitfield "hour" 5 "unsigned" (Some 24) "Hour"
           None None);
  Field (mk_bitfield "minute" 6 "unsigned" (Some 60) "Minute"
           None None);
  Field (mk_bitfield "second" 6 "unsigned" (Some 60) "Second"
           None None);
  Field (mk_bitfield "accuracy" 1 "unsigned" None "Fix quality"
           None None);
  Field (mk_bitfield "lon" 28 "signed" (Some 108600000) "Longitude"
           None (Some cnb_latlon_format));
  Field (mk_bitfield "lat" 27 "signed" (Some 54600000) "Latitude"
           None (Some cnb_latlon_format));
  Field (mk_bitfield "epfd" 4 "unsigned" None "Type of EPFD"
           (Some (fun n => py_ge n 0 && py_le n 8)) (Some epfd_type_legends));
  Spare 10;
  Field (mk_bitfield "raim" 1 "unsigned" None "RAIM flag "
           None None);
  Field (mk_bitfield "radio" 19 "unsigned" None "SOTDMA state"
           None None)
].

Definition type5 : list inst := [
  Field (mk_bitfield "ais_version" 2 "unsigned" None "AIS Version"
           None None);
  Field (mk_bitfield "imo_id" 30 "unsigned" (Some 0) "IMO Identification Number"
           None None);
  Field (mk_bitfield "callsign" 42 "string" None "Call Sign"
           None None);
  Field (mk_bitfield "shipname" 120 "string" None "Vessel Name"
           None None);
  Field (mk_bitfield "shiptype" 8 "unsigned" None "Ship Type"
           (Some (fun n => py_ge n 0 && py_le n 99)) (Some ship_type_legends));
  Field (mk_bitfield "to_bow" 9 "unsigned" (Some 0) "Dimension to Bow"
           None None);
  Field (mk_bitfield "to_stern" 9 "unsigned" (Some 0) "Dimension to Stern"
           None None);
  Field (mk_bitfield "to_port" 6 "unsigned" (Some 0) "Dimension to Port"
           None None);
  Field (mk_bitfield "to_starbord" 6 "unsigned" (Some 0) "Dimension to Starboard"
           None None);
  Field (mk_bitfield "epfd" 4 "unsigned" (Some 0) "Position Fix Type"
           (Some (fun n => py_ge n 0 && py_le n 8)) (Some epfd_type_legends));
  Field (mk_bitfield "month" 4 "unsigned" (Some 0) "ETA month"
           None None);
  Field (mk_bitfield "day" 5 "unsigned" (Some 0) "ETA day"
           None None);
  Field (mk_bitfield "hour" 5 "unsigned" (Some 24) "ETA hour"
           None None);
  Field (mk_bitfield "minute" 6 "unsigned" (Some 60) "ETA minute"
           None None);
  Field (mk_bitfield "second" 8 "unsigned" (Some 0) "Draught"
           None None);
  Field (mk_bitfield "destination" 120 "string" None "Destination"
           None None);
  Field (mk_bitfield "dte" 1 "unsigned" None "DTE"
           None None);
  Spare 1
].

Definition type6 : list inst := [
  Field (mk_bitfield "seqno" 2 "unsigned" None "Sequence Number"
           None None);
  Field (mk_bitfield "dest_mmsi" 30 "unsigned" None "Destination MMSI"
           None None);
  Field (mk_bitfield "retransmit" 1 "unsigned" None "Retransmit flag"
           None None);
  Spare 1;
  Field (mk_bitfield "application_id" 16 "unsigned" (Some 0) "Application ID"
           None None);
  Field (mk_bitfield "data" 920 "raw" None "Data"
           None None)
].

Definition type7 : list inst := [
  Spare 2;
  Field (mk_bitfield "mmsi1" 30 "unsigned" (Some 0) "MMSI number 1"
           None None);
  Spare 2;
  Field (mk_bitfield "mmsi2" 30 "unsigned" (Some 0) "MMSI number 2"
           None None);
  Spare 2;
  Field (mk_bitfield "mmsi3" 30 "unsigned" (Some 0) "MMSI number 3"
           None None);
  Spare 2;
  Field (mk_bitfield "mmsi1" 30 "unsigned" (Some 0) "MMSI number 4"
           None None);
  Spare 2
].

Definition type8 : list inst := [
  Spare 2;
  Field (mk_bitfield "application_id" 16 "unsigned" (Some 0) "Application ID"
           None None);
  Field (mk_bitfield "data" 952 "raw" None "Data"
           None None)
].

Definition type9 : list inst := [
  Field (mk_bitfield "alt" 12 "unsigned" (Some 4095) "Altitude"
           None (Some type9_alt_format));
  Field (mk_bitfield "speed" 10 "unsigned" (Some 1023) "SOG"
           None (Some type9_speed_format));
  Field (mk_bitfield "accuracy" 1 "unsigned" None "Position Accuracy"
           None None);
  Field (mk_bitfield "lon" 28 "signed" (Some 108600000) "Longitude"
           None (Some cnb_latlon_format));
  Field (mk_bitfield "lat" 27 "signed" (Some 54600000) "Latitude"
           None (Some cnb_latlon_format));
  Field (mk_bitfield "course" 12 "unsigned" (Some 3600) "Course Over Ground"
           None (Some cnb_course_format));
  Field (mk_bitfield "second" 6 "unsigned" (Some 60) "Time Stamp"
           None (Some cnb_second_format));
  Field (mk_bitfield "regional" 8 "unsigned" None "Regional reserved"
           None None);
  Field (mk_bitfield "dte" 1 "unsigned" None "DTE"
           None None);
  Spare 3;
  Field (mk_bitfield "assigned" 1 "unsigned" None "Assigned"
           None None);
  Field (mk_bitfield "raim" 1 "unsigned" None "RAIM flag"
           None None);
  Field (mk_bitfield "radio" 20 "unsigned" None "Radio status"
           None None)
].

Definition type10 : list inst := [
  Spare 2;
  Field (mk_bitfield "dest_mmsi" 30 "unsigned" None "Destination MMSI"
           None None);
  Spare 2
].

Definition type12 : list inst := [
  Field (mk_bitfield "seqno" 2 "unsigned" None "Sequence Number"
           None None);
  Field (mk_bitfield "dest_mmsi" 30 "unsigned" None "Destination MMSI"
           None None);
  Field (mk_bitfield "retransmit" 1 "unsigned" None "Retransmit flag"
           None None);
  Spare 1;
  Field (mk_bitfield "text" 936 "string" None "Text"
           None None)
].

Definition type14 : list inst := [
  Spare 1;
  Field (mk_bitfield "text" 968 "string" None "Text"
           None None)
].

Definition type15 : list inst := [
  Spare 2;
  Field (mk_bitfield "mmsi1" 30 "unsigned" (Some 0) "Interrogated MMSI"
           None None);
  Field (mk_bitfield "type1_1" 6 "unsigned" (Some 0) "First message type"
           None None);
  Field (mk_bitfield "offset1_1" 12 "unsigned" (Some 0) "First slot offset"
           None None);
  Spare 2;
  Field (mk_bitfield "type1_2" 6 "unsigned" (Some 0) "Second message ty"
           None None);
  Field (mk_bitfield "offset1_2" 12 "unsifned" (Some 0) "Second slot offset"
           None None);
  Spare 2;
  Field (mk_bitfield "mmsi2" 30 "unsigned" (Some 0) "Interrogated MMSI"
           None None);
  Field (mk_bitfield "type2_1" 6 "unsigned" (Some 0) "First message type"
           None None);
  Field (mk_bitfield "offset2_1" 12 "unsifned" (Some 0) "First slot offset"
           None None);
  Spare 2
].

Definition type16 : list inst := [
  Spare 2;
  Field (mk_bitfield "mmsi1" 30 "unsigned" (Some 0) "Interrogated MMSI"
           None None);
  Field (mk_bitfield "offset1  " 12 "unsigned" (Some 0) "First slot offset"
           None None);
  Field (mk_bitfield "increment1" 10 "unsigned" (Some 0) "Slot increment"
           None None);
  Spare 2;
  Field (mk_bitfield "mmsi2" 30 "unsigned" (Some 0) "Interrogated MMSI"
           None None);
  Field (mk_bitfield "offset2" 12 "unsifned" (Some 0) "First slot offset"
           None None);
  Field (mk_bitfield "increment2" 10 "unsigned" (Some 0) "Slot increment"
           None None);
  Spare 2
].

Definition type17 : list inst := [
  Spare 2;
  Field (mk_bitfield "lon" 18 "signed" (Some 108600) "Longitude"
           None (Some short_latlon_format));
  Field (mk_bitfield "lat" 17 "signed" (Some 54600) "Latitude"
           None (Some short_latlon_format));
  Spare 2;
  Field (mk_bitfield "data" 736 "raw" None "DGNSS data"
           None None)
].

Definition type18 : list inst := [
  Field (mk_bitfield "reserved" 8 "unsigned" None "Regional reserved"
           None None);
  Field (mk_bitfield "speed" 10 "unsigned" (Some 1023) "Speed Over Ground"
           None (Some cnb_speed_format));
  Field (mk_bitfield "accuracy" 1 "unsigned" None "Position Accuracy"
           None None);
  Field (mk_bitfield "lon" 28 "signed" (Some 108600000) "Longitude"
           None (Some cnb_latlon_format));
  Field (mk_bitfield "lat" 27 "signed" (Some 54600000) "Latitude"
           None (Some cnb_latlon_format));
  Field (mk_bitfield "course" 12 "unsigned" (Some 3600) "Course Over Ground"
           None (Some cnb_course_format));
  Field (mk_bitfield "heading" 9 "unsigned" (Some 511) "True Heading"
           None None);
  Field (mk_bitfield "second" 6 "unsigned" None "Time Stamp"
           None (Some cnb_second_format));
  Field (mk_bitfield "regional" 2 "unsigned" None "Regional reserved"
           None None);
  Field (mk_bitfield "cs" 1 "unsigned" None "CS Unit"
           None None);
  Field (mk_bitfield "display" 1 "unsigned" None "Display flag"
           None None);
  Field (mk_bitfield "dsc" 1 "unsigned" None "DSC flag"
           None None);
  Field (mk_bitfield "band" 1 "unsigned" None "Band flag"
           None None);
  Field (mk_bitfield "msg22" 1 "unsigned" None "Message 22 flag"
           None None);
  Field (mk_bitfield "assigned" 1 "unsigned" None "Assigned"
           None None);
  Field (mk_bitfield "raim" 1 "unsigned" None "RAIM flag"
           None None);
  Field (mk_bitfield "radio" 20 "unsigned" None "Radio status"
           None None)
].

Definition type19 : list inst := [
  Field (mk_bitfield "reserved" 8 "unsigned" None "Regional reserved"
           None None);
  Field (mk_bitfield "speed" 10 "unsigned" (Some 1023) "Speed Over Ground"
           None (Some cnb_speed_format));
  Field (mk_bitfield "accuracy" 1 "unsigned" None "Position Accuracy"
           None None);
  Field (mk_bitfield "lon" 28 "signed" (Some 108600000) "Longitude"
           None (Some cnb_latlon_format));
  Field (mk_bitfield "lat" 27 "signed" (Some 54600000) "Latitude"
           None (Some cnb_latlon_format));
  Field (mk_bitfield "course" 12 "unsigned" (Some 3600) "Course Over Ground"
           None (Some cnb_course_format));
  Field (mk_bitfield "heading" 9 "unsigned" (Some 511) "True Heading"
           None None);
  Field (mk_bitfield "second" 6 "unsigned" None "Time Stamp"
           None (Some cnb_second_format));
  Field (mk_bitfield "regional" 4 "unsigned" None "Regional reserved"
           None None);
  Field (mk_bitfield "shipname" 120 "string" None "Vessel Name"
           None None);
  Field (mk_bitfield "shiptype" 8 "unsigned" None "Ship Type"
           (Some (fun n => py_ge n 0 && py_le n 99)) (Some ship_type_legends));
  Field (mk_bitfield "to_bow" 9 "unsigned" (Some 0) "Dimension to Bow"
           None None);
  Field (mk_bitfield "to_stern" 9 "unsigned" (Some 0) "Dimension to Stern"
           None None);
  Field (mk_bitfield "to_port" 6 "unsigned" (Some 0) "Dimension to Port"
           None None);
  Field (mk_bitfield "to_starbord" 6 "unsigned" (Some 0) "Dimension to Starboard"
           None None);
  Field (mk_bitfield "epfd" 4 "unsigned" (Some 0) "Position Fix Type"
           (Some (fun n => py_ge n 0 && py_le n 8)) (Some epfd_type_legends));
  Field (mk_bitfield "assigned" 1 "unsigned" None "Assigned"
           None None);
  Field (mk_bitfield "raim" 1 "unsigned" None "RAIM flag"
           None None);
  Field (mk_bitfield "radio" 20 "unsigned" None "Radio status"
           None None)
].

Definition type20 : list inst := [
  Spare 2;
  Field (mk_bitfield "offset1" 12 "unsigned" (Some 0) "Offset number"
           None None);
  Field (mk_bitfield "number1" 4 "unsigned" (Some 0) "Reserved slots"
           None None);
  Field (mk_bitfield "timeout1" 3 "unsigned" (Some 0) "Time-out"
           None None);
  Field (mk_bitfield "increment1" 11 "unsigned" (Some 0) "Increment"
           None None);
  Field (mk_bitfield "offset2" 12 "unsigned" (Some 0) "Offset number 2"
           None None);
  Field (mk_bitfield "number2" 4 "unsigned" (Some 0) "Reserved slots"
           None None);
  Field (mk_bitfield "timeout2" 3 "unsigned" (Some 0) "Time-out"
           None None);
  Field (mk_bitfield "increment2" 11 "unsigned" (Some 0) "Increment"
           None None);
  Field (mk_bitfield "offset3" 12 "unsigned" (Some 0) "Offset number 3"
           None None);
  Field (mk_bitfield "number3" 4 "unsigned" (Some 0) "Reserved slots"
           None None);
  Field (mk_bitfield "timeout3" 3 "unsigned" (Some 0) "Time-out"
           None None);
  Field (mk_bitfield "increment3" 11 "unsigned" (Some 0) "Increment"
           None None);
  Field (mk_bitfield "offset4" 12 "unsigned" (Some 0) "Offset number 4"
           None None);
  Field (mk_bitfield "number4" 4 "unsigned" (Some 0) "Reserved slots"
           None None);
  Field (mk_bitfield "timeout4" 3 "unsigned" (Some 0) "Time-out"
           None None);
  Field (mk_bitfield "increment4" 11 "unsigned" (Some 0) "Increment"
           None None)
].

Definition type21 : list inst := [
  Field (mk_bitfield "type" 5 "unisigned" (Some 0) "Aid type"
           None (Some aide_type_legends));
  Field (mk_bitfield "name" 120 "string" None "Name"
           None None);
  Field (mk_bitfield "accuracy" 1 "unsigned" (Some 0) "Position Accuracy"
           None None);
  Field (mk_bitfield "lon" 28 "signed" (Some 108600000) "Longitude"
           None (Some cnb_latlon_format));
  Field (mk_bitfield "lat" 27 "signed" (Some 54600000) "Latitude"
           None (Some cnb_latlon_format));
  Field (mk_bitfield "to_bow" 9 "unsigned" (Some 0) "Dimension to Bow"
           None None);
  Field (mk_bitfield "to_stern" 9 "unsigned" (Some 0) "Dimension to Stern"
           None None);
  Field (mk_bitfield "to_port" 6 "unsigned" (Some 0) "Dimension to Port"
           None None);
  Field (mk_bitfield "to_starboard" 6 "unsigned" (Some 0) "Dimension to Starboard"
           None None);
  Field (mk_bitfield "epfd" 4 "unsigned" (Some 0) "Position Fix Type"
           (Some (fun n => py_ge n 0 && py_le n 8)) (Some epfd_type_legends));
  Field (mk_bitfield "second" 6 "unsigned" (Some 0) "UTC Second"
           None None);
  Field (mk_bitfield "off_position" 1 "unsigned" (Some 0) "Off-Position Indicator"
           None None);
  Field (mk_bitfield "regional" 8 "unsigned" (Some 0) "Regional reserved"
           None None);
  Field (mk_bitfield "raim" 1 "unsigned" (Some 0) "RAIM flag"
           None None);
  Field (mk_bitfield "virtual_aid" 1 "unsigned" (Some 0) "Virtual-aid flag"
           None None);
  Field (mk_bitfield "assigned" 1 "unsigned" (Some 0) "Assigned-mode flag"
           None None);
  Spare 2;
  Field (mk_bitfield "name" 88 "string" (Some 0) "Name Extension"
           None None)
].

Definition type22 : list inst := [
  Spare 2;
  Field (mk_bitfield "channel_a" 12 "unsigned" (Some 0) "Channel A"
           None None);
  Field (mk_bitfield "channel_b" 12 "unsigned" (Some 0) "Channel B"
           None None);
  Field (mk_bitfield "mode" 4 "unsigned" (Some 0) "Tx/Rx mode"
           None None);
  Field (mk_bitfield "power" 1 "unsigned" (Some 0) "Power"
           None None);
  Field (mk_bitfield "ne_lon" 18 "unsigned" (Some 108600) "NE Longitude"
           None (Some short_latlon_format));
  Field (mk_bitfield "ne_lat" 17 "unsigned" (Some 54600) "NE Latitude"
           None (Some short_latlon_format));
  Field (mk_bitfield "sw_lon" 18 "unsigned" (Some 108600) "SW Longitude"
           None (Some short_latlon_format));
  Field (mk_bitfield "sw_lat" 17 "unsigned" (Some 54600) "SW Latitude"
           None (Some short_latlon_format));
  Field (mk_bitfield "addressed" 1 "unsigned" (Some 0) "Addressed"
           None None);
  Field (mk_bitfield "band_a" 1 "unsigned" (Some 0) "Channel A Band"
           None None);
  Field (mk_bitfield "band_a" 1 "unsigned" (Some 0) "Channel A Band"
           None None);
  Field (mk_bitfield "zonesize" 3 "unsigned" (Some 0) "Zone size"
           None None);
  Spare 23
].

Definition type24a : list inst := [
  Field (mk_bitfield "shipname" 120 "string" None "Vessel Name"
           None None);
  Spare 8
].

Definition type24b1 : list inst := [
  Field (mk_bitfield "callsign" 42 "string" None "Call Sign"
           None None);
  Field (mk_bitfield "to_bow" 9 "unsigned" (Some 0) "Dimension to Bow"
           None None);
  Field (mk_bitfield "to_stern" 9 "unsigned" (Some 0) "Dimension to Stern"
           None None);
  Field (mk_bitfield "to_port" 6 "unsigned" (Some 0) "Dimension to Port"
           None None);
  Field (mk_bitfield "to_starbord" 6 "unsigned" (Some 0) "Dimension to Starboard"
           None None);
  Spare 8
].

Definition type24b2 : list inst := [
  Field (mk_bitfield "mothership_mmsi" 30 "unsigned" (Some 0) "Mothership MMSI"
           None None);
  Spare 8
].

Definition type24b : list inst := [
  Field (mk_bitfield "shiptype" 8 "unsigned" None "Ship Type"
           (Some (fun n => py_ge n 0 && py_le n 99)) (Some ship_type_legends));
  Field (mk_bitfield "vendorid" 42 "string" None "Vendor ID"
           None None);
  Dispatch "mmsi"
      [Some type24b1; Some type24b2]
      type24b_compute
].

Definition type24 : list inst := [
  Field (mk_bitfield "partno" 2 "unsigned" None "Part Number"
           None None);
  Dispatch "partno"
      [Some type24a; Some type24b]
      (fun x => x)
].

Definition aivdm_decode : list inst := [
  Field (mk_bitfield "msgtype" 6 "unsigned" (Some 0) "Message Type"
           (Some (fun n => py_gt n 0 && py_le n 24 && py_ne n 23)) None);
  Field (mk_bitfield "repeat" 2 "unsigned" None "Repeat Indicator"
           None None);
  Field (mk_bitfield "mmsi" 30 "unsigned" (Some 0) "MMSI"
           None None);
  Dispatch "msgtype"
      [None; Some cnb; Some cnb; Some cnb; Some type4; Some type5;
       Some type6; Some type7; Some type8; Some type9; Some type10;
       Some type4; Some type12; Some type7; Some type14; Some type15;
       Some type16; Some type17; Some type18; Some type19; Some type20;
       Some type21; Some type22; None; Some type24]
      (fun x => x)
].


(** ** The driver ([parse_ais_messages]) *)

(** [line.split(",")]. *)
Fixpoint split (sep : ascii) (s : string) : list string :=
  match s with
  | EmptyString => [EmptyString]
  | String c rest =>
      if Ascii.eqb c sep then EmptyString :: split sep rest
      else match split sep rest with
           | h :: t => String c h :: t
           | [] => [String c EmptyString]
           end
  end.

(** Fragment assembly for one line: the new accumulator, and whether
    the line is past the [continue] (the payload is complete). *)
Definition assemble (payload : string) (line : string)
  : result (string * bool) :=
  let fields := split ","%char line in
  expect ← py_getitem fields 1;
  fragment ← py_getitem fields 2;
  let payload := if String.eqb fragment "1" then "" else payload in
  seg ← py_getitem fields 5;
  let payload := payload ++ seg in
  Ok (payload, negb (String.ltb fragment expect)).

(** ["%02d" % v]. *)
Definition fmt_02d (v : value) : result string :=
  match v with
  | VInt n =>
      let s := py_str_int n in
      Ok (if Nat.ltb (String.length s) 2 then "0" ++ s else s)
  | _ => Raise TypeError
  end.

(** [fmt % args] for a format made of [%02d] conversions, each followed
    by a literal piece. *)
Fixpoint fmt_join (pieces : list string) (args : list value) : result string :=
  match args, pieces with
  | [], [] => Ok ""
  | a :: args', p :: pieces' =>
      s ← fmt_02d a;
      r ← fmt_join pieces' args';
      Ok (s ++ p ++ r)
  | _, _ => Raise TypeError
  end.

Record field_group := mk_group {
  g_offset : Z;
  g_template : list string;
  g_label : string;
  g_legend : string;
  g_formatter : list value -> result string
}.

Definition field_groups : list field_group := [
  (* This one occurs in message type 4 *)
  mk_group 3 ["year"; "month"; "day"; "hour"; "minute"; "second"]
    "time" "Timestamp"
    (fmt_join [":"; ":"; "T"; ":"; ":"; "Z"]);
  (* This one is in message 5 *)
  mk_group 13 ["month"; "day"; "hour"; "minute"; "second"]
    "eta" "Estimated Time of Arrival"
    (fmt_join [":"; "T"; ":"; ":"; "Z"])
].

(** The grouping pass. *)
Fixpoint group_fields (groups : list field_group) (cooked : list cooked_field)
  : result (list cooked_field) :=
  match groups with
  | [] => Ok cooked
  | g :: groups' =>
      let hi := g_offset g + Z.of_nat (length (g_template g)) in
      let segment := py_slice cooked (g_offset g) hi in
      if decide (map c_name segment = g_template g) then
        group ← g_formatter g (map c_value segment);
        group_fields groups'
          (py_slice_to cooked (g_offset g) ++
           [mk_cooked (g_label g) (VStr group) "string" (g_legend g) None true]
           ++ py_slice_from cooked hi)
      else group_fields groups' cooked
  end.

(** [a + b] on decoded values. *)
Definition py_add (a b : value) : result value :=
  match a, b with
  | VInt x, VInt y => Ok (VInt (x + y))
  | VStr x, VStr y => Ok (VStr (x ++ y))
  | _, _ => Raise TypeError
  end.

Definition set_value (c : cooked_field) (v : value) : cooked_field :=
  mk_cooked (c_name c) v (c_type c) (c_legend c) (c_formatter c) (c_tuple c).

(** The extension pass.  [for j in range(i+1, len(cooked))]: the range
    is fixed when the loop starts, the list is read as it is at each
    step. *)
Fixpoint merge_inner (i : Z) (js : list Z) (cooked : list cooked_field)
  (retry : bool) : result (list cooked_field * bool) :=
  match js with
  | [] => Ok (cooked, retry)
  | j :: js' =>
      cj ← py_getitem cooked j;
      if String.eqb (c_type cj) "string" then
        ci ← py_getitem cooked i;
        if String.eqb (c_name ci) (c_name cj) then
          v ← py_add (c_value ci) (c_value cj);
          if c_tuple ci then Raise TypeError
          else
            cooked1 ← py_setitem cooked i (set_value ci v);
            merge_inner i js'
              (py_slice_to cooked1 j ++ py_slice_from cooked1 (j + 1)) true
        else merge_inner i js' cooked retry
      else merge_inner i js' cooked retry
  end.

(** [for i in range(len(cooked))], the range again fixed at entry. *)
Fixpoint merge_outer (idx : list Z) (cooked : list cooked_field)
  (retry : bool) : result (list cooked_field * bool) :=
  match idx with
  | [] => Ok (cooked, retry)
  | i :: idx' =>
      ci ← py_getitem cooked i;
      if String.eqb (c_type ci) "string" then
        '(cooked', retry') ←
          merge_inner i (py_range (i + 1) (Z.of_nat (length cooked)))
                      cooked retry;
        merge_outer idx' cooked' retry'
      else merge_outer idx' cooked retry
  end.

(** [while retry]: [None] stands for a loop that has not ended within
    [fuel] rounds. *)
Fixpoint merge_while (fuel : nat) (cooked : list cooked_field)
  : option (result (list cooked_field)) :=
  match fuel with
  | O => None
  | S fuel' =>
      match merge_outer (py_range 0 (Z.of_nat (length cooked))) cooked false with
      | Raise e => Some (Raise e)
      | Ok (cooked', true) => merge_while fuel' cooked'
      | Ok (cooked', false) => Some (Ok cooked')
      end
  end.

(** Each round that asks for another one has shortened the list, so
    [length cooked + 1] rounds are enough. *)
Definition extension_merge (cooked : list cooked_field)
  : option (result (list cooked_field)) :=
  merge_while (S (length cooked)) cooked.

(** One assembled payload through the decoder, with [scaled] false. *)
Definition decode_payload (payload : string)
  : option (result (list cooked_field)) :=
  match (bits ← from_sixbit BitVector_new payload;
         '(cooked, _) ← aivdm_unpack bits 0 ∅ aivdm_decode;
         group_fields field_groups cooked) with
  | Raise e => Some (Raise e)
  | Ok cooked => extension_merge cooked
  end.

(** The generator, on the lines [source.readline()] returns in turn:
    the records yielded, and the exception that ended it, if any.
    [values] is empty at every call of the unpacker: it is emptied
    before each [yield] and only the unpacker writes to it. *)
Fixpoint parse_ais_messages (source : list string) (payload : string)
  : option (list (list cooked_field) * option exn) :=
  match source with
  | [] => Some ([], None)
  | line :: source' =>
      if String.eqb line "" then Some ([], None)
      else if String.prefix "#" line then parse_ais_messages source' payload
      else
        match assemble payload line with
        | Raise e => Some ([], Some e)
        | Ok (payload', complete) =>
            if negb complete then parse_ais_messages source' payload'
            else
              match decode_payload payload' with
              | None => None
              | Some (Raise e) => Some ([], Some e)
              | Some (Ok cooked) =>
                  match parse_ais_messages source' payload' with
                  | None => None
                  | Some (rest, e) => Some (cooked :: rest, e)
                  end
              end
        end
  end.

(** The payloads that reach the decoder, the decoder left aside. *)
Fixpoint assembled (source : list string) (payload : string)
  : result (list string) :=
  match source with
  | [] => Ok []
  | line :: source' =>
      if String.eqb line "" then Ok []
      else if String.prefix "#" line then assembled source' payload
      else
        st ← assemble payload line;
        rest ← assembled source' (fst st);
        Ok (if (snd st : bool) then fst st :: rest else rest)
  end.

(** The dispatch lookup: the subtype entry a dispatch selects. *)
Definition select (values : gmap string value) (fieldname : string)
  (subtypes : list (option (list inst))) (compute : value -> value)
  : result (option (list inst)) :=
  v ← match values !! fieldname with
      | Some v => Ok v
      | None => Raise (KeyError fieldname)
      end;
  k ← as_index (compute v);
  py_getitem subtypes k.

(** ** Sample inputs *)

(** A ['raw'] field, as the tables declare them. *)
Definition raw_field : bitfield :=
  mk_bitfield "data" 920 "raw" None "Data" None None.

(** One byte [00001111]. *)
Definition low_nibble : BitVector := mkBitVector [15] 8.

(** An unsigned byte field, and a schema in which a field follows a
    dispatch node. *)
Definition byte_field (n : string) : bitfield :=
  mk_bitfield n 8 "unsigned" None n None None.

Definition after_dispatch : list inst := [
  Field (byte_field "a");
  Dispatch "a" [Some [Field (byte_field "b")]] (fun x => x);
  Field (byte_field "c")
].

Definition three_bytes : BitVector := mkBitVector [0; 1; 2] 24.

(** ** Reaching a field *)

(** [Encounter data instructions fr values f v]: the loop started on
    [instructions] in frame [fr] with dictionary [values] comes to
    field [f], at any depth of dispatch, every instruction before it
    having completed without an exception, and reads the value [v]
    for it. *)
Inductive Encounter (data : BitVector) :
  list inst -> frame -> gmap string value -> bitfield -> value -> Prop :=
| enc_here f rest fr values v :
    offset fr < bitlen data ->
    field_value data (offset fr) f (value_ fr) = Ok (Some v) ->
    Encounter data (Field f :: rest) fr values f v
| enc_sub fieldname subtypes compute rest fr values sub f v :
    offset fr < bitlen data ->
    select values fieldname subtypes compute = Ok (Some sub) ->
    Encounter data sub (mk_frame (offset fr) None []) values f v ->
    Encounter data (Dispatch fieldname subtypes compute :: rest) fr values f v
| enc_next i rest fr values fr' values' f v :
    offset fr < bitlen data ->
    unpack_inst data i fr values = Ok (fr', values') ->
    Encounter data rest fr' values' f v ->
    Encounter data (i :: rest) fr values f v.

(** The nesting size of a schema, for induction through dispatches. *)
Fixpoint inst_size (i : inst) : nat :=
  match i with
  | Dispatch _ subtypes _ =>
      S (list_sum (map (fun o => match o with
                                 | None => O
                                 | Some s => list_sum (map inst_size s)
                                 end) subtypes))
  | _ => 1%nat
  end.
Definition schema_size (s : list inst) : nat := list_sum (map inst_size s).

(** The payload of a class A position report, and its bit buffer. *)
Definition sample_payload : string := "15M67FC000G?ufbE`FepT@3n00Sa".

Definition sample_bits : BitVector :=
  match from_sixbit BitVector_new sample_payload with
  | Ok bv => bv
  | Raise _ => BitVector_new
  end.

(** The state of the unpacker after the three leading fields of it. *)
Definition sample_fr3 : frame :=
  mk_frame 38 (Some (VInt 366053209))
    [mk_cooked "msgtype" (VInt 1) "unsigned" "Message Type" None false;
     mk_cooked "repeat" (VInt 0) "unsigned" "Repeat Indicator" None false;
     mk_cooked "mmsi" (VInt 366053209) "unsigned" "MMSI" None false].

Definition sample_values3 : gmap string value :=
  <["mmsi" := VInt 366053209]>
    (<["repeat" := VInt 0]> (<["msgtype" := VInt 1]> ∅)).

(** ** The layout of a schema *)

(** The start offset of each field when the walk begins at [off]: a
    spare and a field advance the cursor by their width, a dispatch
    leaves it where it is. *)
Fixpoint layout (off : Z) (instructions : list inst) : list (Z * bitfield) :=
  match instructions with
  | [] => []
  | Spare w :: rest => layout (off + w) rest
  | Dispatch _ _ _ :: rest => layout off rest
  | Field f :: rest => (off, f) :: layout (off + width f) rest
  end.

(** The declared width of a schema: its spares and fields added up. *)
Fixpoint total_width (instructions : list inst) : Z :=
  match instructions with
  | [] => 0
  | Spare w :: rest => w + total_width rest
  | Dispatch _ _ _ :: rest => total_width rest
  | Field f :: rest => width f + total_width rest
  end.

Definition started (data : BitVector) (p : Z * bitfield) : bool :=
  fst p <? bitlen data.

Definition known_type (t : string) : bool :=
  String.eqb t "unsigned" || String.eqb t "signed" ||
  String.eqb t "string" || String.eqb t "raw".

(** A schema without dispatch, of spares and fields of the four types
    with positive widths. *)
Definition flat (i : inst) : bool :=
  match i with
  | Spare w => 0 <=? w
  | Dispatch _ _ _ => false
  | Field f => (0 <? width f) && known_type (type f)
  end.



(** The record [c] is field [snd p] read at offset [fst p]. *)
Definition decoded_at (data : BitVector) (c : cooked_field)
  (p : Z * bitfield) : Prop :=
  c = mk_cooked (name (snd p)) (c_value c) (type (snd p)) (legend (snd p))
                (formatter (snd p)) false /\
  field_value data (fst p) (snd p) None = Ok (Some (c_value c)).

(** ** Sentences *)

(** An AIVDM sentence announcing [expect] fragments, being fragment
    [number] with payload segment [seg] (channel A, fill and checksum
    fields as the driver ignores them). *)
Definition sentence (expect number : Z) (seg : string) : string :=
  String.concat ","
    ["!AIVDM"; py_str_int expect; py_str_int number; ""; "A"; seg; "0*00"].

Fixpoint no_comma (s : string) : bool :=
  match s with
  | EmptyString => true
  | String c rest => negb (Ascii.eqb c ",") && no_comma rest
  end.

(** A record of two text fields of one name, the second its extension. *)
Definition alfa_bravo : list cooked_field := [
  mk_cooked "name" (VStr "ALFA") "string" "Name" None false;
  mk_cooked "name" (VStr "BRAVO") "string" "Name Extension" None false
].

(** ** Message 1 ([ais_msg_1.py]) *)

(** Modelled from the spec: the class [aisutils.BitVector] and the
    helpers of [aisutils.binary] that [encode] and [decode] call are
    not under src/.  A bit vector is the list of its bits, the first
    bit first; an integer is laid down most significant bit first, as
    the spec has it for the unsigned extraction. *)
Definition bitvec := list bool.

(** Modelled from the spec: [int(bv)], the big-endian value. *)
Definition bv_to_int (bv : bitvec) : Z :=
  fold_left (fun acc (b : bool) => 2 * acc + Z.b2z b) bv 0.

(** Modelled from the spec: [BitVector(intVal=n)], the bits of [n]
    without leading zeros (one bit for 0); a negative [n] is refused. *)
Fixpoint pos_bits (p : positive) (acc : bitvec) : bitvec :=
  match p with
  | xH => true :: acc
  | xO q => pos_bits q (false :: acc)
  | xI q => pos_bits q (true :: acc)
  end.
Definition bv_of_int (n : Z) : result bitvec :=
  match n with
  | Z0 => Ok [false]
  | Zpos p => Ok (pos_bits p [])
  | Zneg _ => Raise ValueError
  end.

(** Modelled from the spec: [binary.setBitVectorSize(bv, size)], zeros
    added in front up to [size] bits; a longer vector is left alone. *)
Definition setBitVectorSize (bv : bitvec) (size : nat) : bitvec :=
  (repeat false (size - length bv)%nat ++ bv)%list.

(** Modelled from the spec: [binary.bvFromSignedInt(n, size)], the
    two's-complement rendering of [n] in [size] bits ("if the top bit
    is set, value = raw - 2^width"). *)
Definition bvFromSignedInt (n : Z) (size : nat) : bitvec :=
  map (fun k => Z.testbit n (Z.of_nat k)) (rev (seq 0 size)).

(** Modelled from the spec: [binary.signedIntFromBV(bv)]. *)
Definition signedIntFromBV (bv : bitvec) : Z :=
  match bv with
  | true :: _ => bv_to_int bv - 2 ^ Z.of_nat (length bv)
  | _ => bv_to_int bv
  end.

(** Modelled from the spec: [binary.joinBV(bvList)]. *)
Definition joinBV (bvList : list bitvec) : bitvec := concat bvList.

(** Modelled from the spec: a [Decimal] is taken as the rational it
    denotes: products are exact, [int(d)] truncates toward zero, and
    the quotients [decode] returns are kept exact (Python rounds them
    to 28 significant digits). *)
Definition int_of_Decimal (d : Q) : Z := Z.quot (Qnum d) (Zpos (Qden d)).

(** The values of a parameter dictionary. *)
Inductive pval :=
| PInt (n : Z)
| PDec (d : Q)
| PBool (b : bool).

(** [params[key]] where an integer is expected, a Decimal is
    expected, and as a truth value. *)
Definition get_int (params : gmap string pval) (key : string) : result Z :=
  match params !! key with
  | Some (PInt n) => Ok n
  | Some (PBool b) => Ok (Z.b2z b)
  | Some (PDec _) => Raise TypeError
  | None => Raise (KeyError key)
  end.
Definition get_dec (params : gmap string pval) (key : string) : result Q :=
  match params !! key with
  | Some (PInt n) => Ok (inject_Z n)
  | Some (PBool b) => Ok (inject_Z (Z.b2z b))
  | Some (PDec d) => Ok d
  | None => Raise (KeyError key)
  end.
Definition get_truth (params : gmap string pval) (key : string) : result bool :=
  match params !! key with
  | Some (PInt n) => Ok (negb (n =? 0))
  | Some (PBool b) => Ok b
  | Some (PDec d) => Ok (negb (Qnum d =? 0))
  | None => Raise (KeyError key)
  end.

(** [binary.setBitVectorSize(BitVector(intVal=n), size)]. *)
Definition uint (n : Z) (size : nat) : result bitvec :=
  bv ← bv_of_int n; Ok (setBitVectorSize bv size).

(** [if key in params: ... params[key] ... else: ... default ...]. *)
Definition opt_int (params : gmap string pval) (key : string) (default : Z)
  : result Z :=
  match params !! key with
  | Some _ => get_int params key
  | None => Ok default
  end.
Definition opt_scaled (params : gmap string pval) (key : string)
  (scale : Z) (default : Z) : result Z :=
  match params !! key with
  | Some _ => d ← get_dec params key;
              Ok (int_of_Decimal (d * inject_Z scale)%Q)
  | None => Ok default
  end.

Definition TrueBV : bitvec := [true].
Definition FalseBV : bitvec := [false].

Definition encode (params : gmap string pval) : result bitvec :=
  b_id ← uint 1 6;
  ri ← opt_int params "RepeatIndicator" 0; b_ri ← uint ri 2;
  uid ← get_int params "UserID"; b_uid ← uint uid 30;
  ns ← opt_int params "NavigationStatus" 15; b_ns ← uint ns 4;
  rot ← opt_int params "ROT" (-128);
  sog ← opt_scaled params "SOG" 10 1023; b_sog ← uint sog 10;
  pa ← get_int params "PositionAccuracy"; b_pa ← uint pa 1;
  lon ← opt_scaled params "longitude" 600000 108600000;
  lat ← opt_scaled params "latitude" 600000 54600000;
  cog ← opt_scaled params "COG" 10 3600; b_cog ← uint cog 12;
  th ← opt_int params "TrueHeading" 511; b_th ← uint th 9;
  ts ← opt_int params "TimeStamp" 60; b_ts ← uint ts 6;
  b_rr ← uint 0 4;
  b_sp ← uint 0 1;
  raim ← get_truth params "RAIM";
  ss ← get_int params "state_syncstate"; b_ss ← uint ss 2;
  st ← get_int params "state_slottimeout"; b_st ← uint st 3;
  so ← get_int params "state_slotoffset"; b_so ← uint so 14;
  Ok (joinBV [b_id; b_ri; b_uid; b_ns; bvFromSignedInt rot 8; b_sog; b_pa;
              bvFromSignedInt lon 28; bvFromSignedInt lat 27; b_cog; b_th;
              b_ts; b_rr; b_sp; (if (raim : bool) then TrueBV else FalseBV);
              b_ss; b_st; b_so]).

(** [int(bv[a:b])] and [binary.signedIntFromBV(bv[a:b])]. *)
Definition int_slice (bv : bitvec) (a b : Z) : Z := bv_to_int (py_slice bv a b).
Definition sint_slice (bv : bitvec) (a b : Z) : Z :=
  signedIntFromBV (py_slice bv a b).

(** [Decimal(n) / Decimal(d)]. *)
Definition dec_div (n : Z) (d : positive) : Q := Qmake n d.

Definition decode (bv : bitvec) : gmap string pval :=
  <["state_slotoffset" := PInt (int_slice bv 154 168)]> (
  <["state_slottimeout" := PInt (int_slice bv 151 154)]> (
  <["state_syncstate" := PInt (int_slice bv 149 151)]> (
  <["RAIM" := PBool (negb (int_slice bv 148 149 =? 0))]> (
  <["Spare" := PInt 0]> (
  <["RegionalReserved" := PInt 0]> (
  <["TimeStamp" := PInt (int_slice bv 137 143)]> (
  <["TrueHeading" := PInt (int_slice bv 128 137)]> (
  <["COG" := PDec (dec_div (int_slice bv 116 128) 10)]> (
  <["latitude" := PDec (dec_div (sint_slice bv 89 116) 600000)]> (
  <["longitude" := PDec (dec_div (sint_slice bv 61 89) 600000)]> (
  <["PositionAccuracy" := PInt (int_slice bv 60 61)]> (
  <["SOG" := PDec (dec_div (int_slice bv 50 60) 10)]> (
  <["ROT" := PInt (sint_slice bv 42 50)]> (
  <["NavigationStatus" := PInt (int_slice bv 38 42)]> (
  <["UserID" := PInt (int_slice bv 8 38)]> (
  <["RepeatIndicator" := PInt (int_slice bv 6 8)]> (
  <["MessageID" := PInt 1]> ∅))))))))))))))))).

(** The parameter dictionary of [testParams()]. *)
Definition testParams : gmap string pval :=
  <["state_slotoffset" := PInt 1221]> (
  <["state_slottimeout" := PInt 0]> (
  <["state_syncstate" := PInt 2]> (
  <["RAIM" := PBool false]> (
  <["Spare" := PInt 0]> (
  <["RegionalReserved" := PInt 0]> (
  <["TimeStamp" := PInt 35]> (
  <["TrueHeading" := PInt 41]> (
  <["COG" := PDec (345 # 10)%Q]> (
  <["latitude" := PDec (37424458333333334 # 1000000000000000)%Q]> (
  <["longitude" := PDec (-12216328055555556 # 100000000000000)%Q]> (
  <["PositionAccuracy" := PInt 1]> (
  <["SOG" := PDec (1019 # 10)%Q]> (
  <["ROT" := PInt (-2)]> (
  <["NavigationStatus" := PInt 3]> (
  <["UserID" := PInt 1193046]> (
  <["RepeatIndicator" := PInt 1]> (
  <["MessageID" := PInt 1]> ∅))))))))))))))))).







(** ** Auxiliary predicates *)

(** No bit is set from the bit length on. *)
Definition clean (self : BitVector) : Prop :=
  forall q, bitlen self <= q -> getbit self q = false.

(** The exceptions of the extraction layer. *)
Definition low_level (e : exn) : Prop :=
  match e with
  | IndexError | ValueError => True
  | _ => False
  end.

(** ** Further sample inputs *)

(** Two bytes [00001111 11110000]. *)
Definition two_bytes : BitVector := mkBitVector [15; 240] 16.


(** ** The records and the dictionary *)

(** The dictionary [values] after the records [recs] have been stored
    in it, one after the other, under their names. *)
Definition record_all (values : gmap string value) (recs : list cooked_field)
  : gmap string value :=
  fold_left (fun m c => <[c_name c := c_value c]> m) recs values.

(** The fields of a schema, those of every subtype of its dispatch
    nodes included. *)
Fixpoint inst_fields (i : inst) : list bitfield :=
  match i with
  | Spare _ => []
  | Dispatch _ subtypes _ =>
      concat (map (fun o => match o with
                            | None => []
                            | Some s => concat (map inst_fields s)
                            end) subtypes)
  | Field f => [f]
  end.
Definition schema_fields (s : list inst) : list bitfield :=
  concat (map inst_fields s).

(** The record [c] is the list the unpacker builds for field [f] of
    the buffer [data]: its value is what the type chain of [f] left in
    the variable [value] at some cursor, and the validator of [f] lets
    it through. *)
Definition cooked_from (data : BitVector) (f : bitfield) (c : cooked_field)
  : Prop :=
  c = mk_cooked (name f) (c_value c) (type f) (legend f) (formatter f) false
  /\ rejected f (c_value c) = false
  /\ exists o old, field_value data o f old = Ok (Some (c_value c)).

(** The last character of a string. *)
Fixpoint last_char (s : string) : option ascii :=
  match s with
  | EmptyString => None
  | String c EmptyString => Some c
  | String _ rest => last_char rest
  end.

(** The record the unpacker builds for field [f] holding [v]. *)
Definition cook (f : bitfield) (v : value) : cooked_field :=
  mk_cooked (name f) v (type f) (legend f) (formatter f) false.

(** ** Dispatch selectors *)

(** The names stored in the dictionary once instruction [i] has
    completed, [bound] being those stored before it. *)
Definition bound_after (i : inst) (bound : list string) : list string :=
  match i with
  | Field f => name f :: bound
  | _ => bound
  end.

Section KeyedLoop.
Variable check : list string -> inst -> bool.

Fixpoint keyed_loop (bound : list string) (instructions : list inst) : bool :=
  match instructions with
  | [] => true
  | i :: rest => check bound i && keyed_loop (bound_after i bound) rest
  end.
End KeyedLoop.

(** Every dispatch node of the schema selects on a name stored by a
    field that precedes it, in its own schema or in a schema that
    dispatches to it. *)
Fixpoint keyed_inst (bound : list string) (i : inst) {struct i} : bool :=
  match i with
  | Dispatch fieldname subtypes _ =>
      existsb (String.eqb fieldname) bound &&
      forallb (fun o => match o with
                        | None => true
                        | Some s => keyed_loop keyed_inst bound s
                        end) subtypes
  | _ => true
  end.
Definition keyed (bound : list string) (s : list inst) : bool :=
  keyed_loop keyed_inst bound s.

(** The part number field of message 24. *)
Definition partno_field : bitfield :=
  mk_bitfield "partno" 2 "unsigned" None "Part Number" None None.

(** ** Fragmented messages *)

(** The sentences of a message sent as [n] fragments, numbered from
    [k] on, one per payload segment. *)
Fixpoint number_from (n k : Z) (segs : list string) : list string :=
  match segs with
  | [] => []
  | seg :: rest => sentence n k seg :: number_from n (k + 1) rest
  end.
Definition fragments (segs : list string) : list string :=
  number_from (Z.of_nat (length segs)) 1 segs.

(** ** Extensions *)

(** Two entries of the record, the later one after the earlier, are
    both of type ['string'] and have the same name. *)
Definition has_extension (cooked : list cooked_field) : Prop :=
  exists (i j : nat) ci cj,
    (i < j)%nat /\ nth_error cooked i = Some ci /\
    nth_error cooked j = Some cj /\
    c_type ci = "string" /\ c_type cj = "string" /\ c_name ci = c_name cj.


(** ** The master table *)

(** The subtype list of the master dispatch, as [aivdm_decode] holds
    it. *)
Definition master_subtypes : list (option (list inst)) :=
  match nth 3 aivdm_decode (Spare 0) with
  | Dispatch _ subtypes _ => subtypes
  | _ => []
  end.

(** The three leading fields of [aivdm_decode]. *)
Definition msgtype_field : bitfield :=
  match nth 0 aivdm_decode (Spare 0) with
  | Field f => f
  | _ => byte_field ""
  end.
Definition repeat_field : bitfield :=
  match nth 1 aivdm_decode (Spare 0) with
  | Field f => f
  | _ => byte_field ""
  end.
Definition mmsi_field : bitfield :=
  match nth 2 aivdm_decode (Spare 0) with
  | Field f => f
  | _ => byte_field ""
  end.

(** ** Sample messages *)

(** A base station report (type 4) and a voyage report (type 5). *)
Definition base_station_payload : string := "403OviQuMGCqWrRO9>E6fE700@GO".
Definition voyage_payload : string :=
  "55?MbV02;H;s<HtKR20EHE:0@T4@Dn2222222216L961O5Gf0NSQEp6ClRp888888888880".

(** A DGNSS broadcast (type 17), the two fragments of it joined. *)
Definition dgnss_payload : string :=
  "A02VqLPA4I6C07h5Ed1h<OrsuBTTwS?r:C?w`?la<gno1RTRwSP9:BcurA8a:Oko02TSwu8<:Jbb".

Definition payload_bits (payload : string) : BitVector :=
  match from_sixbit BitVector_new payload with
  | Ok bv => bv
  | Raise _ => BitVector_new
  end.

(** ** The legend tables of the [scaled] pass *)

(** The tuple [cnb_status_legends]. *)
Definition cnb_status_table : list string := [
  "Under way using engine";
  "At anchor";
  "Not under command";
  "Restricted manoeuverability";
  "Constrained by her draught";
  "Moored";
  "Aground";
  "Engaged in fishing";
  "Under way sailing";
  "Reserved for HSC";
  "Reserved for WIG";
  "Reserved";
  "Reserved";
  "Reserved";
  "Reserved";
  "Not defined"
].

(** The tuple [epfd_type_legends]. *)
Definition epfd_type_table : list string := [
  "Undefined";
  "GPS";
  "GLONASS";
  "Combined GPS/GLONASS";
  "Loran-C";
  "Chayka";
  "Integrated navigation system";
  "Surveyed";
  "Galileo"
].

(** The tuple [ship_type_legends]. *)
Definition ship_type_table : list string := [
  "Not available";
  "Reserved for future use";
  "Reserved for future use";
  "Reserved for future use";
  "Reserved for future use";
  "Reserved for future use";
  "Reserved for future use";
  "Reserved for future use";
  "Reserved for future use";
  "Reserved for future use";
  "Reserved for future use";
  "Reserved for future use";
  "Reserved for future use";
  "Reserved for future use";
  "Reserved for future use";
  "Reserved for future use";
  "Reserved for future use";
  "Reserved for future use";
  "Reserved for future use";
  "Reserved for future use";
  "Wing in ground (WIG) - all ships of this type";
  "Wing in ground (WIG) - Hazardous category A";
  "Wing in ground (WIG) - Hazardous category B";
  "Wing in ground (WIG) - Hazardous category C";
  "Wing in ground (WIG) - Hazardous category D";
  "Wing in ground (WIG) - Reserved for future use";
  "Wing in ground (WIG) - Reserved for future use";
  "Wing in ground (WIG) - Reserved for future use";
  "Wing in ground (WIG) - Reserved for future use";
  "Wing in ground (WIG) - Reserved for future use";
  "Fishing";
  "Towing";
  "Towing: length exceeds 200m or breadth exceeds 25m";
  "Dredging or underwater ops";
  "Diving ops";
  "Military ops";
  "Sailing";
  "Pleasure Craft";
  "Reserved";
  "Reserved";
  "High speed craft (HSC) - all ships of this type";
  "High speed craft (HSC) - Hazardous category A";
  "High speed craft (HSC) - Hazardous category B";
  "High speed craft (HSC) - Hazardous category C";
  "High speed craft (HSC) - Hazardous category D";
  "High speed craft (HSC) - Reserved for future use";
  "High speed craft (HSC) - Reserved for future use";
  "High speed craft (HSC) - Reserved for future use";
  "High speed craft (HSC) - Reserved for future use";
  "High speed craft (HSC) - No additional information";
  "Pilot Vessel";
  "Search and Rescue vessel";
  "Tug";
  "Port Tender";
  "Anti-pollution equipment";
  "Law Enforcement";
  "Spare - Local Vessel";
  "Spare - Local Vessel";
  "Medical Transport";
  "Ship according to RR Resolution No. 18";
  "Passenger - all ships of this type";
  "Passenger - Hazardous category A";
  "Passenger - Hazardous category B";
  "Passenger - Hazardous category C";
  "Passenger - Hazardous category D";
  "Passenger - Reserved for future use";
  "Passenger - Reserved for future use";
  "Passenger - Reserved for future use";
  "Passenger - Reserved for future use";
  "Passenger - No additional information";
  "Cargo - all ships of this type";
  "Cargo - Hazardous category A";
  "Cargo - Hazardous category B";
  "Cargo - Hazardous category C";
  "Cargo - Hazardous category D";
  "Cargo - Reserved for future use";
  "Cargo - Reserved for future use";
  "Cargo - Reserved for future use";
  "Cargo - Reserved for future use";
  "Cargo - No additional information";
  "Tanker - all ships of this type";
  "Tanker - Hazardous category A";
  "Tanker - Hazardous category B";
  "Tanker - Hazardous category C";
  "Tanker - Hazardous category D";
  "Tanker - Reserved for future use";
  "Tanker - Reserved for future use";
  "Tanker - Reserved for future use";
  "Tanker - Reserved for future use";
  "Tanker - No additional information";
  "Other Type - all ships of this type";
  "Other Type - Hazardous category A";
  "Other Type - Hazardous category B";
  "Other Type - Hazardous category C";
  "Other Type - Hazardous category D";
  "Other Type - Reserved for future use";
  "Other Type - Reserved for future use";
  "Other Type - Reserved for future use";
  "Other Type - Reserved for future use";
  "Other Type - no additional information"
].

(** The tuple [aide_type_legends]. *)
Definition aide_type_table : list string := [
  "Unspcified";
  "Reference point";
  "RACON";
  "Fixed offshore structure";
  "Spare, Reserved for future use.";
  "Light, without sectors";
  "Light, with sectors";
  "Leading Light Front";
  "Leading Light Rear";
  "Beacon, Cardinal N";
  "Beacon, Cardinal E";
  "Beacon, Cardinal S";
  "Beacon, Cardinal W";
  "Beacon, Port hand";
  "Beacon, Starboard hand";
  "Beacon, Preferred Channel port hand";
  "Beacon, Preferred Channel starboard hand";
  "Beacon, Isolated danger";
  "Beacon, Safe water";
  "Beacon, Special mark";
  "Cardinal Mark N";
  "Cardinal Mark E";
  "Cardinal Mark S";
  "Cardinal Mark W";
  "Port hand Mark";
  "Starboard hand Mark";
  "Preferred Channel Port hand";
  "Preferred Channel Starboard hand";
  "Isolated danger";
  "Safe Water";
  "Special Mark";
  "Light Vessel / LANBY / Rigs"
].

(** The hooks that are tuples: [type(formatter) == type(())]. *)
Definition legend_table (h : hook) : option (list string) :=
  match h with
  | cnb_status_legends => Some cnb_status_table
  | epfd_type_legends => Some epfd_type_table
  | ship_type_legends => Some ship_type_table
  | aide_type_legends => Some aide_type_table
  | _ => None
  end.

(** [formatter[value]] for a tuple. *)
Definition legend_lookup (t : list string) (v : value) : result string :=
  k ← as_index v; py_getitem t k.

(** A field with a legend table is unsigned, and every number of its
    width that its validator lets through is an index of the table. *)
Definition legend_ok (f : bitfield) : bool :=
  match formatter f with
  | None => true
  | Some h =>
      match legend_table h with
      | None => true
      | Some t =>
          String.eqb (type f) "unsigned" && (0 <=? width f) &&
          forallb (fun n => rejected f (VInt n) || (n <? Z.of_nat (length t)))
                  (py_range 0 (2 ^ width f))
      end
  end.

(** A table that begins with a field of an unknown type. *)
Definition guarded (s : list inst) : bool :=
  match s with
  | Field f :: _ => negb (known_type (type f))
  | _ => false
  end.

(** Every field with a legend table that a run of the schema can
    reach is [legend_ok]. *)
Fixpoint legend_safe_inst (i : inst) {struct i} : bool :=
  match i with
  | Spare _ => true
  | Dispatch _ subtypes _ =>
      forallb (fun o => match o with
                        | None => true
                        | Some s => guarded s || forallb legend_safe_inst s
                        end) subtypes
  | Field f => legend_ok f
  end.
Definition legend_safe (s : list inst) : bool := forallb legend_safe_inst s.

(** ** The field decoders of message 1 *)

Definition decodeMessageID (bv : bitvec) : Z := 1.
Definition decodeRepeatIndicator (bv : bitvec) : Z := int_slice bv 6 8.
Definition decodeUserID (bv : bitvec) : Z := int_slice bv 8 38.
Definition decodeNavigationStatus (bv : bitvec) : Z := int_slice bv 38 42.
Definition decodeROT (bv : bitvec) : Z := sint_slice bv 42 50.
Definition decodeSOG (bv : bitvec) : Q := dec_div (int_slice bv 50 60) 10.
Definition decodePositionAccuracy (bv : bitvec) : Z := int_slice bv 60 61.
Definition decodelongitude (bv : bitvec) : Q :=
  dec_div (sint_slice bv 61 89) 600000.
Definition decodelatitude (bv : bitvec) : Q :=
  dec_div (sint_slice bv 89 116) 600000.
Definition decodeCOG (bv : bitvec) : Q := dec_div (int_slice bv 116 128) 10.
Definition decodeTrueHeading (bv : bitvec) : Z := int_slice bv 128 137.
Definition decodeTimeStamp (bv : bitvec) : Z := int_slice bv 137 143.
Definition decodeRegionalReserved (bv : bitvec) : Z := 0.
Definition decodeSpare (bv : bitvec) : Z := 0.
Definition decodeRAIM (bv : bitvec) : bool :=
  negb (int_slice bv 148 149 =? 0).
Definition decodestate_syncstate (bv : bitvec) : Z := int_slice bv 149 151.
Definition decodestate_slottimeout (bv : bitvec) : Z := int_slice bv 151 154.
Definition decodestate_slotoffset (bv : bitvec) : Z := int_slice bv 154 168.

(** The dictionary the eighteen field decoders make, key by key. *)
Definition field_decoders (bv : bitvec) : list (string * pval) := [
  ("MessageID", PInt (decodeMessageID bv));
  ("RepeatIndicator", PInt (decodeRepeatIndicator bv));
  ("UserID", PInt (decodeUserID bv));
  ("NavigationStatus", PInt (decodeNavigationStatus bv));
  ("ROT", PInt (decodeROT bv));
  ("SOG", PDec (decodeSOG bv));
  ("PositionAccuracy", PInt (decodePositionAccuracy bv));
  ("longitude", PDec (decodelongitude bv));
  ("latitude", PDec (decodelatitude bv));
  ("COG", PDec (decodeCOG bv));
  ("TrueHeading", PInt (decodeTrueHeading bv));
  ("TimeStamp", PInt (decodeTimeStamp bv));
  ("RegionalReserved", PInt (decodeRegionalReserved bv));
  ("Spare", PInt (decodeSpare bv));
  ("RAIM", PBool (decodeRAIM bv));
  ("state_syncstate", PInt (decodestate_syncstate bv));
  ("state_slottimeout", PInt (decodestate_slottimeout bv));
  ("state_slotoffset", PInt (decodestate_slotoffset bv))
].

(** A parameter dictionary with the six keys [encode] reads without
    asking whether they are there, and no other. *)
Definition required_params (uid pa : Z) (raim : bool) (ss st so : Z)
  : gmap string pval :=
  <["state_slotoffset" := PInt so]> (
  <["state_slottimeout" := PInt st]> (
  <["state_syncstate" := PInt ss]> (
  <["RAIM" := PBool raim]> (
  <["PositionAccuracy" := PInt pa]> (
  <["UserID" := PInt uid]> ∅))))).

(** The keys [encode] sets by itself. *)
Definition fixed_key (k : string) : Prop :=
  k = "MessageID" \/ k = "RegionalReserved" \/ k = "Spare".

(** ** The integer formatting hooks *)

(** The three hooks that stay within the integers (the others divide
    by a floating-point constant). *)
Module Hooks.

Definition cnb_second_format (n : Z) : string :=
  if n =? 60 then "n/a"
  else if n =? 61 then "manual input"
  else if n =? 62 then "dead reckoning"
  else if n =? 63 then "inoperative"
  else py_str_int n.

Definition type9_alt_format (n : Z) : string :=
  if n =? 4094 then ">=4094" else py_str_int n.

Definition type9_speed_format (n : Z) : string :=
  if n =? 1023 then "n/a"
  else if n =? 1022 then "fast"
  else py_str_int n.

End Hooks.

(* ================================================================= *)
(** * Properties *)

Example from_sixbit_w :
  from_sixbit BitVector_new "w0" = Ok (mkBitVector [252; 0] 12).
Proof. reflexivity. Qed.

Example ubits_ex : ubits (mkBitVector [128; 15] 16) 0 8 = Ok 128
                   /\ sbits (mkBitVector [128; 15] 16) 0 8 = Ok (-128)
                   /\ ubits (mkBitVector [128; 15] 16) 6 8 = Ok 3
                   /\ ubits (mkBitVector [128; 15] 16) 12 8 = Raise IndexError.
Proof. repeat split. Qed.


(** ** Python sequences *)

Lemma py_getitem_Ok {A} (l : list A) (i : Z) (d : A) :
  0 <= i < Z.of_nat (length l) ->
  py_getitem l i = Ok (nth (Z.to_nat i) l d).
Proof.
  intros Hi. unfold py_getitem.
  destruct (i <? 0) eqn:E1; [apply Z.ltb_lt in E1; lia|].
  destruct (Z.of_nat (length l) <=? i) eqn:E2; [apply Z.leb_le in E2; lia|].
  rewrite orb_false_r, E1.
  destruct (nth_error l (Z.to_nat i)) eqn:E3.
  - erewrite nth_error_nth; eauto.
  - apply nth_error_None in E3. lia.
Qed.

Lemma py_getitem_high {A} (l : list A) (i : Z) :
  Z.of_nat (length l) <= i -> py_getitem l i = Raise IndexError.
Proof.
  intros Hi. unfold py_getitem.
  destruct (i <? 0) eqn:E1; [apply Z.ltb_lt in E1; lia|].
  destruct (Z.of_nat (length l) <=? i) eqn:E2.
  - now rewrite E1, orb_true_r.
  - apply Z.leb_gt in E2. lia.
Qed.

Lemma py_getitem_map {A B} (f : A -> B) (l : list A) (i : Z) :
  py_getitem (map f l) i =
  match py_getitem l i with Ok a => Ok (f a) | Raise e => Raise e end.
Proof.
  unfold py_getitem. rewrite length_map.
  destruct (_ || _); [reflexivity|].
  rewrite nth_error_map. now destruct (nth_error l _).
Qed.

Lemma py_setitem_Ok {A} (l : list A) (i : Z) (x : A) :
  0 <= i < Z.of_nat (length l) ->
  py_setitem l i x = Ok (<[Z.to_nat i := x]> l).
Proof.
  intros Hi. unfold py_setitem.
  destruct (i <? 0) eqn:E1; [apply Z.ltb_lt in E1; lia|].
  destruct (Z.of_nat (length l) <=? i) eqn:E2; [apply Z.leb_le in E2; lia|].
  now rewrite orb_false_r, E1.
Qed.

Lemma py_range_nil (a b : Z) : b <= a -> py_range a b = [].
Proof.
  intros H. unfold py_range. now replace (Z.to_nat (b - a)) with O by lia.
Qed.

Lemma py_range_cons (a b : Z) :
  a < b -> py_range a b = a :: py_range (a + 1) b.
Proof.
  intros H. unfold py_range.
  replace (Z.to_nat (b - a)) with (S (Z.to_nat (b - (a + 1)))) by lia.
  cbn [seq map]. f_equal; [lia|].
  rewrite <- seq_shift, map_map. apply map_ext. intros k. lia.
Qed.

Lemma py_range_length (a b : Z) : length (py_range a b) = Z.to_nat (b - a).
Proof. unfold py_range. now rewrite length_map, length_seq. Qed.

(** ** The bit vector *)

Lemma bytes_ok_nth (bs : list Z) (k : nat) :
  bytes_ok bs -> 0 <= nth k bs 0 < 256.
Proof.
  intros H. destruct (Nat.lt_ge_cases k (length bs)) as [Hk|Hk].
  - unfold bytes_ok in H. rewrite List.Forall_forall in H.
    apply H, nth_In, Hk.
  - rewrite nth_overflow by exact Hk. lia.
Qed.

Lemma byte_testbit_high (b p : Z) : 0 <= b < 256 -> 8 <= p -> Z.testbit b p = false.
Proof.
  intros Hb Hp. destruct (Z.eq_dec b 0) as [->|Hne]; [apply Z.testbit_0_l|].
  apply Z.bits_above_log2; [lia|].
  assert (Z.log2 b < 8) by (apply Z.log2_lt_pow2; lia). lia.
Qed.

(** One round of the byte loop shifts the accumulator by a byte. *)
Lemma push_byte_testbit (fld b p : Z) :
  0 <= b < 256 -> 0 <= p ->
  Z.testbit (Z.lor (Z.shiftl fld 8) b) p =
  if p <? 8 then Z.testbit b p else Z.testbit fld (p - 8).
Proof.
  intros Hb Hp. rewrite Z.lor_spec, Z.shiftl_spec by lia.
  destruct (p <? 8) eqn:E.
  - apply Z.ltb_lt in E. rewrite (Z.testbit_neg_r fld) by lia. reflexivity.
  - apply Z.ltb_ge in E. rewrite (byte_testbit_high b p) by lia.
    apply orb_false_r.
Qed.

(** The byte loop over [n] bytes from index [a]: bit [p] of the
    result comes from byte [a + n - 1 - p/8], or from the incoming
    accumulator above the bytes read. *)
Lemma ubits_loop_spec (bs : list Z) (n : nat) : forall (a fld : Z),
  bytes_ok bs -> 0 <= a -> a + Z.of_nat n <= Z.of_nat (length bs) ->
  exists v, ubits_loop bs (py_range a (a + Z.of_nat n)) fld = Ok v /\
    forall p, 0 <= p ->
      Z.testbit v p =
      if p <? 8 * Z.of_nat n
      then Z.testbit (nth (Z.to_nat (a + Z.of_nat n - 1 - p / 8)) bs 0) (p mod 8)
      else Z.testbit fld (p - 8 * Z.of_nat n).
Proof.
  induction n as [|n IH]; intros a fld Hbs Ha Hlen.
  - rewrite py_range_nil by lia. exists fld. split; [reflexivity|].
    intros p Hp. replace (p <? 8 * Z.of_nat 0) with false
      by (symmetry; apply Z.ltb_ge; lia).
    f_equal. lia.
  - rewrite py_range_cons by lia. cbn [ubits_loop].
    rewrite (py_getitem_Ok bs a 0) by lia. cbn.
    replace (a + Z.of_nat (S n)) with ((a + 1) + Z.of_nat n) by lia.
    destruct (IH (a + 1) (Z.lor (Z.shiftl fld BITS_PER_BYTE) (nth (Z.to_nat a) bs 0)))
      as [v [Hv Hbits]]; [assumption|lia|lia|].
    exists v. split; [exact Hv|].
    intros p Hp. rewrite (Hbits p Hp).
    unfold BITS_PER_BYTE.
    destruct (p <? 8 * Z.of_nat n) eqn:E1.
    + apply Z.ltb_lt in E1.
      replace (p <? 8 * Z.of_nat (S n)) with true
        by (symmetry; apply Z.ltb_lt; lia).
      reflexivity.
    + apply Z.ltb_ge in E1.
      rewrite push_byte_testbit by (try apply bytes_ok_nth; auto; lia).
      destruct (p - 8 * Z.of_nat n <? 8) eqn:E2.
      * apply Z.ltb_lt in E2.
        replace (p <? 8 * Z.of_nat (S n)) with true
          by (symmetry; apply Z.ltb_lt; lia).
        assert (Hq : p / 8 = Z.of_nat n)
          by (symmetry; apply (Z.div_unique p 8 (Z.of_nat n) (p - 8 * Z.of_nat n)); lia).
        assert (Hr : p mod 8 = p - 8 * Z.of_nat n)
          by (symmetry; apply (Z.mod_unique p 8 (Z.of_nat n)); lia).
        rewrite Hq, Hr. do 2 f_equal. lia.
      * apply Z.ltb_ge in E2.
        replace (p <? 8 * Z.of_nat (S n)) with false
          by (symmetry; apply Z.ltb_ge; lia).
        f_equal. lia.
Qed.

Lemma lnot_shiftl_m1 (w : Z) : 0 <= w -> Z.lnot (Z.shiftl (-1) w) = Z.ones w.
Proof.
  intros Hw. rewrite Z.shiftl_mul_pow2, Z.ones_equiv by lia.
  unfold Z.lnot. lia.
Qed.

(** The number of covering bytes, and where bit [q] of the buffer
    sits in the accumulator. *)
Lemma window_arith (start width q : Z) :
  0 <= start -> start <= q < start + width ->
  let b := (start + width + 8 - 1) / 8 in
  let p := 8 * b - 1 - q in
  0 <= p < 8 * (b - start / 8) /\ b - 1 - p / 8 = q / 8 /\ p mod 8 = 7 - q mod 8.
Proof.
  intros Hs Hq b p. subst p b.
  pose proof (Z.div_mod (start + width + 8 - 1) 8 ltac:(lia)).
  pose proof (Z.mod_pos_bound (start + width + 8 - 1) 8 ltac:(lia)).
  pose proof (Z.div_mod start 8 ltac:(lia)).
  pose proof (Z.mod_pos_bound start 8 ltac:(lia)).
  pose proof (Z.div_mod q 8 ltac:(lia)).
  pose proof (Z.mod_pos_bound q 8 ltac:(lia)).
  set (b := (start + width + 8 - 1) / 8) in *.
  assert (Hp : (8 * b - 1 - q) / 8 = b - 1 - q / 8)
    by (symmetry; apply (Z.div_unique _ 8 _ (7 - q mod 8)); lia).
  assert (Hr : (8 * b - 1 - q) mod 8 = 7 - q mod 8)
    by (symmetry; apply (Z.mod_unique _ 8 (b - 1 - q / 8)); lia).
  rewrite Hp, Hr. repeat split; lia.
Qed.

(** [ubits] on a window inside the array: it returns a [width]-bit
    number whose bit [k] is bit [start + width - 1 - k] of the buffer. *)
Lemma ubits_spec (self : BitVector) (start width : Z) :
  bytes_ok (bits self) -> 0 <= start -> 0 <= width ->
  start + width <= 8 * Z.of_nat (length (bits self)) ->
  exists u, ubits self start width = Ok u /\ 0 <= u < 2 ^ width /\
    forall k, 0 <= k < width ->
      Z.testbit u k = getbit self (start + width - 1 - k).
Proof.
  intros Hbs Hs Hw Hin. unfold ubits, BITS_PER_BYTE.
  set (a := start / 8). set (b := (start + width + 8 - 1) / 8).
  assert (Ha : 0 <= a) by (apply Z.div_pos; lia).
  assert (Hab : a <= b) by (apply Z.div_le_mono; lia).
  assert (Hb : b <= Z.of_nat (length (bits self))).
  { subst b. Z.to_euclidean_division_equations. lia. }
  destruct (ubits_loop_spec (bits self) (Z.to_nat (b - a)) a 0 Hbs Ha)
    as [v [Hv Hbits]]; [lia|].
  replace (a + Z.of_nat (Z.to_nat (b - a))) with b in Hv, Hbits by lia.
  rewrite Hv. cbn.
  unfold py_shiftl. destruct (width <? 0) eqn:E; [apply Z.ltb_lt in E; lia|].
  cbn. rewrite lnot_shiftl_m1, Z.land_ones by lia.
  eexists. split; [reflexivity|]. split.
  { apply Z.mod_pos_bound. apply Z.pow_pos_nonneg; lia. }
  intros k Hk. rewrite <- Z.land_ones, Z.land_spec, Z.ones_spec_low by lia.
  rewrite andb_true_r.
  set (e := (start + width) mod 8).
  assert (He : 0 <= e < 8) by (apply Z.mod_pos_bound; lia).
  pose proof (Z.div_mod (start + width) 8 ltac:(lia)) as Hdm. fold e in Hdm.
  assert (Hsh : Z.testbit (if e =? 0 then v else Z.shiftr v (8 - e)) k
                = Z.testbit v (8 * b - 1 - (start + width - 1 - k))).
  { assert (Hb8 : 8 * b = start + width + (if e =? 0 then 0 else 8 - e)).
    { subst b. clear Hdm He. subst e.
      destruct ((start + width) mod 8 =? 0) eqn:E0;
        [apply Z.eqb_eq in E0 | apply Z.eqb_neq in E0];
        Z.to_euclidean_division_equations; lia. }
    destruct (e =? 0) eqn:E0.
    - f_equal. lia.
    - rewrite Z.shiftr_spec by lia. f_equal. lia. }
  rewrite Hsh.
  destruct (window_arith start width (start + width - 1 - k) Hs ltac:(lia))
    as [Hp [Hq Hr]]. fold b in Hp, Hq, Hr. fold a in Hp.
  rewrite Hbits by lia.
  replace (_ <? 8 * Z.of_nat (Z.to_nat (b - a))) with true
    by (symmetry; apply Z.ltb_lt; lia).
  unfold getbit. rewrite Hq, Hr. reflexivity.
Qed.

Lemma land_pow2_eqb (u k : Z) :
  0 <= k -> (Z.land u (Z.shiftl 1 k) =? 0) = negb (Z.testbit u k).
Proof.
  intros Hk. rewrite Z.shiftl_1_l.
  destruct (Z.testbit u k) eqn:E; cbn.
  - apply Z.eqb_neq. intros H0.
    assert (Z.testbit (Z.land u (2 ^ k)) k = true)
      by (rewrite Z.land_spec, E, Z.pow2_bits_true; auto).
    rewrite H0, Z.testbit_0_l in H. discriminate.
  - apply Z.eqb_eq. apply Z.bits_inj'. intros j Hj.
    rewrite Z.land_spec, Z.testbit_0_l, Z.pow2_bits_eqb by lia.
    destruct (Z.eqb_spec k j) as [->|]; [now rewrite E|apply andb_false_r].
Qed.

(** C3. In a window that lies inside the buffer, the signed extraction
    is the unsigned extraction when the top bit of the window (bit
    [start] of the buffer) is 0, and the unsigned extraction less
    [2 ^ width] when it is 1; the window [10000000] reads as 128
    unsigned and -128 signed. *)
Theorem sbits_twos_complement (self : BitVector) (start width : Z) :
  wf self -> 0 <= start -> 0 < width -> start + width <= bitlen self ->
  (exists u, ubits self start width = Ok u /\ 0 <= u < 2 ^ width /\
     Z.testbit u (width - 1) = getbit self start /\
     sbits self start width =
       Ok (if getbit self start then u - 2 ^ width else u))
  /\ ubits (mkBitVector [128] 8) 0 8 = Ok 128
  /\ sbits (mkBitVector [128] 8) 0 8 = Ok (-128).
Proof.
  intros [Hbs Hlen] Hs Hw Hin. split; [|split; reflexivity].
  destruct (ubits_spec self start width Hbs Hs ltac:(lia) ltac:(lia))
    as [u [Hu [Hrange Hbits]]].
  exists u. split; [exact Hu|]. split; [exact Hrange|].
  assert (Htop : Z.testbit u (width - 1) = getbit self start).
  { rewrite Hbits by lia. f_equal. lia. }
  split; [exact Htop|].
  unfold sbits. rewrite Hu. cbn. unfold py_shiftl.
  destruct (width - 1 <? 0) eqn:E; [apply Z.ltb_lt in E; lia|]. cbn.
  rewrite land_pow2_eqb, Htop by lia.
  destruct (getbit self start); cbn; f_equal; lia.
Qed.

Lemma sbits_twos_complement_witness :
  exists u, ubits (mkBitVector [15; 240] 16) 4 8 = Ok u /\ 0 <= u < 2 ^ 8 /\
    Z.testbit u (8 - 1) = getbit (mkBitVector [15; 240] 16) 4 /\
    sbits (mkBitVector [15; 240] 16) 4 8 =
      Ok (if getbit (mkBitVector [15; 240] 16) 4 then u - 2 ^ 8 else u).
Proof.
  refine (proj1 (sbits_twos_complement (mkBitVector [15; 240] 16) 4 8 _ _ _ _)).
  - split; [repeat constructor; lia | cbn; lia].
  - lia.
  - lia.
  - cbn. lia.
Defined.

(** ** The raw tail *)

Lemma getbit_skip (bs : list Z) (len len' : Z) (k : nat) (i : Z) :
  0 <= i ->
  getbit (mkBitVector (skipn k bs) len') i =
  getbit (mkBitVector bs len) (8 * Z.of_nat k + i).
Proof.
  intros Hi. unfold getbit. cbn [bits].
  rewrite nth_skipn.
  assert (Hq : (8 * Z.of_nat k + i) / 8 = Z.of_nat k + i / 8)
    by (Z.to_euclidean_division_equations; lia).
  assert (Hr : (8 * Z.of_nat k + i) mod 8 = i mod 8)
    by (Z.to_euclidean_division_equations; lia).
  rewrite Hq, Hr. do 2 f_equal.
  assert (0 <= i / 8) by (apply Z.div_pos; lia). lia.
Qed.

Lemma getbit_beyond (self : BitVector) (i : Z) :
  8 * Z.of_nat (length (bits self)) <= i -> getbit self i = false.
Proof.
  intros Hi. unfold getbit. rewrite nth_overflow; [apply Z.testbit_0_l|].
  assert (Z.of_nat (length (bits self)) <= i / 8)
    by (apply Z.div_le_lower_bound; lia). lia.
Qed.

(** A ['raw'] field read at [start] yields a vector of bit length
    [bitlen - start] over the bytes from byte [start / 8] on: the
    length is exact to the bit, the contents to the byte.  Bit [i] of
    the view is bit [8 * (start / 8) + i] of the buffer, which is bit
    [start + i] when [start] is a multiple of 8. *)
Lemma raw_view_layout (data : BitVector) (start : Z) (f : bitfield)
  (old : option value) :
  type f = "raw" -> 0 <= start ->
  exists view,
    field_value data start f old = Ok (Some (VRaw view)) /\
    bitlen view = bitlen data - start /\
    (forall i, 0 <= i -> getbit view i = getbit data (8 * (start / 8) + i)) /\
    (start mod 8 = 0 ->
     forall i, 0 <= i -> getbit view i = getbit data (start + i)).
Proof.
  intros Ht Hs. unfold field_value. rewrite Ht. cbn [String.eqb Ascii.eqb].
  cbn. eexists. split; [reflexivity|]. split; [reflexivity|].
  assert (Hview : forall i, 0 <= i ->
            getbit (BitVector_init (py_slice_from (bits data) (start / 8))
                                   (Some (bitlen data - start))) i
            = getbit data (8 * (start / 8) + i)).
  { intros i Hi. unfold BitVector_init, py_slice_from, py_bound.
    assert (Hq : 0 <= start / 8) by (apply Z.div_pos; lia).
    destruct (start / 8 <? 0) eqn:E; [apply Z.ltb_lt in E; lia|].
    destruct data as [bs len]. cbn [bits bitlen].
    rewrite (getbit_skip bs len) by exact Hi.
    destruct (Z_le_gt_dec (start / 8) (Z.of_nat (length bs))) as [Hle|Hgt].
    - do 2 f_equal. lia.
    - rewrite !getbit_beyond; cbn [bits]; [reflexivity|lia|lia]. }
  split; [exact Hview|].
  intros Hal i Hi. rewrite Hview by exact Hi. f_equal.
  Z.to_euclidean_division_equations. lia.
Qed.

(** On the byte [00001111] the raw tail read at bit 4 has bit 0 of the
    buffer as its bit 0, not bit 4. *)
Example raw_view_of_low_nibble :
  ~ (forall view, field_value low_nibble 4 raw_field None = Ok (Some (VRaw view)) ->
     forall i, 0 <= i < bitlen low_nibble - 4 ->
       getbit view i = getbit low_nibble (4 + i)).
Proof.
  intros H. specialize (H _ eq_refl 0 ltac:(cbn; lia)). discriminate H.
Qed.

(** C7, on the code. The raw tail is not the bits from [start] on when
    [start] is off a byte boundary: the view is cut from the byte array
    at byte [start / 8], so bit [i] of it is bit [8 * (start / 8) + i]
    of the buffer, while its bit length is [bitlen - start].  The table
    of message 17 puts its ['raw'] field at bit 77: on a DGNSS
    broadcast the sixth entry is a view of 379 bits that begins at bit
    72 of the buffer, five bits early, and its bit 4 is not bit 81 of
    the buffer. *)
Theorem raw_tail_misaligned :
  (forall data start f old,
     type f = "raw" -> 0 <= start ->
     exists view,
       field_value data start f old = Ok (Some (VRaw view)) /\
       bitlen view = bitlen data - start /\
       forall i, 0 <= i ->
         getbit view i = getbit data (8 * (start / 8) + i))
  /\ (exists recs view,
        decode_payload dgnss_payload = Some (Ok recs) /\
        map c_name recs = ["msgtype"; "repeat"; "mmsi"; "lon"; "lat"; "data"] /\
        nth_error recs 5 =
          Some (mk_cooked "data" (VRaw view) "raw" "DGNSS data" None false) /\
        bitlen view = bitlen (payload_bits dgnss_payload) - 77 /\
        (forall i, 0 <= i ->
           getbit view i = getbit (payload_bits dgnss_payload) (72 + i)) /\
        getbit view 4 = false /\
        getbit (payload_bits dgnss_payload) (77 + 4) = true).
Proof.
  split.
  - intros data start f old Ht Hs.
    destruct (raw_view_layout data start f old Ht Hs)
      as [view [Hv [Hl [Hb _]]]].
    now exists view.
  - eexists. eexists.
    split; [vm_compute; reflexivity|].
    split; [vm_compute; reflexivity|].
    split; [vm_compute; reflexivity|].
    split; [vm_compute; reflexivity|].
    split; [|split; vm_compute; reflexivity].
    intros i Hi.
    let b := eval vm_compute in (payload_bits dgnss_payload) in
    assert (E : payload_bits dgnss_payload = b) by (vm_compute; reflexivity);
    rewrite E.
    match goal with
    | |- _ = getbit (mkBitVector ?L _) _ =>
        exact (getbit_skip L 456 379 9 i Hi)
    end.
Qed.

(** ** Six-bit armouring *)

Lemma land_1_eqb (ch i : Z) :
  0 <= i -> (Z.land (Z.shiftr ch i) 1 =? 0) = negb (Z.testbit ch i).
Proof.
  intros Hi. change 1 with (Z.shiftl 1 0) at 1.
  rewrite land_pow2_eqb, Z.shiftr_spec by lia. reflexivity.
Qed.

(** Or-ing [1 << (7 - p % 8)] into byte [p / 8] sets bit [p] of the
    buffer and no other. *)
Lemma set_bit_spec (bs : list Z) (p : Z) :
  bytes_ok bs -> 0 <= p < 8 * Z.of_nat (length bs) ->
  exists b bs',
    py_getitem bs (p / 8) = Ok b /\
    py_setitem bs (p / 8) (Z.lor b (Z.shiftl 1 (7 - p mod 8))) = Ok bs' /\
    length bs' = length bs /\ bytes_ok bs' /\
    forall len len' q, 0 <= q ->
      getbit (mkBitVector bs' len') q =
      getbit (mkBitVector bs len) q || (q =? p).
Proof.
  intros Hbs Hp.
  assert (Hk : 0 <= p / 8 < Z.of_nat (length bs))
    by (Z.to_euclidean_division_equations; lia).
  assert (Hm : 0 <= p mod 8 < 8) by (apply Z.mod_pos_bound; lia).
  exists (nth (Z.to_nat (p / 8)) bs 0). eexists.
  split; [apply py_getitem_Ok; exact Hk|].
  split; [apply py_setitem_Ok; exact Hk|].
  split; [apply length_insert|].
  pose proof (bytes_ok_nth bs (Z.to_nat (p / 8)) Hbs) as Hb.
  set (b := nth (Z.to_nat (p / 8)) bs 0) in *.
  split.
  { apply Forall_insert; [exact Hbs|]. split.
    - apply Z.lor_nonneg. split; [lia|]. apply Z.shiftl_nonneg. lia.
    - assert (Hlt : Z.lor b (Z.shiftl 1 (7 - p mod 8)) < 2 ^ 8); [|lia].
      destruct (Z.eq_dec (Z.lor b (Z.shiftl 1 (7 - p mod 8))) 0) as [->|Hne];
        [lia|].
      apply Z.log2_lt_pow2.
      + assert (0 <= Z.lor b (Z.shiftl 1 (7 - p mod 8))); [|lia].
        apply Z.lor_nonneg. split; [lia|]. apply Z.shiftl_nonneg. lia.
      + rewrite Z.log2_lor by (try apply Z.shiftl_nonneg; lia).
        rewrite Z.shiftl_1_l, Z.log2_pow2 by lia.
        destruct (Z.eq_dec b 0) as [->|Hb0]; [cbn; lia|].
        assert (Z.log2 b < 8) by (apply Z.log2_lt_pow2; lia). lia. }
  intros len len' q Hq. unfold getbit. cbn [bits].
  assert (Hq8 : 0 <= q / 8) by (apply Z.div_pos; lia).
  assert (Hqm : 0 <= q mod 8 < 8) by (apply Z.mod_pos_bound; lia).
  destruct (Z.eq_dec (q / 8) (p / 8)) as [Heq|Hne].
  - rewrite Heq, (nth_lookup_Some _ _ 0 (Z.lor b (Z.shiftl 1 (7 - p mod 8))))
      by (apply list_lookup_insert_eq; lia).
    fold b. rewrite Z.lor_spec, Z.shiftl_1_l, Z.pow2_bits_eqb by lia.
    f_equal.
    destruct (Z.eqb_spec (7 - p mod 8) (7 - q mod 8)) as [E|E];
      destruct (Z.eqb_spec q p) as [E'|E']; try reflexivity; exfalso.
    + apply E'. rewrite (Z.div_mod q 8), (Z.div_mod p 8) by lia. lia.
    + subst q. lia.
  - rewrite !nth_lookup, list_lookup_insert_ne by lia.
    destruct (Z.eqb_spec q p) as [->|]; [congruence|].
    now rewrite orb_false_r.
Qed.

(** The six steps for one code: the bits of [ch] named by [shifts]
    are laid down in order from bit [bitlen] on. *)
Lemma sixbit_push_spec (ch : Z) (shifts : list Z) : forall self : BitVector,
  Forall (fun i => 0 <= i) shifts ->
  bytes_ok (bits self) -> 0 <= bitlen self ->
  bitlen self + Z.of_nat (length shifts) <= 8 * Z.of_nat (length (bits self)) ->
  clean self ->
  exists self',
    sixbit_push self ch shifts = Ok self' /\
    length (bits self') = length (bits self) /\ bytes_ok (bits self') /\
    bitlen self' = bitlen self + Z.of_nat (length shifts) /\
    clean self' /\
    (forall q, 0 <= q < bitlen self -> getbit self' q = getbit self q) /\
    (forall t : nat, (t < length shifts)%nat ->
       getbit self' (bitlen self + Z.of_nat t) = Z.testbit ch (nth t shifts 0)).
Proof.
  induction shifts as [|i shifts IH]; intros self Hsh Hbs Hlen Hroom Hclean.
  - exists self. cbn [sixbit_push length].
    split; [reflexivity|]. split; [reflexivity|]. split; [exact Hbs|].
    split; [cbn; lia|]. split; [exact Hclean|]. split; [reflexivity|].
    intros t Ht. cbn in Ht. lia.
  - inversion Hsh as [|? ? Hi Hsh']; subst.
    cbn [sixbit_push length] in *.
    rewrite land_1_eqb by exact Hi.
    assert (Hstep : exists bs',
      (if negb (Z.testbit ch i) then Ok self
       else b ← py_getitem (bits self) (bitlen self / 8);
            bs ← py_setitem (bits self) (bitlen self / 8)
                   (Z.lor b (Z.shiftl 1 (7 - bitlen self mod 8)));
            Ok (mkBitVector bs (bitlen self)))
      = Ok (mkBitVector bs' (bitlen self)) /\
      length bs' = length (bits self) /\ bytes_ok bs' /\
      forall q, 0 <= q ->
        getbit (mkBitVector bs' (bitlen self + 1)) q =
        getbit self q || ((q =? bitlen self) && Z.testbit ch i)).
    { destruct (Z.testbit ch i); cbn [negb].
      - destruct (set_bit_spec (bits self) (bitlen self) Hbs ltac:(lia))
          as [b [bs' [Hg [Hset [Hl [Hok Hget]]]]]].
        exists bs'. rewrite Hg. cbn. rewrite Hset. cbn.
        repeat split; auto. intros q Hq.
        rewrite (Hget (bitlen self) (bitlen self + 1) q Hq), andb_true_r.
        now destruct self.
      - exists (bits self). destruct self as [bs len]. cbn [bits bitlen].
        repeat split; auto. intros q Hq.
        now rewrite andb_false_r, orb_false_r. }
    destruct Hstep as [bs' [Hrun [Hl [Hok Hget]]]].
    rewrite Hrun. cbn [mbind result_bind bind bits bitlen].
    destruct (IH (mkBitVector bs' (bitlen self + 1)) Hsh') as
      [self' [Hrun' [Hl' [Hok' [Hlen' [Hclean' [Hlow Hnew]]]]]]];
      cbn [bits bitlen]; auto; try lia.
    { intros q Hq. cbn [bitlen] in Hq. rewrite Hget by lia.
      rewrite Hclean by lia.
      destruct (Z.eqb_spec q (bitlen self)); [lia|reflexivity]. }
    cbn [bits bitlen] in *.
    exists self'. split; [exact Hrun'|]. split; [lia|]. split; [exact Hok'|].
    split; [lia|]. split; [exact Hclean'|]. split.
    + intros q Hq. rewrite Hlow, Hget by lia.
      destruct (Z.eqb_spec q (bitlen self)); [lia|]. apply orb_false_r.
    + intros [|t] Ht.
      * rewrite Z.add_0_r, Hlow, Hget, Z.eqb_refl, Hclean by lia.
        reflexivity.
      * cbn [nth]. rewrite <- Hnew by lia. f_equal. lia.
Qed.

Lemma sixbit_chars_spec (data : string) : forall self : BitVector,
  bytes_ok (bits self) -> 0 <= bitlen self ->
  bitlen self + 6 * Z.of_nat (String.length data)
    <= 8 * Z.of_nat (length (bits self)) ->
  clean self ->
  exists self',
    sixbit_chars self data = Ok self' /\
    length (bits self') = length (bits self) /\ bytes_ok (bits self') /\
    bitlen self' = bitlen self + 6 * Z.of_nat (String.length data) /\
    clean self' /\
    (forall q, 0 <= q < bitlen self -> getbit self' q = getbit self q) /\
    (forall (k : nat) (c : ascii) (t : Z),
       String.get k data = Some c -> 0 <= t < 6 ->
       getbit self' (bitlen self + 6 * Z.of_nat k + t) =
       Z.testbit (armor c) (5 - t)).
Proof.
  induction data as [|c data IH]; intros self Hbs Hlen Hroom Hclean.
  - exists self. cbn [sixbit_chars String.length].
    split; [reflexivity|]. split; [reflexivity|]. split; [exact Hbs|].
    split; [cbn; lia|]. split; [exact Hclean|]. split; [reflexivity|].
    intros k c t Hget. discriminate Hget.
  - cbn [sixbit_chars String.length] in *.
    destruct (sixbit_push_spec (armor c) [5; 4; 3; 2; 1; 0] self)
      as [s1 [Hrun1 [Hl1 [Hok1 [Hlen1 [Hclean1 [Hlow1 Hnew1]]]]]]]; auto.
    { repeat constructor; lia. }
    { cbn [length]. lia. }
    cbn [length] in Hlen1, Hnew1.
    rewrite Hrun1. cbn [mbind result_bind bind].
    destruct (IH s1) as [s2 [Hrun2 [Hl2 [Hok2 [Hlen2 [Hclean2 [Hlow2 Hnew2]]]]]]];
      auto; try lia.
    exists s2. split; [exact Hrun2|]. split; [lia|]. split; [exact Hok2|].
    split; [lia|]. split; [exact Hclean2|]. split.
    + intros q Hq. rewrite Hlow2, Hlow1 by lia. reflexivity.
    + intros [|k] c' t Hget Ht.
      * cbn in Hget. injection Hget as <-.
        rewrite Hlow2 by lia.
        replace (bitlen self + 6 * Z.of_nat 0 + t)
          with (bitlen self + Z.of_nat (Z.to_nat t)) by lia.
        rewrite Hnew1 by lia.
        assert (Hcases : t = 0 \/ t = 1 \/ t = 2 \/ t = 3 \/ t = 4 \/ t = 5) by lia.
        destruct Hcases as [->|[->|[->|[->|[->| ->]]]]]; reflexivity.
      * cbn [String.get] in Hget.
        rewrite <- (Hnew2 k c' t Hget Ht). f_equal. lia.
Qed.

Lemma armor_range (c : ascii) :
  48 <= Z.of_nat (nat_of_ascii c) <= 119 -> 0 <= armor c < 64.
Proof.
  intros H. unfold armor.
  destruct (40 <? Z.of_nat (nat_of_ascii c) - 48) eqn:E;
    [apply Z.ltb_lt in E | apply Z.ltb_ge in E]; lia.
Qed.

(** C5, as amended. Building a bit buffer from six-bit-armoured text
    never fails: every character [c], inside the armour range or not,
    contributes the six low bits of [ord(c) - 48] (less 8 above 40),
    most significant first, and inside the range [48, 119] that code
    is a six-bit value. *)
Theorem from_sixbit_total (data : string) :
  exists bv,
    from_sixbit BitVector_new data = Ok bv /\ wf bv /\
    bitlen bv = 6 * Z.of_nat (String.length data) /\
    (forall (k : nat) (c : ascii) (t : Z),
       String.get k data = Some c -> 0 <= t < 6 ->
       getbit bv (6 * Z.of_nat k + t) = Z.testbit (armor c) (5 - t)) /\
    (forall c, 48 <= Z.of_nat (nat_of_ascii c) <= 119 -> 0 <= armor c < 64).
Proof.
  unfold from_sixbit, BitVector_new. cbn [bits bitlen app].
  destruct (sixbit_chars_spec data
              (mkBitVector (repeat 0 (String.length data)) 0))
    as [bv [Hrun [Hl [Hok [Hlen [Hclean [_ Hnew]]]]]]]; cbn [bits bitlen].
  - apply List.Forall_forall. intros x Hx. apply repeat_spec in Hx. lia.
  - lia.
  - rewrite repeat_length. lia.
  - intros q _. unfold getbit. cbn [bits].
    destruct (nth_in_or_default (Z.to_nat (q / 8))
                (repeat 0 (String.length data)) 0) as [Hin| ->].
    + apply repeat_spec in Hin. rewrite Hin. apply Z.testbit_0_l.
    + apply Z.testbit_0_l.
  - cbn [bits bitlen] in *. rewrite repeat_length in Hl.
    exists bv. split; [exact Hrun|]. split.
    { split; [exact Hok|]. lia. }
    split; [lia|]. split; [|exact armor_range].
    intros k c t Hget Ht. rewrite <- (Hnew k c t Hget Ht). f_equal.
Qed.

(** C5, the claim as stated fails: a character below the armour range
    (["!"], code 33) raises nothing; its adjusted code -15 leaves the
    six bits [110001]. *)
Lemma from_sixbit_out_of_range_counterexample :
  from_sixbit BitVector_new "!" = Ok (mkBitVector [196] 6) /\
  ~ (exists e, from_sixbit BitVector_new "!" = Raise e).
Proof.
  split; [reflexivity|]. intros [e He]. discriminate He.
Qed.

(** ** The unpacker *)

Lemma unpack_inst_dispatch data fieldname subtypes compute fr values :
  unpack_inst data (Dispatch fieldname subtypes compute) fr values =
  (sub ← select values fieldname subtypes compute;
   match sub with
   | None => Raise TypeError
   | Some s =>
       '(fr', values') ← unpack_loop data s (mk_frame (offset fr) None []) values;
       Ok (mk_frame (offset fr) (value_ fr) (cooked fr ++ cooked fr'), values')
   end).
Proof.
  cbn [unpack_inst]. unfold select.
  destruct (values !! fieldname) as [v|]; [|reflexivity]. cbn.
  destruct (as_index (compute v)) as [k|e]; [|reflexivity]. cbn.
  rewrite py_getitem_map.
  destruct (py_getitem subtypes k) as [[s|]|e]; reflexivity.
Qed.

Lemma for_loop_cons data body i rest fr values :
  for_loop data body (i :: rest) fr values =
  if bitlen data <=? offset fr then Ok (fr, values)
  else '(fr', values') ← body i fr values; for_loop data body rest fr' values'.
Proof. reflexivity. Qed.

(** What a step appends does not depend on what is already cooked. *)
Lemma unpack_inst_cooked data i o v c values :
  unpack_inst data i (mk_frame o v c) values =
  ('(fr', values') ← unpack_inst data i (mk_frame o v []) values;
   Ok (mk_frame (offset fr') (value_ fr') (c ++ cooked fr'), values')).
Proof.
  destruct i as [w|fieldname subtypes compute|f].
  - cbn. now rewrite app_nil_r.
  - rewrite !unpack_inst_dispatch. cbn [offset value_ cooked].
    destruct (select values fieldname subtypes compute) as [[s|]|e];
      try reflexivity. cbn.
    destruct (unpack_loop data s _ values) as [[fr' values']|e]; reflexivity.
  - cbn [unpack_inst offset value_ cooked].
    destruct (field_value data o f v) as [[x|]|e]; try reflexivity. cbn.
    destruct (rejected f x); reflexivity.
Qed.

Lemma for_loop_cooked data instructions : forall o v c values,
  unpack_loop data instructions (mk_frame o v c) values =
  ('(fr', values') ← unpack_loop data instructions (mk_frame o v []) values;
   Ok (mk_frame (offset fr') (value_ fr') (c ++ cooked fr'), values')).
Proof.
  unfold unpack_loop.
  induction instructions as [|i rest IH]; intros o v c values.
  - cbn. now rewrite app_nil_r.
  - rewrite !for_loop_cons. cbn [offset].
    destruct (bitlen data <=? o); [cbn; now rewrite app_nil_r|].
    rewrite (unpack_inst_cooked data i o v c).
    destruct (unpack_inst data i (mk_frame o v []) values)
      as [[[o1 v1 c1] values1]|e]; [|reflexivity].
    cbn [mbind result_bind bind offset value_ cooked].
    rewrite (IH o1 v1 (c ++ c1)%list), (IH o1 v1 c1).
    destruct (for_loop data (unpack_inst data) rest (mk_frame o1 v1 []) values1)
      as [[[o2 v2 c2] values2]|e]; [|reflexivity].
    cbn. now rewrite app_assoc.
Qed.

(** C1, as amended. The unpacker returns the decoded records only.  At
    a dispatch node it unpacks the selected sub-schema at the current
    cursor and splices the records in place, and it goes on with its
    own cursor unchanged: what follows the dispatch node is decoded at
    the offset at which the node was reached. *)
Theorem dispatch_keeps_cursor data off values fieldname subtypes compute
  rest sub recs values1 :
  off < bitlen data ->
  select values fieldname subtypes compute = Ok (Some sub) ->
  aivdm_unpack data off values sub = Ok (recs, values1) ->
  aivdm_unpack data off values (Dispatch fieldname subtypes compute :: rest) =
  ('(recs', values2) ← aivdm_unpack data off values1 rest;
   Ok ((recs ++ recs')%list, values2)).
Proof.
  intros Hoff Hsel Hsub. unfold aivdm_unpack in *.
  unfold unpack_loop at 1. rewrite for_loop_cons. cbn [offset].
  destruct (bitlen data <=? off) eqn:E; [apply Z.leb_le in E; lia|].
  rewrite unpack_inst_dispatch, Hsel. cbn [mbind result_bind bind offset].
  destruct (unpack_loop data sub (mk_frame off None []) values)
    as [[[o1 v1 c1] values']|e]; [|discriminate Hsub].
  cbn in Hsub. injection Hsub as -> ->.
  cbn [mbind result_bind bind offset value_ cooked app].
  fold (unpack_loop data rest (mk_frame off None recs) values1).
  rewrite for_loop_cooked.
  destruct (unpack_loop data rest (mk_frame off None []) values1)
    as [[[o2 v2 c2] values2]|e]; reflexivity.
Qed.

Lemma dispatch_keeps_cursor_witness :
  aivdm_unpack three_bytes 8 {["a" := VInt 0]}
    (Dispatch "a" [Some [Field (byte_field "b")]] (fun x => x)
       :: [Field (byte_field "c")]) =
  ('(recs', values2) ←
     aivdm_unpack three_bytes 8 (<["b" := VInt 1]> {["a" := VInt 0]})
       [Field (byte_field "c")];
   Ok (([mk_cooked "b" (VInt 1) "unsigned" "b" None false] ++ recs')%list,
       values2)).
Proof.
  apply (dispatch_keeps_cursor three_bytes 8 {["a" := VInt 0]} "a"
           [Some [Field (byte_field "b")]] (fun x => x)
           [Field (byte_field "c")] [Field (byte_field "b")]).
  - cbn. lia.
  - reflexivity.
  - reflexivity.
Defined.

(** C1, the claim as stated fails: in [a; dispatch on a -> (b); c] over
    the bytes 0, 1, 2 the sub-schema's decoding ends at bit 16, where
    the byte 2 lies, and [c] is decoded at bit 8 again and reads 1. *)
Lemma dispatch_cursor_counterexample :
  (exists fr values,
     unpack_loop three_bytes [Field (byte_field "b")] (mk_frame 8 None [])
       {["a" := VInt 0]} = Ok (fr, values) /\ offset fr = 16) /\
  ubits three_bytes 16 8 = Ok 2 /\
  ubits three_bytes 8 8 = Ok 1 /\
  exists recs values,
    aivdm_unpack three_bytes 0 ∅ after_dispatch = Ok (recs, values) /\
    map (fun c => (c_name c, c_value c)) recs =
      [("a", VInt 0); ("b", VInt 1); ("c", VInt 1)].
Proof.
  split; [do 2 eexists; split; reflexivity|].
  split; [reflexivity|]. split; [reflexivity|].
  do 2 eexists. split; reflexivity.
Qed.

(** ** Validation *)

Lemma py_getitem_low {A} (l : list A) i e :
  py_getitem l i = Raise e -> low_level e.
Proof.
  unfold py_getitem. destruct (_ || _).
  - intros [= <-]. exact I.
  - destruct (nth_error l _); [discriminate|]. intros [= <-]. exact I.
Qed.

Lemma py_getitem_In {A} (l : list A) i a : py_getitem l i = Ok a -> In a l.
Proof.
  unfold py_getitem. destruct (_ || _); [discriminate|].
  destruct (nth_error l _) eqn:E; [|discriminate].
  intros [= <-]. eapply nth_error_In, E.
Qed.

Lemma ubits_loop_low bs idx : forall fld e,
  ubits_loop bs idx fld = Raise e -> low_level e.
Proof.
  induction idx as [|i idx IH]; intros fld e; cbn [ubits_loop].
  - discriminate.
  - destruct (py_getitem bs i) eqn:E; cbn.
    + apply IH.
    + intros [= <-]. eapply py_getitem_low, E.
Qed.

Lemma py_shiftl_low a n e : py_shiftl a n = Raise e -> low_level e.
Proof. unfold py_shiftl. destruct (n <? 0); [intros [= <-]; exact I|discriminate]. Qed.

Lemma ubits_low self start w e : ubits self start w = Raise e -> low_level e.
Proof.
  unfold ubits. destruct (ubits_loop _ _ _) eqn:E; cbn.
  - destruct (py_shiftl (-1) w) eqn:E'; cbn; [discriminate|].
    intros [= <-]. eapply py_shiftl_low, E'.
  - intros [= <-]. eapply ubits_loop_low, E.
Qed.

Lemma sbits_low self start w e : sbits self start w = Raise e -> low_level e.
Proof.
  unfold sbits. destruct (ubits self start w) eqn:E; cbn.
  - destruct (py_shiftl 1 (w - 1)) eqn:E'; cbn.
    + destruct (_ =? 0); discriminate.
    + intros [= <-]. eapply py_shiftl_low, E'.
  - intros [= <-]. eapply ubits_low, E.
Qed.

Lemma text_loop_low data o idx : forall s e,
  text_loop data o idx s = Raise e -> low_level e.
Proof.
  induction idx as [|i idx IH]; intros s e; cbn [text_loop].
  - discriminate.
  - destruct (ubits data (o + 6 * i) 6) eqn:E; cbn.
    + destruct (py_getitem _ a) eqn:E'; cbn.
      * apply IH.
      * intros [= <-]. eapply py_getitem_low, E'.
    + intros [= <-]. eapply ubits_low, E.
Qed.

Lemma field_value_low data o f old e :
  field_value data o f old = Raise e -> low_level e.
Proof.
  unfold field_value.
  destruct (String.eqb (type f) "unsigned").
  { destruct (ubits data o (width f)) eqn:E; cbn; [discriminate|].
    intros [= <-]. eapply ubits_low, E. }
  destruct (String.eqb (type f) "signed").
  { destruct (sbits data o (width f)) eqn:E; cbn; [discriminate|].
    intros [= <-]. eapply sbits_low, E. }
  destruct (String.eqb (type f) "string").
  { destruct (text_loop data o _ _) eqn:E; cbn; [discriminate|].
    intros [= <-]. eapply text_loop_low, E. }
  destruct (String.eqb (type f) "raw"); discriminate.
Qed.

Lemma select_In values fieldname subtypes compute o :
  select values fieldname subtypes compute = Ok o -> In o subtypes.
Proof.
  unfold select. destruct (values !! fieldname); [|discriminate]. cbn.
  destruct (as_index _); [|discriminate]. cbn. apply py_getitem_In.
Qed.

Lemma select_not_validation values fieldname subtypes compute n v :
  select values fieldname subtypes compute <> Raise (AISUnpackingException n v).
Proof.
  unfold select. destruct (values !! fieldname); [|discriminate]. cbn.
  destruct (compute _); cbn; try discriminate.
  intros H. apply py_getitem_low in H. exact H.
Qed.

Lemma inst_size_pos i : (1 <= inst_size i)%nat.
Proof. destruct i; cbn; lia. Qed.

Lemma list_sum_In (l : list nat) x : In x l -> (x <= list_sum l)%nat.
Proof.
  induction l as [|y l IH]; cbn [In]; [tauto|].
  change (list_sum (y :: l)) with (y + list_sum l)%nat.
  intros [->|H]; [lia|]. specialize (IH H). lia.
Qed.

Lemma schema_size_sub fieldname subtypes compute s :
  In (Some s) subtypes ->
  (schema_size s < inst_size (Dispatch fieldname subtypes compute))%nat.
Proof.
  intros Hin. cbn [inst_size]. apply Nat.lt_succ_r.
  apply (list_sum_In _ (schema_size s)).
  apply (in_map (fun o => match o with
                          | None => O
                          | Some s => list_sum (map inst_size s)
                          end) _ _ Hin).
Qed.

Lemma encounter_raises data instructions fr values f v :
  Encounter data instructions fr values f v -> rejected f v = true ->
  unpack_loop data instructions fr values =
  Raise (AISUnpackingException (name f) v).
Proof.
  unfold unpack_loop.
  induction 1 as [f rest fr values v Hoff Hval
                 |fieldname subtypes compute rest fr values sub f v Hoff Hsel _ IH
                 |i rest fr values fr' values' f v Hoff Hstep _ IH];
    intros Hrej; rewrite for_loop_cons;
    (destruct (bitlen data <=? offset fr) eqn:E; [apply Z.leb_le in E; lia|]).
  - cbn [unpack_inst]. rewrite Hval. cbn. now rewrite Hrej.
  - rewrite unpack_inst_dispatch, Hsel. cbn. unfold unpack_loop.
    now rewrite (IH Hrej).
  - rewrite Hstep. cbn. exact (IH Hrej).
Qed.

Lemma raises_encounter data (m : nat) : forall instructions,
  (schema_size instructions < m)%nat ->
  forall fr values n v,
    unpack_loop data instructions fr values =
      Raise (AISUnpackingException n v) ->
    exists f, Encounter data instructions fr values f v /\
              name f = n /\ rejected f v = true.
Proof.
  unfold unpack_loop.
  induction m as [|m IHm]; intros instructions Hsize; [lia|].
  induction instructions as [|i rest IH]; intros fr values n v Hrun.
  - discriminate Hrun.
  - rewrite for_loop_cons in Hrun.
    destruct (bitlen data <=? offset fr) eqn:E; [discriminate Hrun|].
    apply Z.leb_gt in E.
    change (schema_size (i :: rest))
      with (inst_size i + schema_size rest)%nat in Hsize.
    pose proof (inst_size_pos i) as Hpos.
    destruct (unpack_inst data i fr values) as [[fr' values']|e] eqn:Hstep.
    + cbn in Hrun.
      destruct (IH ltac:(lia) fr' values' n v Hrun) as [f [Henc [Hn Hrej]]].
      exists f. split; [|auto]. eapply enc_next; eauto.
    + cbn in Hrun. injection Hrun as ->.
      destruct i as [w|fieldname subtypes compute|f].
      * discriminate Hstep.
      * rewrite unpack_inst_dispatch in Hstep.
        destruct (select values fieldname subtypes compute) as [[s|]|e] eqn:Hsel;
          cbn in Hstep; try discriminate Hstep.
        -- destruct (unpack_loop data s _ values) as [[fr' values']|e] eqn:Hsub;
             cbn in Hstep; [discriminate Hstep|]. injection Hstep as ->.
           pose proof (schema_size_sub fieldname subtypes compute s
                         (select_In _ _ _ _ _ Hsel)) as Hlt.
           destruct (IHm s ltac:(lia) _ _ _ _ Hsub) as [f [Henc [Hn Hrej]]].
           exists f. split; [|auto]. eapply enc_sub; eauto.
        -- injection Hstep as ->. now apply select_not_validation in Hsel.
      * cbn [unpack_inst] in Hstep.
        destruct (field_value data (offset fr) f (value_ fr)) as [[x|]|e] eqn:Hval;
          cbn in Hstep; try discriminate Hstep.
        -- destruct (rejected f x) eqn:Hrej; [|discriminate Hstep].
           injection Hstep as <- <-.
           exists f. split; [|auto]. eapply enc_here; eauto.
        -- injection Hstep as ->. now apply field_value_low in Hval.
Qed.

(** C4. Unpacking a message fails with the validation error of a
    field's name and value exactly when the walk reaches such a field,
    reads that value for it and its validator rejects it; the failure
    is the whole result, no record is returned with it.  When every
    validator the walk meets accepts, no validation error is raised. *)
Theorem validation_aborts data off values instructions :
  (forall n v,
     aivdm_unpack data off values instructions =
       Raise (AISUnpackingException n v)
     <-> exists f, Encounter data instructions (mk_frame off None []) values f v
                   /\ name f = n /\ rejected f v = true)
  /\ ((forall f v, Encounter data instructions (mk_frame off None []) values f v
                   -> rejected f v = false)
      -> forall n v, aivdm_unpack data off values instructions
                     <> Raise (AISUnpackingException n v)).
Proof.
  assert (Hiff : forall n v,
     aivdm_unpack data off values instructions =
       Raise (AISUnpackingException n v)
     <-> exists f, Encounter data instructions (mk_frame off None []) values f v
                   /\ name f = n /\ rejected f v = true).
  { intros n v. unfold aivdm_unpack. split.
    - intros Hrun.
      destruct (unpack_loop data instructions (mk_frame off None []) values)
        as [[fr' values']|e] eqn:Hloop; [discriminate Hrun|].
      cbn in Hrun. injection Hrun as ->.
      eapply (raises_encounter data (S (schema_size instructions))); eauto.
    - intros [f [Henc [Hn Hrej]]].
      rewrite (encounter_raises _ _ _ _ _ _ Henc Hrej), Hn. reflexivity. }
  split; [exact Hiff|].
  intros Hacc n v Hrun. apply Hiff in Hrun.
  destruct Hrun as [f [Henc [_ Hrej]]].
  rewrite (Hacc f v Henc) in Hrej. discriminate Hrej.
Qed.

(** ** The master dispatch *)




(** ** Truncated buffers *)

Lemma py_range_In (a b i : Z) : In i (py_range a b) -> a <= i < b.
Proof.
  unfold py_range. rewrite in_map_iff. intros [k [<- Hk]].
  apply in_seq in Hk. lia.
Qed.

Lemma sixbit_alphabet_length :
  Z.of_nat (length (list_ascii_of_string sixbit_alphabet)) = 64.
Proof. reflexivity. Qed.

Lemma text_loop_ok data o idx : forall s,
  bytes_ok (bits data) ->
  (forall i, In i idx ->
     0 <= o + 6 * i /\ o + 6 * i + 6 <= 8 * Z.of_nat (length (bits data))) ->
  exists s', text_loop data o idx s = Ok s'.
Proof.
  induction idx as [|i idx IH]; intros s Hbs Hwin; cbn [text_loop].
  - now exists s.
  - destruct (Hwin i ltac:(now left)) as [Hlo Hhi].
    destruct (ubits_spec data (o + 6 * i) 6 Hbs Hlo ltac:(lia) Hhi)
      as [u [Hu [Hrange _]]].
    rewrite Hu. cbn. change (2 ^ 6) with 64 in Hrange.
    rewrite (py_getitem_Ok _ u "@"%char)
      by (rewrite sixbit_alphabet_length; lia).
    cbn [mbind result_bind bind].
    apply IH; [exact Hbs|]. intros j Hj. apply Hwin. now right.
Qed.

Lemma known_type_cases t :
  known_type t = true ->
  t = "unsigned" \/ t = "signed" \/ t = "string" \/ t = "raw".
Proof.
  unfold known_type. rewrite !orb_true_iff, !String.eqb_eq. tauto.
Qed.

(** A field of a known type whose window lies inside the array is read
    without exception, whatever the variable [value] held before. *)
Lemma field_value_ok data o f old :
  wf data -> 0 <= o -> 0 < width f -> known_type (type f) = true ->
  o + width f <= 8 * Z.of_nat (length (bits data)) ->
  exists v, field_value data o f old = Ok (Some v) /\
            field_value data o f None = Ok (Some v).
Proof.
  intros [Hbs _] Ho Hw Ht Hwin. unfold field_value.
  destruct (known_type_cases _ Ht) as [E|[E|[E|E]]]; rewrite E;
    cbn [String.eqb Ascii.eqb Bool.eqb andb].
  - destruct (ubits_spec data o (width f) Hbs Ho ltac:(lia) Hwin)
      as [u [Hu _]].
    rewrite Hu. cbn. eauto.
  - destruct (ubits_spec data o (width f) Hbs Ho ltac:(lia) Hwin)
      as [u [Hu _]].
    unfold sbits, py_shiftl. rewrite Hu. cbn.
    destruct (width f - 1 <? 0) eqn:E'; [apply Z.ltb_lt in E'; lia|]. cbn.
    destruct (_ =? 0); cbn; eauto.
  - destruct (text_loop_ok data o (py_range 0 (width f / 6)) "" Hbs)
      as [s Hs].
    { intros i Hi. apply py_range_In in Hi.
      assert (6 * (width f / 6) <= width f)
        by (apply Z.mul_div_le; lia). lia. }
    rewrite Hs. cbn. eauto.
  - eauto.
Qed.

Lemma layout_ge instructions : forall off p,
  forallb flat instructions = true ->
  In p (layout off instructions) -> off <= fst p.
Proof.
  induction instructions as [|i rest IH]; intros off p Hflat Hin;
    [destruct Hin|].
  cbn [forallb] in Hflat. apply andb_prop in Hflat as [Hi Hrest].
  destruct i as [w|fieldname subtypes compute|f]; cbn [layout flat] in *.
  - apply Z.leb_le in Hi. specialize (IH _ _ Hrest Hin). lia.
  - discriminate Hi.
  - apply andb_prop in Hi as [Hw _]. apply Z.ltb_lt in Hw.
    destruct Hin as [<-|Hin]; [cbn; lia|].
    specialize (IH _ _ Hrest Hin). lia.
Qed.

Lemma filter_none {A} (P : A -> bool) (l : list A) :
  (forall x, In x l -> P x = false) -> List.filter P l = [].
Proof.
  induction l as [|x l IH]; intros H; [reflexivity|].
  cbn [List.filter]. rewrite (H x) by now left.
  apply IH. intros y Hy. apply H. now right.
Qed.

Lemma filter_started_nil data off instructions :
  forallb flat instructions = true -> bitlen data <= off ->
  List.filter (started data) (layout off instructions) = [].
Proof.
  intros Hflat Hoff. apply filter_none. intros p Hin.
  pose proof (layout_ge instructions off p Hflat Hin).
  unfold started. apply Z.ltb_ge. lia.
Qed.

Lemma unpack_flat data instructions : forall o old c values,
  wf data -> forallb flat instructions = true -> 0 <= o ->
  (forall p, In p (layout o instructions) -> started data p = true ->
     fst p + width (snd p) <= 8 * Z.of_nat (length (bits data))) ->
  (forall p v, In p (layout o instructions) -> started data p = true ->
     field_value data (fst p) (snd p) None = Ok (Some v) ->
     rejected (snd p) v = false) ->
  exists fr values' recs,
    unpack_loop data instructions (mk_frame o old c) values = Ok (fr, values') /\
    cooked fr = (c ++ recs)%list /\
    Forall2 (decoded_at data) recs
      (List.filter (started data) (layout o instructions)).
Proof.
  unfold unpack_loop.
  induction instructions as [|i rest IH];
    intros o old c values Hwf Hflat Ho Hwin Hacc.
  - exists (mk_frame o old c), values, []. cbn.
    split; [reflexivity|]. split; [now rewrite app_nil_r|]. constructor.
  - rewrite for_loop_cons. cbn [offset].
    destruct (bitlen data <=? o) eqn:E.
    + apply Z.leb_le in E. rewrite filter_started_nil by auto.
      exists (mk_frame o old c), values, []. cbn.
      split; [reflexivity|]. split; [now rewrite app_nil_r|]. constructor.
    + apply Z.leb_gt in E.
      pose proof Hflat as Hflat'. cbn [forallb] in Hflat'.
      apply andb_prop in Hflat' as [Hi Hrest].
      destruct i as [w|fieldname subtypes compute|f]; cbn [flat] in Hi.
      * apply Z.leb_le in Hi. cbn [unpack_inst layout] in *.
        cbn [mbind result_bind bind offset value_ cooked].
        apply IH; auto. lia.
      * discriminate Hi.
      * apply andb_prop in Hi as [Hw Ht]. apply Z.ltb_lt in Hw.
        cbn [layout] in *.
        assert (Hst : started data (o, f) = true)
          by (unfold started; cbn; now apply Z.ltb_lt).
        destruct (field_value_ok data o f old Hwf Ho Hw Ht) as [v [Hv Hv0]].
        { apply (Hwin (o, f)); [now left|exact Hst]. }
        cbn [unpack_inst offset value_ cooked]. rewrite Hv.
        cbn [mbind result_bind bind].
        pose proof (Hacc (o, f) v ltac:(now left) Hst Hv0) as Hrej.
        cbn [fst snd] in Hrej. rewrite Hrej.
        cbn [mbind result_bind bind].
        destruct (IH (o + width f) (Some v)
                    (c ++ [mk_cooked (name f) v (type f) (legend f)
                                     (formatter f) false])%list
                    (<[name f := v]> values) Hwf Hrest ltac:(lia))
          as [fr [values' [recs [Hrun [Hc Hall]]]]].
        { intros p Hp. apply Hwin. now right. }
        { intros p x Hp. apply Hacc. now right. }
        exists fr, values'.
        exists (mk_cooked (name f) v (type f) (legend f) (formatter f) false
                  :: recs).
        split; [exact Hrun|]. split.
        { rewrite Hc, <- app_assoc. reflexivity. }
        cbn [List.filter]. rewrite Hst. constructor; [|exact Hall].
        split; [reflexivity|exact Hv0].
Qed.




(** ** Fragment reassembly *)

Lemma split_no_comma (s : string) :
  no_comma s = true -> split "," s = [s].
Proof.
  induction s as [|c s IH]; cbn [no_comma split]; [reflexivity|].
  intros H. apply andb_prop in H as [Hc Hs].
  apply negb_true_iff in Hc. rewrite Hc, (IH Hs). reflexivity.
Qed.

Lemma split_app (a rest : string) :
  no_comma a = true ->
  split "," (a ++ String "," rest) = a :: split "," rest.
Proof.
  induction a as [|c a IH]; intros H.
  - cbn. reflexivity.
  - cbn [no_comma] in H. apply andb_prop in H as [Hc Ha].
    apply negb_true_iff in Hc.
    change (String c a ++ String "," rest)
      with (String c (a ++ String "," rest)).
    cbn [split]. rewrite Hc, (IH Ha). reflexivity.
Qed.

Lemma split_concat (fields : list string) :
  fields <> [] -> forallb no_comma fields = true ->
  split "," (String.concat "," fields) = fields.
Proof.
  induction fields as [|x fields IH]; [congruence|]. intros _ Hall.
  cbn [forallb] in Hall. apply andb_prop in Hall as [Hx Hrest].
  destruct fields as [|y fields].
  - cbn [String.concat]. now apply split_no_comma.
  - change (String.concat "," (x :: y :: fields))
      with (x ++ String "," (String.concat "," (y :: fields))).
    rewrite split_app by exact Hx. f_equal. apply IH; [discriminate|exact Hrest].
Qed.

Lemma digit_cases (n : Z) :
  1 <= n <= 9 ->
  n = 1 \/ n = 2 \/ n = 3 \/ n = 4 \/ n = 5 \/ n = 6 \/ n = 7 \/ n = 8 \/ n = 9.
Proof. lia. Qed.

(** On a sentence that is fragment [number] of [expect], both of one
    digit ([1 <= number <= expect <= 9]), the reassembler sets its
    accumulator to the payload segment when [number] is 1 and appends
    the segment to it otherwise, and the payload goes on to the decoder
    exactly when [number] is [expect]. *)
Lemma assemble_one_digit (payload : string) (expect number : Z)
  (seg : string) :
  1 <= number <= expect -> expect <= 9 -> no_comma seg = true ->
  assemble payload (sentence expect number seg) =
  Ok (if number =? 1 then seg else payload ++ seg, number =? expect).
Proof.
  intros Hn He Hseg.
  unfold assemble, sentence.
  assert (Hfields : forallb no_comma
            ["!AIVDM"; py_str_int expect; py_str_int number; ""; "A"; seg; "0*00"]
          = true).
  { destruct (digit_cases expect ltac:(lia)) as [->|[->|[->|[->|[->|[->|[->|[->| ->]]]]]]]];
    destruct (digit_cases number ltac:(lia)) as [->|[->|[->|[->|[->|[->|[->|[->| ->]]]]]]]];
    cbn; rewrite Hseg; reflexivity. }
  rewrite split_concat by (auto; discriminate).
  destruct (digit_cases expect ltac:(lia)) as [->|[->|[->|[->|[->|[->|[->|[->| ->]]]]]]]];
    destruct (digit_cases number ltac:(lia)) as [->|[->|[->|[->|[->|[->|[->|[->| ->]]]]]]]];
    try lia; reflexivity.
Qed.

(** C6, on the code. The reassembler tests [fragment < expect] on the
    two fields as text.  On counts of one digit that is the numeric
    test: the accumulator is reset on fragment 1, extended otherwise,
    and handed on exactly at the last fragment; fragments 1 and 2 of 2
    with segments ["A"] and ["B"] give the one payload ["AB"], and
    fragment 1 of 2 alone gives none.  On a count of two digits it is
    not: ["2"] is not below ["10"], so fragment 2 of 10 is handed on
    with the payload ["AB"] accumulated so far, and a message of ten
    fragments reaches the decoder nine times, eight of them
    incomplete. *)
Theorem fragment_count_compared_as_text :
  (forall payload expect number seg,
     1 <= number <= expect -> expect <= 9 -> no_comma seg = true ->
     assemble payload (sentence expect number seg) =
     Ok (if number =? 1 then seg else payload ++ seg, number =? expect))
  /\ assembled [sentence 2 1 "A"; sentence 2 2 "B"] "" = Ok ["AB"]
  /\ assembled [sentence 2 1 "A"] "" = Ok []
  /\ assemble "A" (sentence 10 2 "B") = Ok ("AB", true)
  /\ assembled [sentence 10 1 "A"; sentence 10 2 "B"] "" = Ok ["AB"]
  /\ assembled (fragments ["A"; "B"; "C"; "D"; "E"; "F"; "G"; "H"; "I"; "J"])
        "" =
      Ok ["AB"; "ABC"; "ABCD"; "ABCDE"; "ABCDEF"; "ABCDEFG"; "ABCDEFGH";
          "ABCDEFGHI"; "ABCDEFGHIJ"].
Proof.
  split; [exact assemble_one_digit|].
  repeat split; vm_compute; reflexivity.
Qed.

(** ** The extension pass *)

Lemma py_getitem_range {A} (l : list A) (i : Z) (a : A) :
  0 <= i -> py_getitem l i = Ok a -> i < Z.of_nat (length l).
Proof.
  intros Hi. unfold py_getitem.
  destruct (i <? 0) eqn:E; [apply Z.ltb_lt in E; lia|].
  destruct (Z.of_nat (length l) <=? i) eqn:E'.
  - rewrite orb_true_r. discriminate.
  - intros _. now apply Z.leb_gt in E'.
Qed.

Lemma py_setitem_length {A} (l l' : list A) (i : Z) (x : A) :
  py_setitem l i x = Ok l' -> length l' = length l.
Proof.
  unfold py_setitem. destruct (_ || _); [discriminate|].
  intros [= <-]. apply length_insert.
Qed.

(** [l[:j] + l[j+1:]] drops one element. *)
Lemma slice_out_length {A} (l : list A) (j : Z) :
  0 <= j < Z.of_nat (length l) ->
  S (length (py_slice_to l j ++ py_slice_from l (j + 1))) = length l.
Proof.
  intros Hj. unfold py_slice_to, py_slice_from, py_bound.
  destruct (j <? 0) eqn:E; [apply Z.ltb_lt in E; lia|].
  destruct (j + 1 <? 0) eqn:E'; [apply Z.ltb_lt in E'; lia|].
  rewrite length_app, length_firstn, length_skipn. lia.
Qed.

(** The inner loop leaves the list as it is, or shorter. *)
Lemma merge_inner_shrinks (i : Z) (js : list Z) : forall cooked retry r,
  (forall j, In j js -> 0 <= j) ->
  merge_inner i js cooked retry = Ok r ->
  r = (cooked, retry) \/ (length (fst r) < length cooked)%nat.
Proof.
  induction js as [|j js IH]; intros cooked retry r Hpos Hrun;
    cbn [merge_inner] in Hrun.
  - injection Hrun as <-. now left.
  - assert (Hj : 0 <= j) by (apply Hpos; now left).
    assert (Hpos' : forall k, In k js -> 0 <= k)
      by (intros k Hk; apply Hpos; now right).
    destruct (py_getitem cooked j) as [cj|e] eqn:Ej; [|discriminate Hrun].
    cbn [mbind result_bind bind] in Hrun.
    destruct (String.eqb (c_type cj) "string"); [|now apply IH].
    destruct (py_getitem cooked i) as [ci|e] eqn:Ei; [|discriminate Hrun].
    cbn [mbind result_bind bind] in Hrun.
    destruct (String.eqb (c_name ci) (c_name cj)); [|now apply IH].
    destruct (py_add (c_value ci) (c_value cj)) as [v|e]; [|discriminate Hrun].
    cbn [mbind result_bind bind] in Hrun.
    destruct (c_tuple ci); [discriminate Hrun|].
    destruct (py_setitem cooked i (set_value ci v)) as [cooked1|e] eqn:Es;
      [|discriminate Hrun].
    cbn [mbind result_bind bind] in Hrun.
    apply py_setitem_length in Es.
    pose proof (py_getitem_range _ _ _ Hj Ej) as Hlt.
    pose proof (slice_out_length cooked1 j ltac:(lia)) as Hlen.
    right. destruct (IH _ _ _ Hpos' Hrun) as [-> | Hshort]; cbn [fst]; lia.
Qed.

(** With a range that runs to the old length and a list that is now
    shorter, the outer loop ends on an exception. *)
Lemma merge_outer_shrunk (idx : list Z) : forall cooked retry,
  (forall k, In k idx -> 0 <= k) -> idx <> [] ->
  Z.of_nat (length cooked) <= List.last idx 0 ->
  exists e, merge_outer idx cooked retry = Raise e.
Proof.
  induction idx as [|i idx IH]; intros cooked retry Hpos Hne Hlast;
    [congruence|].
  cbn [merge_outer].
  destruct (py_getitem cooked i) as [ci|e] eqn:Ei; [|now exists e].
  cbn [mbind result_bind bind].
  assert (Hi : 0 <= i) by (apply Hpos; now left).
  assert (Hpos' : forall k, In k idx -> 0 <= k)
    by (intros k Hk; apply Hpos; now right).
  pose proof (py_getitem_range _ _ _ Hi Ei) as Hlt.
  destruct idx as [|k idx]; [cbn in Hlast; lia|].
  change (List.last (i :: k :: idx) 0) with (List.last (k :: idx) 0) in Hlast.
  destruct (String.eqb (c_type ci) "string").
  - destruct (merge_inner i _ cooked retry) as [[cooked' retry']|e] eqn:Hin;
      [|now exists e].
    cbn [mbind result_bind bind].
    apply IH; [exact Hpos'|discriminate|].
    apply merge_inner_shrinks in Hin.
    + destruct Hin as [[= -> ->]|Hshort]; cbn [fst] in *; lia.
    + intros j Hj. apply py_range_In in Hj. lia.
  - apply IH; [exact Hpos'|discriminate|exact Hlast].
Qed.

(** A run of the outer loop that ends normally has changed nothing. *)
Lemma merge_outer_unchanged (idx : list Z) : forall cooked retry r,
  (forall k, In k idx -> 0 <= k) ->
  idx = [] \/ List.last idx 0 = Z.of_nat (length cooked) - 1 ->
  merge_outer idx cooked retry = Ok r -> r = (cooked, retry).
Proof.
  induction idx as [|i idx IH]; intros cooked retry r Hpos Hlast Hrun;
    cbn [merge_outer] in Hrun.
  - now injection Hrun as <-.
  - destruct Hlast as [Hnil|Hlast]; [discriminate Hnil|].
    assert (Hi : 0 <= i) by (apply Hpos; now left).
    assert (Hpos' : forall k, In k idx -> 0 <= k)
      by (intros k Hk; apply Hpos; now right).
    assert (Hlast' : idx = [] \/ List.last idx 0 = Z.of_nat (length cooked) - 1).
    { destruct idx as [|k idx]; [now left|right; exact Hlast]. }
    destruct (py_getitem cooked i) as [ci|e] eqn:Ei; [|discriminate Hrun].
    cbn [mbind result_bind bind] in Hrun.
    destruct (String.eqb (c_type ci) "string"); [|now apply IH].
    destruct (merge_inner i _ cooked retry) as [[cooked' retry']|e] eqn:Hin;
      [|discriminate Hrun].
    cbn [mbind result_bind bind] in Hrun.
    pose proof Hin as Hin'. apply merge_inner_shrinks in Hin'.
    2:{ intros j Hj. apply py_range_In in Hj. lia. }
    destruct Hin' as [[= -> ->]|Hshort]; [now apply IH|].
    cbn [fst] in Hshort. exfalso.
    destruct idx as [|k idx].
    + cbn in Hlast. rewrite py_range_nil in Hin by lia.
      cbn in Hin. injection Hin as <- <-. lia.
    + destruct (merge_outer_shrunk (k :: idx) cooked' retry' Hpos'
                  ltac:(discriminate)) as [e He].
      * change (List.last (i :: k :: idx) 0) with (List.last (k :: idx) 0) in Hlast.
        lia.
      * rewrite He in Hrun. discriminate Hrun.
Qed.

Lemma py_range_last (n : nat) :
  py_range 0 (Z.of_nat n) = [] \/
  List.last (py_range 0 (Z.of_nat n)) 0 = Z.of_nat n - 1.
Proof.
  destruct n as [|n]; [now left|right].
  unfold py_range. rewrite Z.sub_0_r, Nat2Z.id, seq_S, map_app.
  cbn [map]. rewrite List.last_last. lia.
Qed.

(** The [while] loop makes one round: the pass raises, or returns the
    record it was given. *)
Lemma extension_merge_cases (cooked : list cooked_field) :
  (exists e, extension_merge cooked = Some (Raise e)) \/
  extension_merge cooked = Some (Ok cooked).
Proof.
  unfold extension_merge. cbn [merge_while].
  destruct (merge_outer _ cooked false) as [r|e] eqn:Hrun;
    [|left; now exists e].
  apply merge_outer_unchanged in Hrun.
  - subst r. now right.
  - intros k Hk. apply py_range_In in Hk. lia.
  - apply py_range_last.
Qed.

(** C9, on the code. The extension pass does not merge: on the record
    of ["ALFA"] and ["BRAVO"] under one name it extends the first
    value, drops the second entry and then indexes the shortened list
    at 1, which raises [IndexError]; on every record the pass ends,
    and it either raises or returns the record unchanged. *)
Theorem extension_merge_raises :
  extension_merge alfa_bravo = Some (Raise IndexError) /\
  (forall cooked, extension_merge cooked <> None) /\
  (forall cooked cooked',
     extension_merge cooked = Some (Ok cooked') -> cooked' = cooked).
Proof.
  split; [reflexivity|]. split.
  - intros cooked. destruct (extension_merge_cases cooked) as [[e H]|H];
      rewrite H; discriminate.
  - intros cooked cooked' Hrun.
    destruct (extension_merge_cases cooked) as [[e H]|H];
      rewrite H in Hrun; [discriminate Hrun|].
    now injection Hrun as <-.
Qed.

(** ** The message-1 codec *)

Lemma fold_bits_acc (l : bitvec) : forall a,
  fold_left (fun acc (b : bool) => 2 * acc + Z.b2z b) l a =
  a * 2 ^ Z.of_nat (length l) + bv_to_int l.
Proof.
  unfold bv_to_int. induction l as [|b l IH]; intros a.
  - cbn. lia.
  - cbn [fold_left length]. rewrite (IH (2 * a + Z.b2z b)), (IH (2 * 0 + Z.b2z b)).
    rewrite Nat2Z.inj_succ, Z.pow_succ_r by lia. lia.
Qed.

Lemma bv_to_int_cons (b : bool) (l : bitvec) :
  bv_to_int (b :: l) = Z.b2z b * 2 ^ Z.of_nat (length l) + bv_to_int l.
Proof.
  unfold bv_to_int at 1. cbn [fold_left]. rewrite fold_bits_acc. lia.
Qed.

Lemma bv_to_int_app (l1 l2 : bitvec) :
  bv_to_int (l1 ++ l2)%list =
  bv_to_int l1 * 2 ^ Z.of_nat (length l2) + bv_to_int l2.
Proof.
  unfold bv_to_int at 1. rewrite fold_left_app.
  fold (bv_to_int l1). apply fold_bits_acc.
Qed.

Lemma bv_to_int_zeros (k : nat) : bv_to_int (repeat false k) = 0.
Proof.
  induction k as [|k IH]; [reflexivity|].
  cbn [repeat]. rewrite bv_to_int_cons, IH. cbn. lia.
Qed.

Lemma pos_bits_app (p : positive) : forall acc,
  pos_bits p acc = (pos_bits p [] ++ acc)%list.
Proof.
  induction p as [p IH|p IH|]; intros acc; cbn [pos_bits].
  - rewrite (IH (true :: acc)), (IH [true]), <- app_assoc. reflexivity.
  - rewrite (IH (false :: acc)), (IH [false]), <- app_assoc. reflexivity.
  - reflexivity.
Qed.

Lemma pos_bits_value (p : positive) : bv_to_int (pos_bits p []) = Zpos p.
Proof.
  induction p as [p IH|p IH|]; cbn [pos_bits].
  - rewrite pos_bits_app, bv_to_int_app, IH. cbn. lia.
  - rewrite pos_bits_app, bv_to_int_app, IH. cbn. lia.
  - reflexivity.
Qed.

Lemma pos_bits_length (p : positive) : forall w : nat,
  Zpos p < 2 ^ Z.of_nat w -> (length (pos_bits p []) <= w)%nat.
Proof.
  induction p as [p IH|p IH|]; intros w Hw; cbn [pos_bits].
  - destruct w as [|w]; [cbn in Hw; lia|].
    rewrite Nat2Z.inj_succ, Z.pow_succ_r in Hw by lia.
    rewrite pos_bits_app, length_app. cbn [length].
    specialize (IH w ltac:(lia)). lia.
  - destruct w as [|w]; [cbn in Hw; lia|].
    rewrite Nat2Z.inj_succ, Z.pow_succ_r in Hw by lia.
    rewrite pos_bits_app, length_app. cbn [length].
    specialize (IH w ltac:(lia)). lia.
  - destruct w as [|w]; [cbn in Hw; lia|]. cbn. lia.
Qed.

(** An in-range unsigned field is sent on exactly [w] bits that read
    back as the number. *)
Lemma uint_ok (n : Z) (w : nat) :
  (0 < w)%nat -> 0 <= n < 2 ^ Z.of_nat w ->
  exists bv, uint n w = Ok bv /\ length bv = w /\ bv_to_int bv = n.
Proof.
  intros Hw Hn. unfold uint.
  assert (Hbits : exists bits0, bv_of_int n = Ok bits0 /\
                    (length bits0 <= w)%nat /\ bv_to_int bits0 = n).
  { destruct n as [|p|p]; cbn [bv_of_int]; [| |lia].
    - exists [false]. repeat split. cbn. lia.
    - exists (pos_bits p []). split; [reflexivity|].
      split; [apply pos_bits_length; lia|apply pos_bits_value]. }
  destruct Hbits as [bits0 [-> [Hlen Hval]]]. cbn.
  eexists. split; [reflexivity|]. unfold setBitVectorSize. split.
  - rewrite length_app, repeat_length. lia.
  - rewrite bv_to_int_app, bv_to_int_zeros. lia.
Qed.


Lemma sint_length (n : Z) (w : nat) : length (bvFromSignedInt n w) = w.
Proof.
  unfold bvFromSignedInt. now rewrite length_map, length_rev, length_seq.
Qed.


Lemma small_testbit (a k : Z) : 0 <= a < 2 ^ k -> 0 <= k -> Z.testbit a k = false.
Proof.
  intros Ha Hk. destruct (Z.eq_dec a 0) as [->|Hne]; [apply Z.testbit_0_l|].
  apply Z.bits_above_log2; [lia|]. apply Z.log2_lt_pow2; lia.
Qed.


Lemma py_slice_app {A} (pre mid post : list A) (a b : Z) :
  a = Z.of_nat (length pre) -> b = a + Z.of_nat (length mid) ->
  py_slice (pre ++ mid ++ post) a b = mid.
Proof.
  intros -> ->. unfold py_slice, py_bound.
  rewrite !length_app.
  destruct (Z.of_nat (length pre) <? 0) eqn:E1; [apply Z.ltb_lt in E1; lia|].
  destruct (Z.of_nat (length pre) + Z.of_nat (length mid) <? 0) eqn:E2;
    [apply Z.ltb_lt in E2; lia|].
  replace (Z.to_nat (Z.min _ (Z.max 0 (Z.of_nat (length pre)))))
    with (length pre) by lia.
  replace (Z.to_nat (Z.min _ (Z.max 0 (Z.of_nat (length pre) + Z.of_nat (length mid)))))
    with (length (pre ++ mid) + 0)%nat by (rewrite length_app; lia).
  rewrite app_assoc, firstn_app_2. cbn [firstn]. rewrite app_nil_r.
  rewrite skipn_app, skipn_all, Nat.sub_diag. reflexivity.
Qed.

(** A slice of the joined vector at the bounds of piece [k] is that
    piece. *)
Lemma slice_piece (pieces : list bitvec) (k : nat) (a b : Z) :
  (k < length pieces)%nat ->
  a = Z.of_nat (length (concat (firstn k pieces))) ->
  b = a + Z.of_nat (length (nth k pieces [])) ->
  py_slice (joinBV pieces) a b = nth k pieces [].
Proof.
  intros Hk Ha Hb. unfold joinBV.
  rewrite <- (firstn_skipn k pieces) at 1.
  destruct (skipn k pieces) as [|x rest] eqn:Es.
  { apply (f_equal (@length _)) in Es. rewrite length_skipn in Es.
    cbn in Es. lia. }
  assert (Hx : nth k pieces [] = x).
  { rewrite <- (firstn_skipn k pieces) at 1. rewrite Es.
    rewrite app_nth2; rewrite length_firstn; [|lia].
    replace (k - Nat.min k (length pieces))%nat with O by lia. reflexivity. }
  rewrite Hx in *. rewrite concat_app. cbn [concat].
  now apply py_slice_app.
Qed.



Ltac use_uint n w b Hl Hv :=
  let E := fresh "E" in
  destruct (uint_ok n w) as [b [E [Hl Hv]]];
  [lia | first [lia | cbn; lia] | rewrite E; cbn [mbind result_bind bind]].

Ltac read_key :=
  unfold decode;
  repeat (rewrite lookup_insert_ne by discriminate);
  rewrite lookup_insert_eq;
  unfold int_slice, sint_slice, dec_div.

Ltac piece_bounds :=
  cbn [firstn concat nth length];
  rewrite ?length_app, ?sint_length; cbn [length]; lia.

Ltac read_piece k :=
  rewrite (slice_piece _ k) by piece_bounds; cbn [nth].



(** ** The driver on sample sentences *)

(** A class A position report goes through the master dispatch into
    the [cnb] table. *)
Example parse_position_report :
  match parse_ais_messages [sentence 1 1 sample_payload] "" with
  | Some ([cooked], None) =>
      map (fun c => (c_name c, c_value c)) cooked =
      [("msgtype", VInt 1); ("repeat", VInt 0); ("mmsi", VInt 366053209);
       ("status", VInt 3); ("turn", VInt 0); ("speed", VInt 0);
       ("accuracy", VInt 0); ("lon", VInt (-73404971));
       ("lat", VInt 22681271); ("course", VInt 2193); ("heading", VInt 1);
       ("second", VInt 59); ("maneuver", VInt 0); ("raim", VInt 0);
       ("radio", VInt 2281)]
  | _ => False
  end.
Proof. vm_compute. reflexivity. Qed.

(** The two fragments of the reassembly scenario do reach the decoder
    as ["AB"]; twelve bits are too few for the MMSI field, whose
    window leaves the two-byte array. *)
Example parse_two_fragments :
  parse_ais_messages [sentence 2 1 "A"; sentence 2 2 "B"] "" =
  Some ([], Some IndexError).
Proof. vm_compute. reflexivity. Qed.

(** The first field of the type 21 table has the type ['unisigned'],
    none of the four: the variable [value] is still unbound when it is
    stored. *)
Example parse_type21 :
  parse_ais_messages [sentence 1 1 "E5M67FC000G?ufbE`FepT@3n00Sa"] "" =
  Some ([], Some (UnboundLocalError "value")).
Proof. vm_compute. reflexivity. Qed.

(* ================================================================= *)
(** * Further properties of the code *)

(** ** Bit extraction *)

Lemma small_testbit_ge (a w k : Z) :
  0 <= a < 2 ^ w -> 0 <= w <= k -> Z.testbit a k = false.
Proof.
  intros Ha Hk. destruct (Z.eq_dec a 0) as [->|Hne]; [apply Z.testbit_0_l|].
  apply Z.bits_above_log2; [lia|].
  assert (Z.log2 a < w) by (apply Z.log2_lt_pow2; lia). lia.
Qed.

(** X1. [ubits] on a window that lies inside the byte array returns the
    big-endian number of the window: a value below [2 ^ width] whose
    bit [k] is bit [start + width - 1 - k] of the buffer. *)
Theorem ubits_window (self : BitVector) (start width : Z) :
  bytes_ok (bits self) -> 0 <= start -> 0 <= width ->
  start + width <= 8 * Z.of_nat (length (bits self)) ->
  exists u, ubits self start width = Ok u /\ 0 <= u < 2 ^ width /\
    forall k, 0 <= k < width ->
      Z.testbit u k = getbit self (start + width - 1 - k).
Proof. apply ubits_spec. Qed.

Lemma ubits_window_witness :
  exists u, ubits two_bytes 6 4 = Ok u /\ 0 <= u < 2 ^ 4 /\
    forall k, 0 <= k < 4 -> Z.testbit u k = getbit two_bytes (6 + 4 - 1 - k).
Proof.
  apply (ubits_window two_bytes 6 4).
  - repeat constructor; lia.
  - lia.
  - lia.
  - cbn. lia.
Defined.

Lemma ubits_loop_overrun (bs : list Z) (n : nat) : forall a fld,
  0 <= a -> Z.of_nat (length bs) < a + Z.of_nat (S n) ->
  ubits_loop bs (py_range a (a + Z.of_nat (S n))) fld = Raise IndexError.
Proof.
  induction n as [|n IH]; intros a fld Ha Hover;
    rewrite py_range_cons by lia; cbn [ubits_loop].
  - rewrite py_getitem_high by lia. reflexivity.
  - destruct (Z_lt_le_dec a (Z.of_nat (length bs))) as [Hin|Hout].
    + rewrite (py_getitem_Ok bs a 0) by lia. cbn [mbind result_bind bind].
      replace (a + Z.of_nat (S (S n))) with (a + 1 + Z.of_nat (S n)) by lia.
      apply IH; lia.
    + rewrite py_getitem_high by lia. reflexivity.
Qed.

(** X2. A window of positive width that runs past the last byte of the
    array makes [ubits] raise [IndexError], whatever the bit length
    says. *)
Theorem ubits_past_array (self : BitVector) (start width : Z) :
  0 <= start -> 0 < width ->
  8 * Z.of_nat (length (bits self)) < start + width ->
  ubits self start width = Raise IndexError.
Proof.
  intros Hs Hw Hover. unfold ubits, BITS_PER_BYTE.
  set (a := start / 8). set (b := (start + width + 8 - 1) / 8).
  assert (Ha : 0 <= a) by (apply Z.div_pos; lia).
  assert (Hab : a < b) by (subst a b; Z.to_euclidean_division_equations; lia).
  assert (Hb : Z.of_nat (length (bits self)) < b)
    by (subst b; Z.to_euclidean_division_equations; lia).
  replace b with (a + Z.of_nat (S (Z.to_nat (b - a - 1)))) by lia.
  rewrite ubits_loop_overrun by lia. reflexivity.
Qed.

Lemma ubits_past_array_witness : ubits two_bytes 12 8 = Raise IndexError.
Proof. apply (ubits_past_array two_bytes 12 8); cbn; lia. Defined.

(** X3. Two adjacent windows read as one: the extraction of
    [w1 + w2] bits at [start] is the extraction of [w1] bits at [start]
    shifted left by [w2], plus the extraction of [w2] bits at
    [start + w1]. *)
Theorem ubits_adjacent (self : BitVector) (start w1 w2 : Z) :
  bytes_ok (bits self) -> 0 <= start -> 0 <= w1 -> 0 <= w2 ->
  start + w1 + w2 <= 8 * Z.of_nat (length (bits self)) ->
  exists u u1 u2,
    ubits self start (w1 + w2) = Ok u /\
    ubits self start w1 = Ok u1 /\
    ubits self (start + w1) w2 = Ok u2 /\
    u = u1 * 2 ^ w2 + u2.
Proof.
  intros Hbs Hs H1 H2 Hin.
  destruct (ubits_spec self start (w1 + w2) Hbs Hs ltac:(lia) ltac:(lia))
    as [u [Hu [Ru Bu]]].
  destruct (ubits_spec self start w1 Hbs Hs H1 ltac:(lia))
    as [u1 [Hu1 [Ru1 Bu1]]].
  destruct (ubits_spec self (start + w1) w2 Hbs ltac:(lia) H2 ltac:(lia))
    as [u2 [Hu2 [Ru2 Bu2]]].
  exists u, u1, u2. repeat split; auto.
  assert (Hp : 0 < 2 ^ w2) by (apply Z.pow_pos_nonneg; lia).
  assert (Hq : u / 2 ^ w2 = u1).
  { apply Z.bits_inj'. intros k Hk. rewrite Z.div_pow2_bits by lia.
    destruct (Z_lt_le_dec k w1) as [Hlt|Hge].
    - rewrite Bu, Bu1 by lia. f_equal. lia.
    - rewrite (small_testbit_ge u (w1 + w2)), (small_testbit_ge u1 w1) by lia.
      reflexivity. }
  assert (Hr : u mod 2 ^ w2 = u2).
  { apply Z.bits_inj'. intros k Hk.
    destruct (Z_lt_le_dec k w2) as [Hlt|Hge].
    - rewrite Z.mod_pow2_bits_low, Bu, Bu2 by lia. f_equal. lia.
    - rewrite Z.mod_pow2_bits_high, (small_testbit_ge u2 w2) by lia.
      reflexivity. }
  rewrite (Z.div_mod u (2 ^ w2)) at 1 by lia. rewrite Hq, Hr. lia.
Qed.

Lemma ubits_adjacent_witness :
  exists u u1 u2,
    ubits two_bytes 2 (6 + 4) = Ok u /\
    ubits two_bytes 2 6 = Ok u1 /\
    ubits two_bytes (2 + 6) 4 = Ok u2 /\
    u = u1 * 2 ^ 4 + u2.
Proof.
  apply (ubits_adjacent two_bytes 2 6 4).
  - repeat constructor; lia.
  - lia.
  - lia.
  - lia.
  - cbn. lia.
Defined.

Lemma sbits_of_ubits (self : BitVector) (start width u : Z) :
  0 < width -> ubits self start width = Ok u ->
  sbits self start width =
  Ok (if Z.testbit u (width - 1) then u - 2 ^ width else u).
Proof.
  intros Hw Hu. unfold sbits, py_shiftl. rewrite Hu.
  cbn [mbind result_bind bind].
  destruct (width - 1 <? 0) eqn:E; [apply Z.ltb_lt in E; lia|].
  cbn [mbind result_bind bind]. rewrite land_pow2_eqb by lia.
  destruct (Z.testbit u (width - 1)); cbn; f_equal; lia.
Qed.

Lemma top_bit_threshold (u w : Z) :
  0 < w -> 0 <= u < 2 ^ w ->
  Z.testbit u (w - 1) = (2 ^ (w - 1) <=? u).
Proof.
  intros Hw Hu.
  assert (Hpow : 2 ^ w = 2 * 2 ^ (w - 1))
    by (rewrite <- Z.pow_succ_r by lia; f_equal; lia).
  assert (Hp : 0 < 2 ^ (w - 1)) by (apply Z.pow_pos_nonneg; lia).
  destruct (Z.leb_spec (2 ^ (w - 1)) u) as [Hge|Hlt].
  - apply Z.testbit_true; [lia|].
    assert (Hd : u / 2 ^ (w - 1) = 1)
      by (symmetry; apply (Z.div_unique _ _ _ (u - 2 ^ (w - 1))); lia).
    rewrite Hd. reflexivity.
  - apply small_testbit; lia.
Qed.

(** X4. The signed extraction of a window of positive width inside
    the array lies in [[-2 ^ (width-1), 2 ^ (width-1))] and is
    congruent to the unsigned extraction modulo [2 ^ width]. *)
Theorem sbits_range (self : BitVector) (start width : Z) :
  bytes_ok (bits self) -> 0 <= start -> 0 < width ->
  start + width <= 8 * Z.of_nat (length (bits self)) ->
  exists s u,
    sbits self start width = Ok s /\ ubits self start width = Ok u /\
    - 2 ^ (width - 1) <= s < 2 ^ (width - 1) /\
    s mod 2 ^ width = u.
Proof.
  intros Hbs Hs Hw Hin.
  destruct (ubits_spec self start width Hbs Hs ltac:(lia) Hin)
    as [u [Hu [Ru _]]].
  assert (Hpow : 2 ^ width = 2 * 2 ^ (width - 1))
    by (rewrite <- Z.pow_succ_r by lia; f_equal; lia).
  eexists. exists u. split; [apply sbits_of_ubits; eauto|].
  split; [exact Hu|].
  rewrite top_bit_threshold by lia.
  destruct (Z.leb_spec (2 ^ (width - 1)) u) as [Hge|Hlt].
  - split; [lia|]. symmetry. apply (Z.mod_unique _ _ (-1)); lia.
  - split; [lia|]. apply Z.mod_small. lia.
Qed.

Lemma sbits_range_witness :
  exists s u,
    sbits two_bytes 4 8 = Ok s /\ ubits two_bytes 4 8 = Ok u /\
    - 2 ^ (8 - 1) <= s < 2 ^ (8 - 1) /\ s mod 2 ^ 8 = u.
Proof.
  apply (sbits_range two_bytes 4 8).
  - repeat constructor; lia.
  - lia.
  - lia.
  - cbn. lia.
Defined.

(** The fresh buffer filled from armoured text, bit by bit. *)
Lemma from_sixbit_fresh (data : string) :
  exists bv,
    from_sixbit BitVector_new data = Ok bv /\
    bytes_ok (bits bv) /\ length (bits bv) = String.length data /\
    bitlen bv = 6 * Z.of_nat (String.length data) /\
    forall (k : nat) (c : ascii) (t : Z),
      String.get k data = Some c -> 0 <= t < 6 ->
      getbit bv (6 * Z.of_nat k + t) = Z.testbit (armor c) (5 - t).
Proof.
  unfold from_sixbit, BitVector_new. cbn [bits bitlen app].
  destruct (sixbit_chars_spec data
              (mkBitVector (repeat 0 (String.length data)) 0))
    as [bv [Hrun [Hl [Hok [Hlen [_ [_ Hnew]]]]]]]; cbn [bits bitlen].
  - apply List.Forall_forall. intros x Hx. apply repeat_spec in Hx. lia.
  - lia.
  - rewrite repeat_length. lia.
  - intros q _. unfold getbit. cbn [bits].
    destruct (nth_in_or_default (Z.to_nat (q / 8))
                (repeat 0 (String.length data)) 0) as [Hin| ->].
    + apply repeat_spec in Hin. rewrite Hin. apply Z.testbit_0_l.
    + apply Z.testbit_0_l.
  - cbn [bits bitlen] in *. rewrite repeat_length in Hl.
    exists bv. split; [exact Hrun|]. split; [exact Hok|].
    split; [exact Hl|]. split; [lia|].
    intros k c t Hget Ht. rewrite <- (Hnew k c t Hget Ht). f_equal.
Qed.

Lemma string_get_length (s : string) : forall (k : nat) (c : ascii),
  String.get k s = Some c -> (k < String.length s)%nat.
Proof.
  induction s as [|a s IH]; intros k c Hk; [destruct k; discriminate|].
  destruct k as [|k]; cbn in *; [lia|]. specialize (IH _ _ Hk). lia.
Qed.

(** The six bits of each character of an armoured text, read back
    from the buffer built from it. *)
Lemma from_sixbit_read (data : string) :
  exists bv,
    from_sixbit BitVector_new data = Ok bv /\
    bytes_ok (bits bv) /\ length (bits bv) = String.length data /\
    bitlen bv = 6 * Z.of_nat (String.length data) /\
    forall (k : nat) (c : ascii),
      String.get k data = Some c ->
      ubits bv (6 * Z.of_nat k) 6 = Ok (armor c mod 64).
Proof.
  destruct (from_sixbit_fresh data) as [bv [Hrun [Hok [Hl [Hlen Hbits]]]]].
  exists bv. repeat (split; [assumption|]).
  intros k c Hget.
  pose proof (string_get_length _ _ _ Hget) as Hk.
  destruct (ubits_spec bv (6 * Z.of_nat k) 6 Hok ltac:(lia) ltac:(lia)
              ltac:(lia)) as [u [Hu [Ru Bu]]].
  rewrite Hu. f_equal. apply Z.bits_inj'. intros j Hj.
  change 64 with (2 ^ 6).
  destruct (Z_lt_le_dec j 6) as [Hlt|Hge].
  - rewrite Z.mod_pow2_bits_low, Bu by lia.
    replace (6 * Z.of_nat k + 6 - 1 - j) with (6 * Z.of_nat k + (5 - j))
      by lia.
    rewrite (Hbits k c (5 - j) Hget) by lia. f_equal. lia.
  - rewrite Z.mod_pow2_bits_high, (small_testbit_ge u 6) by lia.
    reflexivity.
Qed.

(** X5. Armouring and extraction agree: in the buffer built from a
    text, the six bits at offset [6 * k] read as the six low bits of
    the armour code of character [k], which is the code itself for a
    character of the armour range [48, 119]. *)
Theorem sixbit_read_back (data : string) (k : nat) (c : ascii) :
  String.get k data = Some c ->
  exists bv,
    from_sixbit BitVector_new data = Ok bv /\
    ubits bv (6 * Z.of_nat k) 6 = Ok (armor c mod 64) /\
    (48 <= Z.of_nat (nat_of_ascii c) <= 119 -> armor c mod 64 = armor c).
Proof.
  intros Hget.
  destruct (from_sixbit_read data) as [bv [Hrun [_ [_ [_ Hread]]]]].
  exists bv. split; [exact Hrun|]. split; [now apply Hread|].
  intros Hc. apply Z.mod_small. apply armor_range, Hc.
Qed.

Lemma sixbit_read_back_witness :
  exists bv,
    from_sixbit BitVector_new sample_payload = Ok bv /\
    ubits bv (6 * Z.of_nat 2) 6 = Ok (armor "M" mod 64) /\
    (48 <= Z.of_nat (nat_of_ascii "M") <= 119 -> armor "M" mod 64 = armor "M").
Proof.
  apply (sixbit_read_back sample_payload 2 "M"). reflexivity.
Defined.

(** ** What the unpacker returns *)

Lemma record_all_app values recs1 recs2 :
  record_all values (recs1 ++ recs2) =
  record_all (record_all values recs1) recs2.
Proof. unfold record_all. apply fold_left_app. Qed.

Lemma schema_fields_sub fieldname subtypes compute s f :
  In (Some s) subtypes -> In f (schema_fields s) ->
  In f (inst_fields (Dispatch fieldname subtypes compute)).
Proof.
  intros Hs Hf. cbn [inst_fields]. apply in_concat.
  exists (schema_fields s). split; [|exact Hf].
  apply (in_map (fun o => match o with
                          | None => []
                          | Some s => concat (map inst_fields s)
                          end) _ _ Hs).
Qed.

Lemma schema_fields_cons i rest f :
  In f (schema_fields (i :: rest)) <->
  In f (inst_fields i) \/ In f (schema_fields rest).
Proof. unfold schema_fields. cbn [map concat]. apply in_app_iff. Qed.

(** A run of the loop that ends normally has appended records, each
    made from a field of the schema, and has stored exactly those
    records in the dictionary. *)
Lemma loop_records data (m : nat) : forall instructions,
  (schema_size instructions < m)%nat ->
  forall fr values fr' values',
    unpack_loop data instructions fr values = Ok (fr', values') ->
    exists recs,
      cooked fr' = (cooked fr ++ recs)%list /\
      values' = record_all values recs /\
      Forall (fun c => exists f, In f (schema_fields instructions) /\
                                 cooked_from data f c) recs.
Proof.
  unfold unpack_loop.
  induction m as [|m IHm]; intros instructions Hsize; [lia|].
  induction instructions as [|i rest IH]; intros fr values fr' values' Hrun.
  - cbn in Hrun. injection Hrun as <- <-. exists [].
    split; [now rewrite app_nil_r|]. split; [reflexivity|constructor].
  - rewrite for_loop_cons in Hrun.
    destruct (bitlen data <=? offset fr) eqn:E.
    { injection Hrun as <- <-. exists [].
      split; [now rewrite app_nil_r|]. split; [reflexivity|constructor]. }
    change (schema_size (i :: rest))
      with (inst_size i + schema_size rest)%nat in Hsize.
    pose proof (inst_size_pos i) as Hpos.
    destruct (unpack_inst data i fr values) as [[fr1 values1]|e] eqn:Hstep;
      [|discriminate Hrun].
    cbn [mbind result_bind bind] in Hrun.
    destruct (IH ltac:(lia) _ _ _ _ Hrun) as [recs2 [Hc2 [Hv2 Hall2]]].
    assert (Hstep' : exists recs1,
              cooked fr1 = (cooked fr ++ recs1)%list /\
              values1 = record_all values recs1 /\
              Forall (fun c => exists f, In f (inst_fields i) /\
                                         cooked_from data f c) recs1).
    { destruct i as [w|fieldname subtypes compute|f].
      - cbn in Hstep. injection Hstep as <- <-. exists [].
        split; [cbn; now rewrite app_nil_r|]. split; [reflexivity|constructor].
      - rewrite unpack_inst_dispatch in Hstep.
        destruct (select values fieldname subtypes compute) as [[s|]|e] eqn:Hsel;
          cbn in Hstep; try discriminate Hstep.
        destruct (unpack_loop data s _ values) as [[frs valuess]|e] eqn:Hsub;
          cbn in Hstep; [|discriminate Hstep].
        injection Hstep as <- <-.
        pose proof (select_In _ _ _ _ _ Hsel) as Hin.
        pose proof (schema_size_sub fieldname subtypes compute s Hin) as Hlt.
        destruct (IHm s ltac:(lia) _ _ _ _ Hsub) as [recs [Hc [Hv Hall]]].
        cbn [cooked app] in Hc. exists recs. cbn [cooked].
        split; [now rewrite Hc|]. split; [exact Hv|].
        eapply List.Forall_impl; [|exact Hall].
        intros c [f [Hf Hcf]]. exists f. split; [|exact Hcf].
        eapply schema_fields_sub; eauto.
      - cbn [unpack_inst] in Hstep.
        destruct (field_value data (offset fr) f (value_ fr)) as [[x|]|e]
          eqn:Hval; cbn in Hstep; try discriminate Hstep.
        destruct (rejected f x) eqn:Hrej; [discriminate Hstep|].
        injection Hstep as <- <-. eexists. cbn [cooked].
        split; [reflexivity|]. split; [reflexivity|].
        constructor; [|constructor].
        exists f. split; [now left|]. split; [reflexivity|].
        split; [exact Hrej|]. now exists (offset fr), (value_ fr). }
    destruct Hstep' as [recs1 [Hc1 [Hv1 Hall1]]].
    exists (recs1 ++ recs2)%list.
    split; [rewrite Hc2, Hc1, app_assoc; reflexivity|].
    split; [rewrite record_all_app, <- Hv1; exact Hv2|].
    apply Forall_app. split.
    + eapply List.Forall_impl; [|exact Hall1].
      intros c [f [Hf Hcf]]. exists f. split; [|exact Hcf].
      apply schema_fields_cons. now left.
    + eapply List.Forall_impl; [|exact Hall2].
      intros c [f [Hf Hcf]]. exists f. split; [|exact Hcf].
      apply schema_fields_cons. now right.
Qed.

(** X6. When [aivdm_unpack] returns, on any schema, the dictionary is
    the one it was given with the returned records stored in it in
    order, each under its name: the call writes nothing else to it and
    removes nothing. *)
Theorem unpack_values_follow_records data off values instructions recs values' :
  aivdm_unpack data off values instructions = Ok (recs, values') ->
  values' = record_all values recs.
Proof.
  unfold aivdm_unpack. intros Hrun.
  destruct (unpack_loop data instructions (mk_frame off None []) values)
    as [[fr1 values1]|e] eqn:Hloop; [|discriminate Hrun].
  cbn in Hrun. injection Hrun as <- <-.
  destruct (loop_records data (S (schema_size instructions)) instructions
              ltac:(lia) _ _ _ _ Hloop) as [recs [Hc [Hv _]]].
  cbn in Hc. now rewrite Hc.
Qed.

Lemma unpack_values_follow_records_witness :
  sample_values3 =
  record_all ∅
    [mk_cooked "msgtype" (VInt 1) "unsigned" "Message Type" None false;
     mk_cooked "repeat" (VInt 0) "unsigned" "Repeat Indicator" None false;
     mk_cooked "mmsi" (VInt 366053209) "unsigned" "MMSI" None false].
Proof.
  apply (unpack_values_follow_records sample_bits 0 ∅ (firstn 3 aivdm_decode)).
  vm_compute. reflexivity.
Defined.

(** X7. Every record [aivdm_unpack] returns, on any schema, is the list
    built for one of the fields of the schema (its subtypes included):
    it has that field's name, type, legend and formatter, and a value
    that the type chain of the field produced at some cursor and the
    field's validator has not rejected. *)
Theorem unpack_records_from_schema data off values instructions recs values' c :
  aivdm_unpack data off values instructions = Ok (recs, values') ->
  In c recs ->
  exists f, In f (schema_fields instructions) /\ cooked_from data f c.
Proof.
  unfold aivdm_unpack. intros Hrun Hin.
  destruct (unpack_loop data instructions (mk_frame off None []) values)
    as [[fr1 values1]|e] eqn:Hloop; [|discriminate Hrun].
  cbn in Hrun. injection Hrun as <- <-.
  destruct (loop_records data (S (schema_size instructions)) instructions
              ltac:(lia) _ _ _ _ Hloop) as [recs [Hc [_ Hall]]].
  cbn in Hc. rewrite Hc in Hin.
  rewrite List.Forall_forall in Hall. apply Hall, Hin.
Qed.

Lemma unpack_records_from_schema_witness :
  exists f, In f (schema_fields (firstn 3 aivdm_decode)) /\
            cooked_from sample_bits f
              (mk_cooked "repeat" (VInt 0) "unsigned" "Repeat Indicator"
                         None false).
Proof.
  apply (unpack_records_from_schema sample_bits 0 ∅ (firstn 3 aivdm_decode)
           (cooked sample_fr3) sample_values3).
  - vm_compute. reflexivity.
  - cbn. right. left. reflexivity.
Defined.

Lemma filter_all {A} (P : A -> bool) (l : list A) :
  (forall x, In x l -> P x = true) -> List.filter P l = l.
Proof.
  induction l as [|x l IH]; intros H; [reflexivity|].
  cbn [List.filter]. rewrite (H x) by now left.
  f_equal. apply IH. intros y Hy. apply H. now right.
Qed.

Lemma total_width_nonneg instructions :
  forallb flat instructions = true -> 0 <= total_width instructions.
Proof.
  induction instructions as [|i rest IH]; intros Hf; cbn; [lia|].
  cbn [forallb] in Hf. apply andb_prop in Hf as [Hi Hr].
  specialize (IH Hr).
  destruct i as [w| |f]; cbn [flat] in Hi;
    [apply Z.leb_le in Hi; lia | discriminate |].
  apply andb_prop in Hi as [Hw _]. apply Z.ltb_lt in Hw. lia.
Qed.

Lemma layout_within instructions : forall off p,
  forallb flat instructions = true ->
  In p (layout off instructions) ->
  off <= fst p /\ fst p < fst p + width (snd p) /\
  fst p + width (snd p) <= off + total_width instructions.
Proof.
  induction instructions as [|i rest IH]; intros off p Hflat Hin;
    [destruct Hin|].
  cbn [forallb] in Hflat. apply andb_prop in Hflat as [Hi Hrest].
  pose proof (total_width_nonneg rest) as Htot.
  specialize (Htot Hrest).
  destruct i as [w|fieldname subtypes compute|f];
    cbn [layout flat total_width] in *.
  - apply Z.leb_le in Hi. specialize (IH _ _ Hrest Hin). lia.
  - discriminate Hi.
  - apply andb_prop in Hi as [Hw _]. apply Z.ltb_lt in Hw.
    destruct Hin as [<-|Hin]; [cbn; lia|].
    specialize (IH _ _ Hrest Hin). lia.
Qed.

(** X8. On a schema of spares and fields (no dispatch, known types,
    positive widths) and a buffer whose bit length reaches the declared
    width of the schema, unpacking from offset 0 returns one record per
    field, in schema order, each read at its own offset, provided the
    validators accept. *)
Theorem unpack_complete data values instructions :
  wf data -> forallb flat instructions = true ->
  total_width instructions <= bitlen data ->
  (forall p v, In p (layout 0 instructions) ->
     field_value data (fst p) (snd p) None = Ok (Some v) ->
     rejected (snd p) v = false) ->
  exists recs values',
    aivdm_unpack data 0 values instructions = Ok (recs, values') /\
    Forall2 (decoded_at data) recs (layout 0 instructions).
Proof.
  intros Hwf Hflat Hlen Hacc.
  assert (Hin : forall p, In p (layout 0 instructions) ->
            started data p = true /\
            fst p + width (snd p) <= 8 * Z.of_nat (length (bits data))).
  { intros p Hp. destruct (layout_within _ _ _ Hflat Hp) as [H0 [H1 H2]].
    destruct Hwf as [_ Hb]. split; [apply Z.ltb_lt|]; lia. }
  destruct (unpack_flat data instructions 0 None [] values Hwf Hflat
              ltac:(lia)) as [fr [values' [recs [Hrun [Hc Hall]]]]].
  { intros p Hp _. apply Hin, Hp. }
  { intros p v Hp _. apply Hacc, Hp. }
  rewrite filter_all in Hall by (intros p Hp; apply Hin, Hp).
  exists recs, values'. split; [|exact Hall].
  unfold aivdm_unpack. rewrite Hrun. cbn. now rewrite Hc.
Qed.

Lemma unpack_complete_witness :
  exists recs values',
    aivdm_unpack two_bytes 0 ∅ [Field (byte_field "a"); Spare 2] =
      Ok (recs, values') /\
    Forall2 (decoded_at two_bytes) recs
      (layout 0 [Field (byte_field "a"); Spare 2]).
Proof.
  apply (unpack_complete two_bytes ∅ [Field (byte_field "a"); Spare 2]).
  - split; [repeat constructor; lia | cbn; lia].
  - reflexivity.
  - cbn. lia.
  - intros p v [<-|[]] _. reflexivity.
Defined.

(** ** Text fields *)

Lemma str_app_length (s t : string) :
  String.length (s ++ t) = (String.length s + String.length t)%nat.
Proof.
  induction s as [|c s IH]; [reflexivity|].
  change (String c s ++ t) with (String c (s ++ t)).
  cbn [String.length]. now rewrite IH.
Qed.

Lemma text_loop_length data o idx : forall s s',
  text_loop data o idx s = Ok s' ->
  String.length s' = (String.length s + length idx)%nat.
Proof.
  induction idx as [|i idx IH]; intros s s' Hrun; cbn [text_loop] in Hrun.
  - injection Hrun as <-. cbn. lia.
  - destruct (ubits data (o + 6 * i) 6) as [k|e]; [|discriminate Hrun].
    cbn [mbind result_bind bind] in Hrun.
    destruct (py_getitem _ k) as [c|e]; [|discriminate Hrun].
    cbn [mbind result_bind bind] in Hrun.
    rewrite (IH _ _ Hrun), str_app_length. cbn. lia.
Qed.

Lemma replace_at_length (s : string) :
  String.length (replace_at s) = String.length s.
Proof.
  induction s as [|c s IH]; [reflexivity|].
  cbn [replace_at String.length]. now rewrite IH.
Qed.

Lemma replace_at_none (s : string) (k : nat) :
  String.get k (replace_at s) <> Some "@"%char.
Proof.
  revert k. induction s as [|c s IH]; intros k; cbn [replace_at].
  - destruct k; discriminate.
  - destruct k as [|k]; cbn [String.get]; [|apply IH].
    destruct (Ascii.eqb_spec c "@"); [discriminate|congruence].
Qed.

Lemma rstrip_length (s : string) :
  (String.length (rstrip s) <= String.length s)%nat.
Proof.
  induction s as [|c s IH]; cbn [rstrip]; [reflexivity|].
  destruct (rstrip s) as [|d r]; cbn [String.length] in *.
  - destruct (is_space c); cbn; lia.
  - lia.
Qed.

(** What [rstrip] keeps is a prefix of the string. *)
Lemma rstrip_get (s : string) : forall (k : nat) (c : ascii),
  String.get k (rstrip s) = Some c -> String.get k s = Some c.
Proof.
  induction s as [|a s IH]; intros k c Hk; cbn [rstrip] in Hk;
    [destruct k; discriminate|].
  destruct (rstrip s) as [|d r] eqn:E.
  - destruct (is_space a); [destruct k; discriminate|].
    destruct k as [|k]; [exact Hk|]. cbn in Hk. destruct k; discriminate.
  - destruct k as [|k]; [exact Hk|]. cbn [String.get] in *. now apply IH.
Qed.

Lemma rstrip_last (s : string) (c : ascii) :
  last_char (rstrip s) = Some c -> is_space c = false.
Proof.
  induction s as [|a s IH]; cbn [rstrip]; [discriminate|].
  destruct (rstrip s) as [|d r] eqn:E.
  - destruct (is_space a) eqn:Ea; [discriminate|].
    cbn. intros [= <-]. exact Ea.
  - cbn [last_char]. exact IH.
Qed.

(** X9. The value of a ['string'] field is a text of at most
    [width / 6] characters that holds no ["@"] (each is turned into a
    blank) and does not end in whitespace. *)
Theorem text_field_trimmed data o f old v :
  type f = "string" ->
  field_value data o f old = Ok (Some v) ->
  exists s, v = VStr s /\
    Z.of_nat (String.length s) <= Z.max 0 (width f / 6) /\
    (forall k, String.get k s <> Some "@"%char) /\
    (forall c, last_char s = Some c -> is_space c = false).
Proof.
  intros Ht Hrun. unfold field_value in Hrun. rewrite Ht in Hrun.
  cbn [String.eqb Ascii.eqb Bool.eqb andb] in Hrun.
  destruct (text_loop data o _ "") as [s|e] eqn:Hloop; [|discriminate Hrun].
  cbn in Hrun. injection Hrun as <-.
  apply text_loop_length in Hloop. rewrite py_range_length in Hloop.
  cbn [String.length] in Hloop.
  eexists. split; [reflexivity|]. split.
  - pose proof (rstrip_length (replace_at s)) as Hle.
    rewrite replace_at_length in Hle. lia.
  - split.
    + intros k Hk. apply rstrip_get in Hk. now apply replace_at_none in Hk.
    + apply rstrip_last.
Qed.

Lemma text_field_trimmed_witness :
  exists s, VStr "C?" = VStr s /\
    Z.of_nat (String.length s) <= Z.max 0 (12 / 6) /\
    (forall k, String.get k s <> Some "@"%char) /\
    (forall c, last_char s = Some c -> is_space c = false).
Proof.
  apply (text_field_trimmed two_bytes 0
           (mk_bitfield "t" 12 "string" None "t" None None) None (VStr "C?")).
  - reflexivity.
  - vm_compute. reflexivity.
Defined.

(** ** Dispatch in the tables *)

Lemma type24_run data off values n :
  off + 2 < bitlen data -> ubits data off 2 = Ok n ->
  aivdm_unpack data off values type24 =
  (sub ← py_getitem [Some type24a; Some type24b] n;
   match sub with
   | None => Raise TypeError
   | Some s =>
       '(recs, values') ←
         aivdm_unpack data (off + 2) (<["partno" := VInt n]> values) s;
       Ok (cook partno_field (VInt n) :: recs, values')
   end).
Proof.
  intros Hoff Hn. unfold aivdm_unpack, unpack_loop, type24.
  rewrite for_loop_cons. cbn [offset].
  destruct (bitlen data <=? off) eqn:E; [apply Z.leb_le in E; lia|].
  cbn [unpack_inst field_value type width name value_ offset String.eqb
       Ascii.eqb Bool.eqb cooked].
  rewrite Hn. cbn [mbind result_bind bind rejected validator].
  rewrite for_loop_cons. cbn [offset].
  destruct (bitlen data <=? off + 2) eqn:E'; [apply Z.leb_le in E'; lia|].
  rewrite unpack_inst_dispatch. unfold select.
  rewrite lookup_insert_eq. cbn [mbind result_bind bind as_index].
  destruct (py_getitem [Some type24a; Some type24b] n) as [[s|]|e];
    cbn [mbind result_bind bind offset value_ cooked]; try reflexivity.
  unfold unpack_loop.
  destruct (for_loop data (unpack_inst data) s (mk_frame (off + 2) None [])
              (<["partno" := VInt n]> values)) as [[fr' values']|e];
    reflexivity.
Qed.

(** X10. Message 24 dispatches on its two-bit part number: part 0 is
    decoded by the [type24a] table and part 1 by [type24b], both from
    the bit after the part number; parts 2 and 3 have no table and the
    unpacking raises [IndexError]. *)
Theorem type24_part_number data off values n :
  off + 2 < bitlen data -> ubits data off 2 = Ok n ->
  (n = 0 ->
   aivdm_unpack data off values type24 =
   ('(recs, values') ←
      aivdm_unpack data (off + 2) (<["partno" := VInt 0]> values) type24a;
    Ok (cook partno_field (VInt 0) :: recs, values')))
  /\ (n = 1 ->
      aivdm_unpack data off values type24 =
      ('(recs, values') ←
         aivdm_unpack data (off + 2) (<["partno" := VInt 1]> values) type24b;
       Ok (cook partno_field (VInt 1) :: recs, values')))
  /\ (2 <= n -> aivdm_unpack data off values type24 = Raise IndexError).
Proof.
  intros Hoff Hn. rewrite (type24_run data off values n Hoff Hn).
  split; [intros ->; reflexivity|]. split; [intros ->; reflexivity|].
  intros Hge. rewrite py_getitem_high by (cbn; lia). reflexivity.
Qed.

Lemma type24_part_number_witness :
  aivdm_unpack two_bytes 6 ∅ type24 = Raise IndexError.
Proof.
  refine (proj2 (proj2 (type24_part_number two_bytes 6 ∅ 3 _ _)) _).
  - cbn. lia.
  - reflexivity.
  - lia.
Defined.

Lemma record_all_is_Some recs : forall (values : gmap string value) k,
  is_Some (values !! k) -> is_Some (record_all values recs !! k).
Proof.
  induction recs as [|c recs IH]; intros values k Hk; [exact Hk|].
  cbn [record_all fold_left]. apply IH.
  apply lookup_insert_is_Some. destruct (decide (c_name c = k)); auto.
Qed.

(** A completed instruction keeps every key of the dictionary, and a
    field adds its own name. *)
Lemma unpack_inst_keys data i fr values fr1 values1 bound :
  unpack_inst data i fr values = Ok (fr1, values1) ->
  (forall k, In k bound -> is_Some (values !! k)) ->
  forall k, In k (bound_after i bound) -> is_Some (values1 !! k).
Proof.
  intros Hstep Hb k Hk.
  destruct i as [w|fieldname subtypes compute|f]; cbn [bound_after] in Hk.
  - cbn in Hstep. injection Hstep as <- <-. auto.
  - rewrite unpack_inst_dispatch in Hstep.
    destruct (select values fieldname subtypes compute) as [[s|]|e];
      cbn in Hstep; try discriminate Hstep.
    destruct (unpack_loop data s _ values) as [[frs valuess]|e] eqn:Hsub;
      cbn in Hstep; [|discriminate Hstep].
    injection Hstep as <- <-.
    destruct (loop_records data (S (schema_size s)) s ltac:(lia) _ _ _ _ Hsub)
      as [recs [_ [-> _]]].
    apply record_all_is_Some. auto.
  - cbn [unpack_inst] in Hstep.
    destruct (field_value data (offset fr) f (value_ fr)) as [[x|]|e];
      cbn in Hstep; try discriminate Hstep.
    destruct (rejected f x); [discriminate Hstep|].
    injection Hstep as <- <-. apply lookup_insert_is_Some.
    destruct Hk as [<-|Hk]; [now left|].
    destruct (decide (name f = k)); [now left|right; auto].
Qed.

Lemma loop_keyed data (m : nat) : forall instructions,
  (schema_size instructions < m)%nat ->
  forall bound fr values,
    keyed bound instructions = true ->
    (forall k, In k bound -> is_Some (values !! k)) ->
    forall k, unpack_loop data instructions fr values <> Raise (KeyError k).
Proof.
  unfold unpack_loop, keyed.
  induction m as [|m IHm]; intros instructions Hsize; [lia|].
  induction instructions as [|i rest IH];
    intros bound fr values Hkeyed Hb k Hrun.
  - discriminate Hrun.
  - rewrite for_loop_cons in Hrun.
    destruct (bitlen data <=? offset fr); [discriminate Hrun|].
    change (schema_size (i :: rest))
      with (inst_size i + schema_size rest)%nat in Hsize.
    pose proof (inst_size_pos i) as Hpos.
    cbn [keyed_loop] in Hkeyed. apply andb_prop in Hkeyed as [Hi Hrest].
    destruct (unpack_inst data i fr values) as [[fr1 values1]|e] eqn:Hstep.
    + cbn [mbind result_bind bind] in Hrun.
      apply (IH ltac:(lia) (bound_after i bound) fr1 values1 Hrest
               (unpack_inst_keys _ _ _ _ _ _ _ Hstep Hb) k Hrun).
    + cbn in Hrun. injection Hrun as ->.
      destruct i as [w|fieldname subtypes compute|f].
      * discriminate Hstep.
      * rewrite unpack_inst_dispatch in Hstep.
        cbn [keyed_inst] in Hi. apply andb_prop in Hi as [Hname Hsubs].
        destruct (select values fieldname subtypes compute) as [[s|]|e] eqn:Hsel;
          cbn in Hstep; try discriminate Hstep.
        -- destruct (unpack_loop data s _ values) as [[fr' values']|e] eqn:Hsub;
             cbn in Hstep; [discriminate Hstep|]. injection Hstep as ->.
           pose proof (select_In _ _ _ _ _ Hsel) as Hin.
           pose proof (schema_size_sub fieldname subtypes compute s Hin) as Hlt.
           rewrite forallb_forall in Hsubs. specialize (Hsubs _ Hin).
           apply (IHm s ltac:(lia) bound _ values Hsubs Hb k Hsub).
        -- injection Hstep as ->. unfold select in Hsel.
           apply existsb_exists in Hname as [x [Hx Heq]].
           apply String.eqb_eq in Heq. subst x.
           destruct (Hb _ Hx) as [v Hv]. rewrite Hv in Hsel. cbn in Hsel.
           destruct (as_index (compute v)) as [j|e] eqn:Hidx.
           ++ cbn in Hsel. now apply py_getitem_low in Hsel.
           ++ cbn in Hsel. injection Hsel as ->.
              destruct (compute v); discriminate Hidx.
      * cbn [unpack_inst] in Hstep.
        destruct (field_value data (offset fr) f (value_ fr)) as [[x|]|e] eqn:Hval;
          cbn in Hstep; try discriminate Hstep.
        -- destruct (rejected f x); discriminate Hstep.
        -- injection Hstep as ->. now apply field_value_low in Hval.
Qed.

(** X11. A schema in which every dispatch node selects on the name of
    a field that precedes it (in its own schema or in one that
    dispatches to it) never raises [KeyError], whatever the buffer,
    the offset and the dictionary; the table [aivdm_decode] with all
    its subtypes is such a schema. *)
Theorem unpack_no_key_error :
  (forall data off values instructions k,
     keyed [] instructions = true ->
     aivdm_unpack data off values instructions <> Raise (KeyError k))
  /\ keyed [] aivdm_decode = true.
Proof.
  split; [|reflexivity].
  intros data off values instructions k Hkeyed. unfold aivdm_unpack.
  intros Hrun.
  destruct (unpack_loop data instructions (mk_frame off None []) values)
    as [[fr' values']|e] eqn:Hloop; [discriminate Hrun|].
  cbn in Hrun. injection Hrun as ->.
  apply (loop_keyed data (S (schema_size instructions)) instructions
           ltac:(lia) [] _ values Hkeyed ltac:(intros ? []) k Hloop).
Qed.

Lemma unpack_no_key_error_witness :
  keyed [] aivdm_decode = true /\
  aivdm_unpack sample_bits 0 ∅ aivdm_decode <> Raise (KeyError "msgtype").
Proof.
  split; [exact (proj2 unpack_no_key_error)|].
  apply (proj1 unpack_no_key_error sample_bits 0 ∅ aivdm_decode "msgtype").
  reflexivity.
Defined.

(** ** The driver *)

Lemma assemble_sentence payload expect number seg :
  1 <= number <= expect -> expect <= 9 -> no_comma seg = true ->
  assemble payload (sentence expect number seg) =
  Ok (if number =? 1 then seg else payload ++ seg, number =? expect).
Proof.
  intros Hn He Hseg. unfold assemble, sentence.
  assert (Hfields : forallb no_comma
            ["!AIVDM"; py_str_int expect; py_str_int number; ""; "A"; seg; "0*00"]
          = true).
  { destruct (digit_cases expect ltac:(lia)) as [->|[->|[->|[->|[->|[->|[->|[->| ->]]]]]]]];
    destruct (digit_cases number ltac:(lia)) as [->|[->|[->|[->|[->|[->|[->|[->| ->]]]]]]]];
    cbn; rewrite Hseg; reflexivity. }
  rewrite split_concat by (auto; discriminate).
  destruct (digit_cases expect ltac:(lia)) as [->|[->|[->|[->|[->|[->|[->|[->| ->]]]]]]]];
    destruct (digit_cases number ltac:(lia)) as [->|[->|[->|[->|[->|[->|[->|[->| ->]]]]]]]];
    try lia; reflexivity.
Qed.

Lemma sentence_head expect number seg :
  exists rest, sentence expect number seg = String "!" rest.
Proof. unfold sentence. cbn. eexists. reflexivity. Qed.

Lemma assembled_sentence expect number seg source payload :
  assembled (sentence expect number seg :: source) payload =
  (st ← assemble payload (sentence expect number seg);
   rest ← assembled source (fst st);
   Ok (if (snd st : bool) then fst st :: rest else rest)).
Proof.
  destruct (sentence_head expect number seg) as [r Hr].
  cbn [assembled]. rewrite Hr. reflexivity.
Qed.

Lemma str_app_assoc (a b c : string) : (a ++ b) ++ c = a ++ (b ++ c).
Proof.
  induction a as [|x a IH]; [reflexivity|].
  change ((String x a ++ b) ++ c) with (String x ((a ++ b) ++ c)).
  now rewrite IH.
Qed.

Lemma assembled_tail (n : Z) (segs : list string) : forall k payload,
  2 <= k -> k + Z.of_nat (length segs) - 1 = n -> n <= 9 ->
  forallb no_comma segs = true -> segs <> [] ->
  assembled (number_from n k segs) payload =
  Ok [payload ++ String.concat "" segs].
Proof.
  induction segs as [|seg rest IH]; intros k payload Hk Hn H9 Hsegs Hne;
    [congruence|].
  cbn [forallb] in Hsegs. apply andb_prop in Hsegs as [Hseg Hrest].
  cbn [number_from length] in *.
  rewrite assembled_sentence, assemble_sentence by (auto; lia).
  replace (k =? 1) with false by (symmetry; apply Z.eqb_neq; lia).
  cbn [mbind result_bind bind fst snd].
  destruct rest as [|seg' rest'].
  - cbn [number_from assembled]. cbn [length] in Hn.
    replace (k =? n) with true by (symmetry; apply Z.eqb_eq; lia).
    cbn. reflexivity.
  - rewrite (IH (k + 1) (payload ++ seg)) by (auto; try discriminate; lia).
    cbn [mbind result_bind bind]. cbn [length] in Hn.
    replace (k =? n) with false by (symmetry; apply Z.eqb_neq; lia).
    rewrite str_app_assoc. reflexivity.
Qed.

(** X12. A message sent as [n] fragments ([1 <= n <= 9]), numbered 1
    to [n] in order, reaches the decoder once, as the segments joined
    in order, whatever an earlier message left in the accumulator. *)
Theorem fragments_reassembled (segs : list string) (payload : string) :
  segs <> [] -> (length segs <= 9)%nat -> forallb no_comma segs = true ->
  assembled (fragments segs) payload = Ok [String.concat "" segs].
Proof.
  intros Hne Hlen Hsegs. unfold fragments.
  destruct segs as [|seg rest]; [congruence|].
  cbn [forallb] in Hsegs. apply andb_prop in Hsegs as [Hseg Hrest].
  cbn [number_from].
  rewrite assembled_sentence, assemble_sentence
    by (auto; cbn [length] in *; lia).
  rewrite Z.eqb_refl. cbn [mbind result_bind bind fst snd].
  destruct rest as [|seg' rest'].
  - cbn. reflexivity.
  - rewrite (assembled_tail (Z.of_nat (length (seg :: seg' :: rest')))
               (seg' :: rest') (1 + 1) seg)
      by (auto; try discriminate; cbn [length] in *; lia).
    cbn [mbind result_bind bind].
    replace (1 =? Z.of_nat (length (seg :: seg' :: rest'))) with false
      by (symmetry; apply Z.eqb_neq; cbn [length]; lia).
    reflexivity.
Qed.

Lemma fragments_reassembled_witness :
  assembled (fragments ["15M67FC000"; "G?ufbE`Fep"; "T@3n00Sa"]) "stale" =
  Ok [String.concat "" ["15M67FC000"; "G?ufbE`Fep"; "T@3n00Sa"]].
Proof.
  apply (fragments_reassembled ["15M67FC000"; "G?ufbE`Fep"; "T@3n00Sa"]
           "stale").
  - discriminate.
  - cbn. lia.
  - reflexivity.
Defined.

(** X13. A comment line changes nothing: the generator yields the same
    records, and ends the same way, with the line or without it,
    wherever it stands and whatever the accumulator holds. *)
Theorem comment_line_ignored (before after : list string)
  (comment payload : string) :
  String.prefix "#" comment = true ->
  parse_ais_messages (before ++ comment :: after) payload =
  parse_ais_messages (before ++ after) payload.
Proof.
  intros Hc. revert payload.
  induction before as [|line before IH]; intros payload.
  - cbn [app parse_ais_messages]. rewrite Hc.
    destruct comment as [|c comment]; [discriminate Hc|]. reflexivity.
  - cbn [app parse_ais_messages].
    destruct (String.eqb line ""); [reflexivity|].
    destruct (String.prefix "#" line); [apply IH|].
    destruct (assemble payload line) as [[payload' complete]|e];
      [|reflexivity].
    destruct (negb complete); [apply IH|].
    destruct (decode_payload payload') as [[cooked|e]|]; try reflexivity.
    now rewrite IH.
Qed.

Lemma comment_line_ignored_witness :
  parse_ais_messages
    ([sentence 2 1 "15M67FC000G?uf"] ++
     "# a comment" :: [sentence 2 2 "bE`FepT@3n00Sa"]) "" =
  parse_ais_messages
    ([sentence 2 1 "15M67FC000G?uf"] ++ [sentence 2 2 "bE`FepT@3n00Sa"]) "".
Proof.
  apply (comment_line_ignored [sentence 2 1 "15M67FC000G?uf"]
           [sentence 2 2 "bE`FepT@3n00Sa"] "# a comment" "").
  reflexivity.
Defined.

Lemma py_getitem_raises {A} (l : list A) i e :
  py_getitem l i = Raise e -> e = IndexError.
Proof.
  unfold py_getitem. destruct (_ || _); [now intros [= <-]|].
  destruct (nth_error l _); [discriminate|now intros [= <-]].
Qed.

(** X14. A line that is neither empty nor a comment and has fewer than
    six comma-separated fields ends the generator with [IndexError]:
    nothing is yielded for it and the lines after it are not read. *)
Theorem short_line_index_error (line : string) (source : list string)
  (payload : string) :
  line <> "" -> String.prefix "#" line = false ->
  (length (split "," line) <= 5)%nat ->
  parse_ais_messages (line :: source) payload = Some ([], Some IndexError).
Proof.
  intros Hne Hc Hlen. cbn [parse_ais_messages].
  destruct (String.eqb_spec line ""); [congruence|]. rewrite Hc.
  unfold assemble.
  destruct (py_getitem (split "," line) 1) as [expect|e] eqn:E1;
    [|apply py_getitem_raises in E1; subst e; reflexivity].
  cbn [mbind result_bind bind].
  destruct (py_getitem (split "," line) 2) as [fragment|e] eqn:E2;
    [|apply py_getitem_raises in E2; subst e; reflexivity].
  cbn [mbind result_bind bind].
  rewrite py_getitem_high by lia. reflexivity.
Qed.

Lemma short_line_index_error_witness :
  parse_ais_messages ("!AIVDM,1,1,,A" :: [sentence 1 1 sample_payload]) "" =
  Some ([], Some IndexError).
Proof.
  apply (short_line_index_error "!AIVDM,1,1,,A"
           [sentence 1 1 sample_payload] "").
  - discriminate.
  - reflexivity.
  - cbn. lia.
Defined.

(** ** Extensions *)

Lemma py_getitem_nat {A} (l : list A) (i : nat) (a : A) :
  py_getitem l (Z.of_nat i) = Ok a <-> nth_error l i = Some a.
Proof.
  unfold py_getitem.
  destruct (Z.of_nat i <? 0) eqn:E; [apply Z.ltb_lt in E; lia|].
  rewrite E, Nat2Z.id. cbn [orb].
  destruct (Z.of_nat (length l) <=? Z.of_nat i) eqn:E'.
  - apply Z.leb_le in E'. split; [discriminate|].
    intros H. assert (i < length l)%nat by (apply nth_error_Some; congruence).
    lia.
  - destruct (nth_error l i); split; congruence.
Qed.

(** The inner loop, when it ends normally: nothing matched and nothing
    changed, or the list is shorter. *)
Lemma merge_inner_ok (i : Z) (js : list Z) : forall cooked retry r,
  (forall j, In j js -> 0 <= j) ->
  merge_inner i js cooked retry = Ok r ->
  (r = (cooked, retry) /\
   forall j ci cj, In j js ->
     py_getitem cooked i = Ok ci -> py_getitem cooked j = Ok cj ->
     c_type cj = "string" -> c_name ci <> c_name cj)
  \/ (length (fst r) < length cooked)%nat.
Proof.
  induction js as [|j js IH]; intros cooked retry r Hpos Hrun.
  - cbn in Hrun. injection Hrun as <-. left. split; [reflexivity|].
    intros j ci cj [].
  - pose proof Hrun as Hrun0. cbn [merge_inner] in Hrun.
    assert (Hpos' : forall k, In k js -> 0 <= k)
      by (intros k Hk; apply Hpos; now right).
    destruct (py_getitem cooked j) as [cj0|e] eqn:Ej; [|discriminate Hrun].
    cbn [mbind result_bind bind] in Hrun.
    destruct (String.eqb_spec (c_type cj0) "string") as [Ht|Ht].
    + destruct (py_getitem cooked i) as [ci0|e] eqn:Ei; [|discriminate Hrun].
      cbn [mbind result_bind bind] in Hrun.
      destruct (String.eqb_spec (c_name ci0) (c_name cj0)) as [Hn|Hn].
      * right.
        destruct (merge_inner_shrinks i (j :: js) cooked retry r Hpos Hrun0)
          as [-> | Hshort]; [|exact Hshort].
        exfalso. clear IH Hrun0.
        destruct (py_add (c_value ci0) (c_value cj0)) as [v|e];
          [|discriminate Hrun].
        cbn [mbind result_bind bind] in Hrun.
        destruct (c_tuple ci0); [discriminate Hrun|].
        destruct (py_setitem cooked i (set_value ci0 v)) as [cooked1|e] eqn:Es;
          [|discriminate Hrun].
        cbn [mbind result_bind bind] in Hrun.
        apply py_setitem_length in Es.
        assert (Hj0 : 0 <= j) by (apply Hpos; now left).
        pose proof (py_getitem_range _ _ _ Hj0 Ej) as Hlt.
        pose proof (slice_out_length cooked1 j ltac:(lia)) as Hlen.
        apply merge_inner_shrinks in Hrun; [|exact Hpos'].
        destruct Hrun as [[= Hc _]|Hshort]; cbn [fst] in *.
        -- rewrite <- Hc in Hlen. lia.
        -- lia.
      * destruct (IH _ _ _ Hpos' Hrun) as [[-> Hno]|Hshort]; [left|now right].
        split; [reflexivity|].
        intros j' ci cj [<-|Hj'] Hci Hcj Hs;
          [|eapply Hno; eauto; congruence].
        try rewrite Ei in Hci. try rewrite Ej in Hcj.
        injection Hci as <-. injection Hcj as <-. exact Hn.
    + destruct (IH _ _ _ Hpos' Hrun) as [[-> Hno]|Hshort]; [left|now right].
      split; [reflexivity|].
      intros j' ci cj [<-|Hj'] Hci Hcj Hs;
          [|eapply Hno; eauto; congruence].
      try rewrite Ej in Hcj. injection Hcj as <-. contradiction.
Qed.

(** The outer loop, when it ends normally, has met no extension. *)
Lemma merge_outer_ok (idx : list Z) : forall cooked retry r,
  (forall k, In k idx -> 0 <= k) ->
  idx = [] \/ List.last idx 0 = Z.of_nat (length cooked) - 1 ->
  merge_outer idx cooked retry = Ok r ->
  forall i j ci cj, In i idx -> i < j < Z.of_nat (length cooked) ->
    py_getitem cooked i = Ok ci -> py_getitem cooked j = Ok cj ->
    c_type ci = "string" -> c_type cj = "string" ->
    c_name ci <> c_name cj.
Proof.
  induction idx as [|i0 idx IH]; intros cooked retry r Hpos Hlast Hrun;
    [intros i j ci cj []|].
  cbn [merge_outer] in Hrun.
  destruct Hlast as [Hnil|Hlast]; [discriminate Hnil|].
  assert (Hi0 : 0 <= i0) by (apply Hpos; now left).
  assert (Hpos' : forall k, In k idx -> 0 <= k)
    by (intros k Hk; apply Hpos; now right).
  assert (Hlast' : idx = [] \/ List.last idx 0 = Z.of_nat (length cooked) - 1).
  { destruct idx as [|k idx]; [now left|right; exact Hlast]. }
  destruct (py_getitem cooked i0) as [ci0|e] eqn:Ei; [|discriminate Hrun].
  cbn [mbind result_bind bind] in Hrun.
  destruct (String.eqb_spec (c_type ci0) "string") as [Ht|Ht].
  - destruct (merge_inner i0 _ cooked retry) as [[cooked' retry']|e] eqn:Hin;
      [|discriminate Hrun].
    cbn [mbind result_bind bind] in Hrun.
    pose proof Hin as Hin'. apply merge_inner_ok in Hin'.
    2:{ intros j Hj. apply py_range_In in Hj. lia. }
    destruct Hin' as [[[= -> ->] Hno]|Hshort].
    + intros i j ci cj [<-|Hi] Hij Hci Hcj Hsi Hsj.
      * apply (Hno j ci cj); auto.
        unfold py_range. apply in_map_iff.
        exists (Z.to_nat (j - (i0 + 1))). split; [lia|].
        apply in_seq. lia.
      * eapply (IH cooked retry r Hpos' Hlast' Hrun i j); eauto.
    + cbn [fst] in Hshort. exfalso.
      destruct idx as [|k idx].
      * cbn in Hlast. rewrite py_range_nil in Hin by lia.
        cbn in Hin. injection Hin as <- <-. lia.
      * destruct (merge_outer_shrunk (k :: idx) cooked' retry' Hpos'
                    ltac:(discriminate)) as [e He].
        -- change (List.last (i0 :: k :: idx) 0)
             with (List.last (k :: idx) 0) in Hlast.
           lia.
        -- rewrite He in Hrun. discriminate Hrun.
  - intros i j ci cj [<-|Hi] Hij Hci Hcj Hsi Hsj.
    + rewrite Ei in Hci. injection Hci as <-. contradiction.
    + eapply (IH cooked retry r Hpos' Hlast' Hrun i j); eauto.
Qed.

Lemma merge_inner_none (i : Z) (cooked : list cooked_field) (js : list Z) :
  forall retry,
  0 <= i < Z.of_nat (length cooked) ->
  (forall j, In j js -> 0 <= j < Z.of_nat (length cooked)) ->
  (forall j ci cj, In j js ->
     py_getitem cooked i = Ok ci -> py_getitem cooked j = Ok cj ->
     c_type cj = "string" -> c_name ci <> c_name cj) ->
  merge_inner i js cooked retry = Ok (cooked, retry).
Proof.
  induction js as [|j js IH]; intros retry Hi Hjs Hno; [reflexivity|].
  cbn [merge_inner].
  destruct (py_getitem cooked j) as [cj|e] eqn:Ej.
  2:{ rewrite (py_getitem_Ok cooked j (mk_cooked "" (VInt 0) "" "" None false))
        in Ej by (apply Hjs; now left). discriminate Ej. }
  cbn [mbind result_bind bind].
  assert (Hrest : merge_inner i js cooked retry = Ok (cooked, retry)).
  { apply IH; auto.
    - intros k Hk. apply Hjs. now right.
    - intros k ci ck Hk. apply Hno. now right. }
  destruct (String.eqb_spec (c_type cj) "string") as [Ht|Ht]; [|exact Hrest].
  destruct (py_getitem cooked i) as [ci|e] eqn:Ei.
  2:{ rewrite (py_getitem_Ok cooked i (mk_cooked "" (VInt 0) "" "" None false))
        in Ei by exact Hi. discriminate Ei. }
  cbn [mbind result_bind bind].
  destruct (String.eqb_spec (c_name ci) (c_name cj)) as [Hn|Hn];
    [|exact Hrest].
  exfalso. apply (Hno j ci cj); auto. now left.
Qed.

Lemma merge_outer_none (cooked : list cooked_field) (idx : list Z) :
  forall retry,
  (forall i, In i idx -> 0 <= i < Z.of_nat (length cooked)) ->
  (forall i j ci cj, In i idx -> i < j < Z.of_nat (length cooked) ->
     py_getitem cooked i = Ok ci -> py_getitem cooked j = Ok cj ->
     c_type ci = "string" -> c_type cj = "string" ->
     c_name ci <> c_name cj) ->
  merge_outer idx cooked retry = Ok (cooked, retry).
Proof.
  induction idx as [|i idx IH]; intros retry Hidx Hno; [reflexivity|].
  cbn [merge_outer].
  assert (Hi : 0 <= i < Z.of_nat (length cooked)) by (apply Hidx; now left).
  destruct (py_getitem cooked i) as [ci|e] eqn:Ei.
  2:{ rewrite (py_getitem_Ok cooked i (mk_cooked "" (VInt 0) "" "" None false))
        in Ei by exact Hi. discriminate Ei. }
  cbn [mbind result_bind bind].
  assert (Hrest : merge_outer idx cooked retry = Ok (cooked, retry)).
  { apply IH.
    - intros k Hk. apply Hidx. now right.
    - intros k j ck cj Hk. apply Hno. now right. }
  destruct (String.eqb_spec (c_type ci) "string") as [Ht|Ht]; [|exact Hrest].
  rewrite merge_inner_none; [exact Hrest|exact Hi| |].
  - intros j Hj. apply py_range_In in Hj. lia.
  - intros j ci' cj Hj Hci Hcj Hs.
    apply py_range_In in Hj. rewrite Ei in Hci. injection Hci as <-.
    apply (Hno i j ci cj); auto; [now left|lia].
Qed.

(** X15. The extension pass returns, and returns the record it was
    given, exactly when the record has no two ['string'] entries of
    one name; when it has, the pass raises an exception. *)
Theorem extension_merge_iff (cooked : list cooked_field) :
  (extension_merge cooked = Some (Ok cooked) <-> ~ has_extension cooked)
  /\ (has_extension cooked ->
      exists e, extension_merge cooked = Some (Raise e)).
Proof.
  assert (Hiff : extension_merge cooked = Some (Ok cooked)
                 <-> ~ has_extension cooked).
  { unfold extension_merge. cbn [merge_while]. split.
    - intros Hrun [i [j [ci [cj [Hij [Hi [Hj [Hti [Htj Hn]]]]]]]]].
      destruct (merge_outer _ cooked false) as [r|e] eqn:Hout;
        [|discriminate Hrun].
      assert (Hjl : (j < length cooked)%nat)
        by (apply nth_error_Some; congruence).
      assert (Hpos : forall k,
                 In k (py_range 0 (Z.of_nat (length cooked))) -> 0 <= k)
        by (intros k Hk; apply py_range_In in Hk; lia).
      apply (merge_outer_ok _ _ _ _ Hpos
               (py_range_last (length cooked)) Hout
               (Z.of_nat i) (Z.of_nat j) ci cj); auto; try lia.
      + unfold py_range. apply in_map_iff. exists i. split; [lia|].
        apply in_seq. lia.
      + now apply py_getitem_nat.
      + now apply py_getitem_nat.
    - intros Hno. rewrite merge_outer_none; [reflexivity| |].
      + intros i Hi. apply py_range_In in Hi. lia.
      + intros i j ci cj Hi Hij Hci Hcj Hti Htj Hn. apply Hno.
        apply py_range_In in Hi.
        exists (Z.to_nat i), (Z.to_nat j), ci, cj.
        split; [lia|]. split; [apply py_getitem_nat; now rewrite Z2Nat.id by lia|].
        split; [apply py_getitem_nat; now rewrite Z2Nat.id by lia|]. auto. }
  split; [exact Hiff|].
  intros Hext. destruct (extension_merge_cases cooked) as [He|Hok];
    [exact He|]. apply Hiff in Hok. contradiction.
Qed.

(** ** Fields of a type the unpacker does not know *)

Lemma field_value_unknown data o f old :
  known_type (type f) = false -> field_value data o f old = Ok old.
Proof.
  unfold known_type, field_value. intros H.
  apply orb_false_elim in H as [H Hraw].
  apply orb_false_elim in H as [H Hstr].
  apply orb_false_elim in H as [Huns Hsig].
  now rewrite Huns, Hsig, Hstr, Hraw.
Qed.

Lemma loop_unknown_first data fr values f rest :
  known_type (type f) = false -> offset fr < bitlen data ->
  value_ fr = None ->
  unpack_loop data (Field f :: rest) fr values =
  Raise (UnboundLocalError "value").
Proof.
  intros Hk Hoff Hv. unfold unpack_loop. rewrite for_loop_cons.
  destruct (bitlen data <=? offset fr) eqn:E; [apply Z.leb_le in E; lia|].
  cbn [unpack_inst]. rewrite field_value_unknown, Hv by exact Hk.
  reflexivity.
Qed.

(** X16. A schema whose first field has a type that is none of
    ['unsigned'], ['signed'], ['string'], ['raw'] cannot be unpacked:
    with the cursor inside the buffer the call raises
    [UnboundLocalError] for the variable [value], whatever the data. *)
Theorem unknown_type_unbound data off values f rest :
  known_type (type f) = false -> off < bitlen data ->
  aivdm_unpack data off values (Field f :: rest) =
  Raise (UnboundLocalError "value").
Proof.
  intros Hk Hoff. unfold aivdm_unpack.
  now rewrite loop_unknown_first.
Qed.

Lemma unknown_type_unbound_witness :
  aivdm_unpack sample_bits 38 ∅ type21 = Raise (UnboundLocalError "value").
Proof.
  apply (unknown_type_unbound sample_bits 38 ∅).
  - reflexivity.
  - vm_compute. reflexivity.
Defined.

(** X17. A field of an unknown type that follows a field [g] repeats
    the value of [g]: its record and its dictionary entry hold the
    value read for [g], and the cursor moves on by its width although
    none of its bits was read. *)
Theorem unknown_type_repeats data off values g f rest recs values' :
  known_type (type f) = false ->
  off < bitlen data -> off + width g < bitlen data ->
  aivdm_unpack data off values (Field g :: Field f :: rest)
    = Ok (recs, values') ->
  exists v fr,
    field_value data off g None = Ok (Some v) /\
    unpack_loop data rest
      (mk_frame (off + width g + width f) (Some v) [])
      (<[name f := v]> (<[name g := v]> values)) = Ok (fr, values') /\
    recs = cook g v :: cook f v :: cooked fr.
Proof.
  intros Hk Hoff Hoff' Hrun. unfold aivdm_unpack in Hrun.
  destruct (unpack_loop data _ _ values) as [[fr1 values1]|e] eqn:Hloop;
    [|discriminate Hrun].
  cbn in Hrun. injection Hrun as <- <-.
  unfold unpack_loop in Hloop. rewrite for_loop_cons in Hloop.
  cbn [offset] in Hloop.
  destruct (bitlen data <=? off) eqn:E; [apply Z.leb_le in E; lia|].
  cbn [unpack_inst offset value_ cooked] in Hloop.
  destruct (field_value data off g None) as [[v|]|e] eqn:Hg;
    cbn [mbind result_bind bind] in Hloop; try discriminate Hloop.
  destruct (rejected g v); [discriminate Hloop|].
  cbn [mbind result_bind bind] in Hloop.
  rewrite for_loop_cons in Hloop. cbn [offset] in Hloop.
  destruct (bitlen data <=? off + width g) eqn:E';
    [apply Z.leb_le in E'; lia|].
  cbn [unpack_inst offset value_ cooked] in Hloop.
  rewrite field_value_unknown in Hloop by exact Hk.
  cbn [mbind result_bind bind] in Hloop.
  destruct (rejected f v); [discriminate Hloop|].
  cbn [mbind result_bind bind app] in Hloop.
  change (for_loop data (unpack_inst data) rest) with (unpack_loop data rest)
    in Hloop.
  rewrite for_loop_cooked in Hloop.
  destruct (unpack_loop data rest _ _) as [[fr2 values2]|e] eqn:Hrest;
    [|discriminate Hloop].
  cbn in Hloop. injection Hloop as <- <-.
  exists v, fr2. split; [reflexivity|]. split; [exact Hrest|reflexivity].
Qed.

Lemma unknown_type_repeats_witness :
  exists v fr,
    field_value sample_bits 0 (mk_bitfield "type1_2" 6 "unsigned" (Some 0)
                                 "Second message ty" None None) None
      = Ok (Some v) /\
    unpack_loop sample_bits (skipn 7 type15)
      (mk_frame (0 + 6 + 12) (Some v) [])
      (<["offset1_2" := v]> (<["type1_2" := v]> ∅))
      = Ok (fr, <["offset2_1" := VInt 0]> (<["type2_1" := VInt 0]>
              (<["mmsi2" := VInt 410358528]>
                 (<["offset1_2" := VInt 1]> (<["type1_2" := VInt 1]> ∅))))) /\
    [ mk_cooked "type1_2" (VInt 1) "unsigned" "Second message ty" None false;
      mk_cooked "offset1_2" (VInt 1) "unsifned" "Second slot offset" None false;
      mk_cooked "mmsi2" (VInt 410358528) "unsigned" "Interrogated MMSI" None false;
      mk_cooked "type2_1" (VInt 0) "unsigned" "First message type" None false;
      mk_cooked "offset2_1" (VInt 0) "unsifned" "First slot offset" None false ]
    = cook (mk_bitfield "type1_2" 6 "unsigned" (Some 0)
              "Second message ty" None None) v
      :: cook (mk_bitfield "offset1_2" 12 "unsifned" (Some 0)
                 "Second slot offset" None None) v
      :: cooked fr.
Proof.
  apply (unknown_type_repeats sample_bits 0 ∅
           (mk_bitfield "type1_2" 6 "unsigned" (Some 0)
              "Second message ty" None None)
           (mk_bitfield "offset1_2" 12 "unsifned" (Some 0)
              "Second slot offset" None None)
           (skipn 7 type15)
           [ mk_cooked "type1_2" (VInt 1) "unsigned" "Second message ty"
               None false;
             mk_cooked "offset1_2" (VInt 1) "unsifned" "Second slot offset"
               None false;
             mk_cooked "mmsi2" (VInt 410358528) "unsigned" "Interrogated MMSI"
               None false;
             mk_cooked "type2_1" (VInt 0) "unsigned" "First message type"
               None false;
             mk_cooked "offset2_1" (VInt 0) "unsifned" "First slot offset"
               None false ]
           (<["offset2_1" := VInt 0]> (<["type2_1" := VInt 0]>
              (<["mmsi2" := VInt 410358528]>
                 (<["offset1_2" := VInt 1]> (<["type1_2" := VInt 1]> ∅)))))).
  - reflexivity.
  - vm_compute. reflexivity.
  - vm_compute. reflexivity.
  - vm_compute. reflexivity.
Defined.

(** ** Whole messages *)

(** The three leading fields and the master dispatch: with the cursor
    of the dispatch inside the buffer, the call is the run of the
    selected table at bit 38, its records put after the three leading
    ones. *)
Lemma master_run data values t r m :
  38 < bitlen data ->
  ubits data 0 6 = Ok t -> ubits data 6 2 = Ok r -> ubits data 8 30 = Ok m ->
  rejected msgtype_field (VInt t) = false ->
  aivdm_unpack data 0 values aivdm_decode =
  (sub ← py_getitem master_subtypes t;
   match sub with
   | None => Raise TypeError
   | Some s =>
       '(fr, values') ←
         unpack_loop data s (mk_frame 38 None [])
           (<["mmsi" := VInt m]>
              (<["repeat" := VInt r]> (<["msgtype" := VInt t]> values)));
       Ok (cook msgtype_field (VInt t) :: cook repeat_field (VInt r)
             :: cook mmsi_field (VInt m) :: cooked fr, values')
   end).
Proof.
  intros Hlen Ht Hr Hm Hrej.
  unfold aivdm_unpack, unpack_loop, aivdm_decode.
  rewrite for_loop_cons. cbn [offset].
  destruct (bitlen data <=? 0) eqn:E0; [apply Z.leb_le in E0; lia|].
  cbn [unpack_inst field_value type width name value_ offset cooked
       String.eqb Ascii.eqb Bool.eqb].
  rewrite Ht. cbn [mbind result_bind bind].
  change (rejected _ (VInt t)) with (rejected msgtype_field (VInt t)).
  rewrite Hrej. cbn [mbind result_bind bind].
  rewrite for_loop_cons. cbn [offset].
  destruct (bitlen data <=? 0 + 6) eqn:E1; [apply Z.leb_le in E1; lia|].
  cbn [unpack_inst field_value type width name value_ offset cooked
       String.eqb Ascii.eqb Bool.eqb].
  change (0 + 6) with 6. rewrite Hr.
  cbn [mbind result_bind bind rejected validator].
  rewrite for_loop_cons. cbn [offset].
  destruct (bitlen data <=? 6 + 2) eqn:E2; [apply Z.leb_le in E2; lia|].
  cbn [unpack_inst field_value type width name value_ offset cooked
       String.eqb Ascii.eqb Bool.eqb].
  change (6 + 2) with 8. rewrite Hm.
  cbn [mbind result_bind bind rejected validator].
  rewrite for_loop_cons. cbn [offset].
  change (8 + 30) with 38.
  destruct (bitlen data <=? 38) eqn:E3; [apply Z.leb_le in E3; lia|].
  rewrite unpack_inst_dispatch. unfold select.
  rewrite lookup_insert_ne, lookup_insert_ne, lookup_insert_eq by discriminate.
  cbn [mbind result_bind bind as_index offset value_ cooked].
  change (py_getitem _ t) with (py_getitem master_subtypes t).
  destruct (py_getitem master_subtypes t) as [[s|]|e]; try reflexivity.
  cbn [mbind result_bind bind]. unfold unpack_loop.
  destruct (for_loop data (unpack_inst data) s _ _) as [[fr values']|e];
    reflexivity.
Qed.

(** The buffer of a payload of at least seven characters: its first
    three fields are read without exception. *)
Lemma payload_head (c : ascii) (rest : string) :
  (6 <= String.length rest)%nat ->
  exists bv r m,
    from_sixbit BitVector_new (String c rest) = Ok bv /\
    bytes_ok (bits bv) /\
    length (bits bv) = S (String.length rest) /\
    bitlen bv = 6 * Z.of_nat (S (String.length rest)) /\
    ubits bv 0 6 = Ok (armor c mod 64) /\
    ubits bv 6 2 = Ok r /\ ubits bv 8 30 = Ok m.
Proof.
  intros Hlen.
  destruct (from_sixbit_read (String c rest))
    as [bv [Hrun [Hok [Hl [Hbl Hread]]]]].
  cbn [String.length] in Hl, Hbl.
  destruct (ubits_spec bv 6 2 Hok ltac:(lia) ltac:(lia) ltac:(lia))
    as [r [Hr _]].
  destruct (ubits_spec bv 8 30 Hok ltac:(lia) ltac:(lia) ltac:(lia))
    as [m [Hm _]].
  exists bv, r, m. repeat (split; [assumption|]).
  split; [|split; assumption].
  apply (Hread 0%nat c). reflexivity.
Qed.

(** X18. No message of type 21 is decoded: the first field of its
    table has the type ['unisigned'], so every payload of at least
    seven characters (the dispatch at bit 38 is reached) whose first
    character is ["E"], the armour of 21, ends in
    [UnboundLocalError]. *)
Theorem type21_never_decoded (rest : string) :
  (6 <= String.length rest)%nat ->
  decode_payload (String "E" rest) = Some (Raise (UnboundLocalError "value")).
Proof.
  intros Hlen.
  destruct (payload_head "E" rest Hlen)
    as [bv [r [m [Hrun [Hok [Hl [Hbl [Ht [Hr Hm]]]]]]]]].
  unfold decode_payload. rewrite Hrun. cbn [mbind result_bind bind].
  change (armor "E" mod 64) with 21 in Ht.
  rewrite (master_run bv ∅ 21 r m) by (try assumption; try reflexivity; lia).
  change (py_getitem master_subtypes 21) with (Ok (Some type21)).
  cbn [mbind result_bind bind].
  unfold type21 at 1. rewrite loop_unknown_first; [reflexivity| | |].
  - reflexivity.
  - cbn [offset]. lia.
  - reflexivity.
Qed.

Lemma type21_never_decoded_witness :
  decode_payload "E5M67FC000G?ufbE`FepT@3n00Sa"
  = Some (Raise (UnboundLocalError "value")).
Proof.
  apply (type21_never_decoded "5M67FC000G?ufbE`FepT@3n00Sa").
  cbn. lia.
Defined.

Lemma field_value_unsigned data o f old v :
  type f = "unsigned" -> field_value data o f old = Ok (Some v) ->
  exists n, ubits data o (width f) = Ok n /\ v = VInt n.
Proof.
  unfold field_value. intros ->. cbn [String.eqb Ascii.eqb Bool.eqb].
  destruct (ubits data o (width f)) as [n|e]; [|discriminate].
  cbn. intros [= <-]. now exists n.
Qed.

Lemma fmt_02d_int (n : Z) : exists s, fmt_02d (VInt n) = Ok s.
Proof. cbn [fmt_02d]. eexists. reflexivity. Qed.

(** The records of a run over a table without dispatch, one by one. *)
Ltac split_records Hall :=
  repeat match goal with
         | H : Forall2 _ _ (_ :: _) |- _ => inversion H; subst; clear H
         | H : Forall2 _ _ [] |- _ => inversion H; subst; clear H
         end;
  repeat match goal with
         | H : decoded_at _ ?c _ |- _ =>
             let v := fresh "v" in
             destruct c as [? v ? ? ? ?]; destruct H as [H ?]; cbn in H;
             injection H as -> -> -> -> ->
         end;
  cbn [fst snd c_value] in *;
  repeat match goal with
         | H : field_value _ _ _ None = Ok (Some _) |- _ =>
             first [ apply field_value_unsigned in H;
                     [cbn [width] in H; destruct H as [? [? ->]]
                     |reflexivity]
                   | clear H ]
         end.

(** A validator [n >= 0 and n <= k] on an unsigned window. *)
Lemma range_validator_accepts data o f k n v :
  type f = "unsigned" ->
  validator f = Some (fun n => py_ge n 0 && py_le n k) ->
  bytes_ok (bits data) -> 0 <= o -> 0 <= width f ->
  o + width f <= 8 * Z.of_nat (length (bits data)) ->
  ubits data o (width f) = Ok n -> n <= k ->
  field_value data o f None = Ok (Some v) ->
  rejected f v = false.
Proof.
  intros Ht Hv Hok Ho Hw Hwin Hn Hk Hval.
  apply field_value_unsigned in Hval; [|exact Ht].
  destruct Hval as [n' [Hn' ->]]. rewrite Hn in Hn'. injection Hn' as <-.
  destruct (ubits_spec data o (width f) Hok Ho Hw Hwin) as [u [Hu [Hr _]]].
  rewrite Hn in Hu. injection Hu as <-.
  unfold rejected. rewrite Hv. cbn [py_ge py_le].
  apply negb_false_iff, andb_true_intro.
  split; apply Z.leb_le; lia.
Qed.

(** X19. A complete message of type 4 or 11 (at least 28 characters,
    first character ["4"] or [";"]) whose position-fix code passes its
    validator is decoded into ten entries: the six fields of date and
    time are replaced by one ['time'] entry, a tuple of type
    ['string'] whose value is the six numbers in the format of the
    group; nothing is merged by the extension pass. *)
Theorem type4_time_stamp (c : ascii) (rest : string) (bv : BitVector)
  (e : Z) :
  c = "4"%char \/ c = ";"%char ->
  (27 <= String.length rest)%nat ->
  from_sixbit BitVector_new (String c rest) = Ok bv ->
  ubits bv 134 4 = Ok e -> e <= 8 ->
  exists recs y mo d h mi s stamp,
    decode_payload (String c rest) = Some (Ok recs) /\
    map c_name recs =
      ["msgtype"; "repeat"; "mmsi"; "time"; "accuracy"; "lon"; "lat";
       "epfd"; "raim"; "radio"] /\
    ubits bv 38 14 = Ok y /\ ubits bv 52 4 = Ok mo /\
    ubits bv 56 5 = Ok d /\ ubits bv 61 5 = Ok h /\
    ubits bv 66 6 = Ok mi /\ ubits bv 72 6 = Ok s /\
    fmt_join [":"; ":"; "T"; ":"; ":"; "Z"]
      [VInt y; VInt mo; VInt d; VInt h; VInt mi; VInt s] = Ok stamp /\
    nth_error recs 3 =
      Some (mk_cooked "time" (VStr stamp) "string" "Timestamp" None true).
Proof.
  intros Hc Hlen Hrun He He8.
  destruct (payload_head c rest ltac:(lia))
    as [bv' [r [m [Hrun' [Hok [Hl [Hbl [Ht [Hr Hm]]]]]]]]].
  rewrite Hrun in Hrun'. injection Hrun' as <-.
  assert (Hsub : exists t, ubits bv 0 6 = Ok t /\
                   rejected msgtype_field (VInt t) = false /\
                   py_getitem master_subtypes t = Ok (Some type4)).
  { destruct Hc as [-> | ->]; eexists; (split; [exact Ht|]);
      split; reflexivity. }
  destruct Hsub as [t [Ht' [Hrej Hsel]]]. clear Ht Hc.
  unfold decode_payload. rewrite Hrun. cbn [mbind result_bind bind].
  rewrite (master_run bv ∅ t r m) by (try assumption; lia).
  rewrite Hsel. cbn [mbind result_bind bind].
  destruct (unpack_flat bv type4 38 None []
              (<["mmsi" := VInt m]>
                 (<["repeat" := VInt r]> (<["msgtype" := VInt t]> ∅))))
    as [fr [values' [recs [Hloop [Hcooked Hall]]]]].
  - split; [exact Hok|lia].
  - reflexivity.
  - lia.
  - intros p Hin _.
    pose proof (layout_within type4 38 p eq_refl Hin) as Hw.
    change (total_width type4) with 130 in Hw. lia.
  - intros p v Hin _ Hval.
    assert (Hcases : validator (snd p) = None \/ p = (134, match nth 9 type4 (Spare 0) with Field f => f | _ => byte_field "" end)).
    { cbn [layout type4 width] in Hin.
      repeat (destruct Hin as [<-|Hin]; [first [now left | now right]|]).
      destruct Hin. }
    destruct Hcases as [Hnone| ->].
    + unfold rejected. now rewrite Hnone.
    + cbn [fst snd nth type4] in *.
      apply (range_validator_accepts bv 134 _ 8 e v); try reflexivity;
        try assumption; cbn [width]; lia.
  - rewrite Hloop. cbn [mbind result_bind bind]. rewrite Hcooked. cbn [app].
    rewrite filter_all in Hall.
    2:{ intros p Hin.
        pose proof (layout_within type4 38 p eq_refl Hin) as Hw.
        change (total_width type4) with 130 in Hw.
        unfold started. apply Z.ltb_lt. lia. }
    change (layout 38 type4)
      with (ltac:(let x := eval vm_compute in (layout 38 type4) in exact x))
      in Hall.
    split_records Hall.
    match goal with
    | Hy : ubits bv 38 14 = Ok ?y, Hmo : ubits bv 52 4 = Ok ?mo,
      Hd : ubits bv 56 5 = Ok ?d, Hh : ubits bv 61 5 = Ok ?h,
      Hmi : ubits bv 66 6 = Ok ?mi, Hs : ubits bv 72 6 = Ok ?s |- _ =>
        eexists; exists y, mo, d, h, mi, s; eexists
    end.
    split; [vm_compute; reflexivity|].
    split; [reflexivity|].
    repeat (split; [assumption|]).
    split; [vm_compute; reflexivity|reflexivity].
Qed.

Lemma type4_time_stamp_witness :
  exists recs y mo d h mi s stamp,
    decode_payload base_station_payload = Some (Ok recs) /\
    map c_name recs =
      ["msgtype"; "repeat"; "mmsi"; "time"; "accuracy"; "lon"; "lat";
       "epfd"; "raim"; "radio"] /\
    ubits (payload_bits base_station_payload) 38 14 = Ok y /\
    ubits (payload_bits base_station_payload) 52 4 = Ok mo /\
    ubits (payload_bits base_station_payload) 56 5 = Ok d /\
    ubits (payload_bits base_station_payload) 61 5 = Ok h /\
    ubits (payload_bits base_station_payload) 66 6 = Ok mi /\
    ubits (payload_bits base_station_payload) 72 6 = Ok s /\
    fmt_join [":"; ":"; "T"; ":"; ":"; "Z"]
      [VInt y; VInt mo; VInt d; VInt h; VInt mi; VInt s] = Ok stamp /\
    nth_error recs 3 =
      Some (mk_cooked "time" (VStr stamp) "string" "Timestamp" None true).
Proof.
  apply (type4_time_stamp "4" "03OviQuMGCqWrRO9>E6fE700@GO"
           (payload_bits base_station_payload) 7).
  - now left.
  - cbn. lia.
  - vm_compute. reflexivity.
  - vm_compute. reflexivity.
  - lia.
Defined.

(** X20. A complete message of type 5 (at least 71 characters, first
    character ["5"]) whose ship type and position-fix code pass their
    validators is decoded into sixteen entries.  The table names the
    eight-bit draught field ['second'], so the ['eta'] group takes it:
    the entry of the group ends with the draught where the format has
    the seconds, and no entry for the draught is left. *)
Theorem type5_eta_takes_draught (rest : string) (bv : BitVector)
  (st e : Z) :
  (70 <= String.length rest)%nat ->
  from_sixbit BitVector_new (String "5" rest) = Ok bv ->
  ubits bv 232 8 = Ok st -> st <= 99 ->
  ubits bv 270 4 = Ok e -> e <= 8 ->
  exists recs mo d h mi dr stamp,
    decode_payload (String "5" rest) = Some (Ok recs) /\
    map c_name recs =
      ["msgtype"; "repeat"; "mmsi"; "ais_version"; "imo_id"; "callsign";
       "shipname"; "shiptype"; "to_bow"; "to_stern"; "to_port";
       "to_starbord"; "epfd"; "eta"; "destination"; "dte"] /\
    ubits bv 274 4 = Ok mo /\ ubits bv 278 5 = Ok d /\
    ubits bv 283 5 = Ok h /\ ubits bv 288 6 = Ok mi /\
    ubits bv 294 8 = Ok dr /\
    fmt_join [":"; "T"; ":"; ":"; "Z"]
      [VInt mo; VInt d; VInt h; VInt mi; VInt dr] = Ok stamp /\
    nth_error recs 13 =
      Some (mk_cooked "eta" (VStr stamp) "string"
              "Estimated Time of Arrival" None true).
Proof.
  intros Hlen Hrun Hst Hst99 He He8.
  destruct (payload_head "5" rest ltac:(lia))
    as [bv' [r [m [Hrun' [Hok [Hl [Hbl [Ht [Hr Hm]]]]]]]]].
  rewrite Hrun in Hrun'. injection Hrun' as <-.
  change (armor "5" mod 64) with 5 in Ht.
  unfold decode_payload. rewrite Hrun. cbn [mbind result_bind bind].
  rewrite (master_run bv ∅ 5 r m) by (try assumption; try reflexivity; lia).
  change (py_getitem master_subtypes 5) with (Ok (Some type5)).
  cbn [mbind result_bind bind].
  destruct (unpack_flat bv type5 38 None []
              (<["mmsi" := VInt m]>
                 (<["repeat" := VInt r]> (<["msgtype" := VInt 5]> ∅))))
    as [fr [values' [recs [Hloop [Hcooked Hall]]]]].
  - split; [exact Hok|lia].
  - reflexivity.
  - lia.
  - intros p Hin _.
    pose proof (layout_within type5 38 p eq_refl Hin) as Hw.
    change (total_width type5) with 386 in Hw. lia.
  - intros p v Hin _ Hval.
    assert (Hcases : validator (snd p) = None
              \/ p = (232, match nth 4 type5 (Spare 0) with
                           | Field f => f
                           | _ => byte_field ""
                           end)
              \/ p = (270, match nth 9 type5 (Spare 0) with
                           | Field f => f
                           | _ => byte_field ""
                           end)).
    { cbn [layout type5 width] in Hin.
      repeat (destruct Hin as [<-|Hin];
              [first [now left | now (right; left) | now (right; right)]|]).
      destruct Hin. }
    destruct Hcases as [Hnone|[-> | ->]].
    + unfold rejected. now rewrite Hnone.
    + cbn [fst snd nth type5] in *.
      apply (range_validator_accepts bv 232 _ 99 st v); try reflexivity;
        try assumption; cbn [width]; lia.
    + cbn [fst snd nth type5] in *.
      apply (range_validator_accepts bv 270 _ 8 e v); try reflexivity;
        try assumption; cbn [width]; lia.
  - rewrite Hloop. cbn [mbind result_bind bind]. rewrite Hcooked. cbn [app].
    rewrite filter_all in Hall.
    2:{ intros p Hin.
        pose proof (layout_within type5 38 p eq_refl Hin) as Hw.
        change (total_width type5) with 386 in Hw.
        assert (Hdte : fst p <= 422).
        { cbn [layout type5 width] in Hin.
          repeat (destruct Hin as [<-|Hin]; [cbn [fst]; lia|]).
          destruct Hin. }
        unfold started. apply Z.ltb_lt. lia. }
    change (layout 38 type5)
      with (ltac:(let x := eval vm_compute in (layout 38 type5) in exact x))
      in Hall.
    split_records Hall.
    match goal with
    | Hmo : ubits bv 274 4 = Ok ?mo,
      Hd : ubits bv 278 5 = Ok ?d, Hh : ubits bv 283 5 = Ok ?h,
      Hmi : ubits bv 288 6 = Ok ?mi, Hs : ubits bv 294 8 = Ok ?dr |- _ =>
        eexists; exists mo, d, h, mi, dr; eexists
    end.
    split; [vm_compute; reflexivity|].
    split; [reflexivity|].
    repeat (split; [assumption|]).
    split; [vm_compute; reflexivity|reflexivity].
Qed.

Lemma type5_eta_takes_draught_witness :
  exists recs mo d h mi dr stamp,
    decode_payload voyage_payload = Some (Ok recs) /\
    map c_name recs =
      ["msgtype"; "repeat"; "mmsi"; "ais_version"; "imo_id"; "callsign";
       "shipname"; "shiptype"; "to_bow"; "to_stern"; "to_port";
       "to_starbord"; "epfd"; "eta"; "destination"; "dte"] /\
    ubits (payload_bits voyage_payload) 274 4 = Ok mo /\
    ubits (payload_bits voyage_payload) 278 5 = Ok d /\
    ubits (payload_bits voyage_payload) 283 5 = Ok h /\
    ubits (payload_bits voyage_payload) 288 6 = Ok mi /\
    ubits (payload_bits voyage_payload) 294 8 = Ok dr /\
    fmt_join [":"; "T"; ":"; ":"; "Z"]
      [VInt mo; VInt d; VInt h; VInt mi; VInt dr] = Ok stamp /\
    nth_error recs 13 =
      Some (mk_cooked "eta" (VStr stamp) "string"
              "Estimated Time of Arrival" None true).
Proof.
  apply (type5_eta_takes_draught
           "5?MbV02;H;s<HtKR20EHE:0@T4@Dn2222222216L961O5Gf0NSQEp6ClRp888888888880"
           (payload_bits voyage_payload) 70 1).
  - cbn. lia.
  - vm_compute. reflexivity.
  - vm_compute. reflexivity.
  - lia.
  - vm_compute. reflexivity.
  - lia.
Defined.

(** X21. A payload whose first character armours 0, 23 or a number
    above 24 is rejected at its first field, whatever follows: the
    decoder raises the validation exception for ['msgtype'] with that
    number. *)
Theorem message_type_rejected (c : ascii) (rest : string) :
  armor c mod 64 = 0 \/ armor c mod 64 = 23 \/ 24 < armor c mod 64 ->
  decode_payload (String c rest) =
  Some (Raise (AISUnpackingException "msgtype" (VInt (armor c mod 64)))).
Proof.
  intros Ht.
  destruct (from_sixbit_read (String c rest))
    as [bv [Hrun [Hok [Hl [Hbl Hread]]]]].
  pose proof (Hread 0%nat c eq_refl) as Hu. cbn [String.length] in Hbl.
  change (6 * Z.of_nat 0) with 0 in Hu.
  unfold decode_payload. rewrite Hrun. cbn [mbind result_bind bind].
  unfold aivdm_unpack, unpack_loop, aivdm_decode.
  rewrite for_loop_cons. cbn [offset].
  destruct (bitlen bv <=? 0) eqn:E0; [apply Z.leb_le in E0; lia|].
  cbn [unpack_inst field_value type width name value_ offset cooked
       String.eqb Ascii.eqb Bool.eqb].
  rewrite Hu. cbn [mbind result_bind bind].
  set (t := armor c mod 64) in *.
  assert (Hrej : rejected msgtype_field (VInt t) = true).
  { unfold rejected. cbn [msgtype_field aivdm_decode nth validator
                          py_gt py_le py_ne].
    apply negb_true_iff.
    destruct Ht as [Ht|[Ht|Ht]].
    - rewrite Ht. reflexivity.
    - rewrite Ht. reflexivity.
    - apply andb_false_intro1, andb_false_intro2, Z.leb_gt, Ht. }
  change (rejected _ (VInt t)) with (rejected msgtype_field (VInt t)).
  rewrite Hrej. reflexivity.
Qed.

Lemma message_type_rejected_witness :
  decode_payload "I5M67FC000G?ufbE`FepT@3n00Sa" =
  Some (Raise (AISUnpackingException "msgtype" (VInt (armor "I" mod 64)))).
Proof.
  apply (message_type_rejected "I" "5M67FC000G?ufbE`FepT@3n00Sa").
  right. right. vm_compute. reflexivity.
Defined.

(** ** The legend tables *)

Lemma ubits_bound self start width u :
  ubits self start width = Ok u -> 0 <= width /\ 0 <= u < 2 ^ width.
Proof.
  unfold ubits, py_shiftl. intros H.
  destruct (ubits_loop _ _ 0) as [fld|e]; [|discriminate H].
  cbn [mbind result_bind bind] in H.
  destruct (width <? 0) eqn:E; [discriminate H|].
  apply Z.ltb_ge in E. cbn [mbind result_bind bind] in H.
  injection H as <-. split; [exact E|].
  assert (Hm : Z.lnot (Z.shiftl (-1) width) = Z.ones width).
  { rewrite Z.shiftl_mul_pow2, Z.ones_equiv by exact E.
    unfold Z.lnot. lia. }
  rewrite Hm, Z.land_ones by exact E.
  apply Z.mod_pos_bound. lia.
Qed.

Lemma legend_ok_lookup data f c h t :
  legend_ok f = true -> cooked_from data f c ->
  c_formatter c = Some h -> legend_table h = Some t ->
  exists s, legend_lookup t (c_value c) = Ok s.
Proof.
  intros Hok [Hc [Hrej [o [old Hval]]]] Hh Ht.
  rewrite Hc in Hh. cbn [c_formatter] in Hh.
  unfold legend_ok in Hok. rewrite Hh, Ht in Hok.
  apply andb_prop in Hok as [Hok Hall].
  apply andb_prop in Hok as [Hty Hw].
  apply String.eqb_eq in Hty.
  apply field_value_unsigned in Hval; [|exact Hty].
  destruct Hval as [n [Hn Hv]].
  apply ubits_bound in Hn as [_ Hn].
  rewrite forallb_forall in Hall.
  specialize (Hall n).
  rewrite Hv in Hrej |- *. rewrite Hrej in Hall. cbn [orb] in Hall.
  assert (Hin : In n (py_range 0 (2 ^ width f))).
  { unfold py_range. apply in_map_iff. exists (Z.to_nat n).
    split; [lia|]. apply in_seq. lia. }
  apply Hall, Z.ltb_lt in Hin.
  unfold legend_lookup. cbn [as_index mbind result_bind bind].
  destruct t as [|s0 t']; [cbn in Hin; lia|].
  exists (nth (Z.to_nat n) (s0 :: t') s0).
  apply py_getitem_Ok. lia.
Qed.

Lemma loop_guarded data s fr values fr' values' :
  guarded s = true -> value_ fr = None ->
  unpack_loop data s fr values = Ok (fr', values') -> fr' = fr.
Proof.
  destruct s as [|[w|fieldname subtypes compute|f] rest]; try discriminate.
  cbn [guarded]. intros Hk Hv Hrun. apply negb_true_iff in Hk.
  unfold unpack_loop in Hrun. rewrite for_loop_cons in Hrun.
  destruct (bitlen data <=? offset fr); [now injection Hrun as <- _|].
  cbn [unpack_inst] in Hrun.
  rewrite field_value_unknown, Hv in Hrun by exact Hk.
  discriminate Hrun.
Qed.

(** The records of a run over a schema whose legend fields are all
    [legend_ok]. *)
Lemma loop_legends data (m : nat) : forall instructions,
  (schema_size instructions < m)%nat ->
  legend_safe instructions = true ->
  forall fr values fr' values',
    unpack_loop data instructions fr values = Ok (fr', values') ->
    exists recs,
      cooked fr' = (cooked fr ++ recs)%list /\
      Forall (fun c => exists f, legend_ok f = true /\
                                 cooked_from data f c) recs.
Proof.
  unfold unpack_loop.
  induction m as [|m IHm]; intros instructions Hsize; [lia|].
  induction instructions as [|i rest IH];
    intros Hsafe fr values fr' values' Hrun.
  - cbn in Hrun. injection Hrun as <- <-. exists [].
    split; [now rewrite app_nil_r|constructor].
  - rewrite for_loop_cons in Hrun.
    destruct (bitlen data <=? offset fr) eqn:E.
    { injection Hrun as <- <-. exists [].
      split; [now rewrite app_nil_r|constructor]. }
    change (schema_size (i :: rest))
      with (inst_size i + schema_size rest)%nat in Hsize.
    pose proof (inst_size_pos i) as Hpos.
    unfold legend_safe in Hsafe. cbn [forallb] in Hsafe.
    apply andb_prop in Hsafe as [Hi Hrest].
    destruct (unpack_inst data i fr values) as [[fr1 values1]|e] eqn:Hstep;
      [|discriminate Hrun].
    cbn [mbind result_bind bind] in Hrun.
    destruct (IH ltac:(lia) Hrest _ _ _ _ Hrun) as [recs2 [Hc2 Hall2]].
    assert (Hstep' : exists recs1,
              cooked fr1 = (cooked fr ++ recs1)%list /\
              Forall (fun c => exists f, legend_ok f = true /\
                                         cooked_from data f c) recs1).
    { destruct i as [w|fieldname subtypes compute|f].
      - cbn in Hstep. injection Hstep as <- <-. exists [].
        split; [cbn; now rewrite app_nil_r|constructor].
      - rewrite unpack_inst_dispatch in Hstep.
        destruct (select values fieldname subtypes compute) as [[s|]|e] eqn:Hsel;
          cbn in Hstep; try discriminate Hstep.
        destruct (unpack_loop data s _ values) as [[frs valuess]|e] eqn:Hsub;
          cbn in Hstep; [|discriminate Hstep].
        injection Hstep as <- <-.
        pose proof (select_In _ _ _ _ _ Hsel) as Hin.
        pose proof (schema_size_sub fieldname subtypes compute s Hin) as Hlt.
        cbn [legend_safe_inst] in Hi. rewrite forallb_forall in Hi.
        specialize (Hi _ Hin). cbn in Hi.
        apply orb_prop in Hi as [Hg|Hs].
        + apply loop_guarded in Hsub; [|exact Hg|reflexivity].
          subst frs. exists []. cbn [cooked].
          split; [reflexivity|constructor].
        + destruct (IHm s ltac:(lia) Hs _ _ _ _ Hsub) as [recs [Hc Hall]].
          cbn [cooked app] in Hc. exists recs. cbn [cooked].
          split; [now rewrite Hc|exact Hall].
      - cbn [unpack_inst] in Hstep.
        destruct (field_value data (offset fr) f (value_ fr)) as [[x|]|e]
          eqn:Hval; cbn in Hstep; try discriminate Hstep.
        destruct (rejected f x) eqn:Hrej; [discriminate Hstep|].
        injection Hstep as <- <-. eexists. cbn [cooked].
        split; [reflexivity|].
        constructor; [|constructor].
        exists f. split; [exact Hi|]. split; [reflexivity|].
        split; [exact Hrej|]. now exists (offset fr), (value_ fr). }
    destruct Hstep' as [recs1 [Hc1 Hall1]].
    exists (recs1 ++ recs2)%list.
    split; [rewrite Hc2, Hc1, app_assoc; reflexivity|].
    apply Forall_app. split; assumption.
Qed.

Lemma aivdm_decode_legend_safe : legend_safe aivdm_decode = true.
Proof. vm_compute. reflexivity. Qed.

Lemma In_firstn_skipn {A} (n : nat) (l : list A) (x : A) :
  In x (firstn n l) \/ In x (skipn n l) -> In x l.
Proof.
  intros H. rewrite <- (firstn_skipn n l). apply in_or_app, H.
Qed.

(** What the grouping pass returns: entries of the list it was given,
    and group tuples, which carry no hook. *)
Lemma group_fields_In (groups : list field_group) :
  forall cooked cooked' c,
    group_fields groups cooked = Ok cooked' -> In c cooked' ->
    In c cooked \/ c_formatter c = None.
Proof.
  induction groups as [|g groups IH]; intros cooked cooked' c Hrun Hin.
  - cbn in Hrun. injection Hrun as <-. now left.
  - cbn [group_fields] in Hrun.
    destruct (decide (map c_name _ = g_template g)) as [_|_];
      [|now apply (IH _ _ _ Hrun)].
    destruct (g_formatter g _) as [group|e]; [|discriminate Hrun].
    cbn [mbind result_bind bind] in Hrun.
    destruct (IH _ _ _ Hrun Hin) as [H|H]; [|now right].
    apply in_app_or in H as [H|H].
    + left. unfold py_slice_to in H. eapply In_firstn_skipn. left. exact H.
    + apply in_app_or in H as [[<-|[]]|H]; [now right|].
      left. unfold py_slice_from in H. eapply In_firstn_skipn. right. exact H.
Qed.

(** X22. The legend lookups of the [scaled] pass stay inside their
    tuples: in every record list the driver gets from a payload, an
    entry whose hook is one of the four legend tuples holds an integer
    that indexes the tuple, so [formatter[value]] raises nothing.  (The
    validators and the field widths keep the values in range, and the
    one legend field with a misspelt type, the first of the type 21
    table, never yields an entry.) *)
Theorem scaled_lookup_in_range (payload : string)
  (recs : list cooked_field) (c : cooked_field) (h : hook)
  (t : list string) :
  decode_payload payload = Some (Ok recs) -> In c recs ->
  c_formatter c = Some h -> legend_table h = Some t ->
  exists s, legend_lookup t (c_value c) = Ok s.
Proof.
  unfold decode_payload. intros Hrun Hin Hh Ht.
  destruct (from_sixbit BitVector_new payload) as [bv|e];
    [|discriminate Hrun].
  cbn [mbind result_bind bind] in Hrun.
  destruct (aivdm_unpack bv 0 ∅ aivdm_decode) as [[cooked0 values]|e]
    eqn:Hun; [|discriminate Hrun].
  cbn [mbind result_bind bind] in Hrun.
  destruct (group_fields field_groups cooked0) as [cooked1|e] eqn:Hg;
    [|discriminate Hrun].
  destruct (extension_merge_cases cooked1) as [[e He]|Hsame];
    [rewrite He in Hrun; discriminate Hrun|].
  rewrite Hsame in Hrun. injection Hrun as <-.
  destruct (group_fields_In _ _ _ c Hg Hin) as [Hin0|Hnone];
    [|rewrite Hnone in Hh; discriminate Hh].
  unfold aivdm_unpack in Hun.
  destruct (unpack_loop bv aivdm_decode _ ∅) as [[fr values0]|e] eqn:Hloop;
    [|discriminate Hun].
  cbn in Hun. injection Hun as <- <-.
  destruct (loop_legends bv (S (schema_size aivdm_decode)) aivdm_decode
              ltac:(lia) aivdm_decode_legend_safe _ _ _ _ Hloop)
    as [recs [Hc Hall]].
  cbn [cooked app] in Hc. rewrite Hc in Hin0.
  rewrite List.Forall_forall in Hall.
  destruct (Hall c Hin0) as [f [Hok Hfrom]].
  exact (legend_ok_lookup bv f c h t Hok Hfrom Hh Ht).
Qed.

Lemma scaled_lookup_in_range_witness :
  exists s, legend_lookup ship_type_table (VInt 70) = Ok s.
Proof.
  apply (scaled_lookup_in_range voyage_payload
           (match decode_payload voyage_payload with
            | Some (Ok recs) => recs
            | _ => []
            end)
           (mk_cooked "shiptype" (VInt 70) "unsigned" "Ship Type"
              (Some ship_type_legends) false)
           ship_type_legends ship_type_table).
  - vm_compute. reflexivity.
  - vm_compute. do 7 right. left. reflexivity.
  - reflexivity.
  - reflexivity.
Defined.

(** ** Message 1 *)

(** X23. The eighteen field decoders of message 1 agree with [decode]:
    the dictionary [decode] returns holds, under each of the eighteen
    keys, what the decoder of that field returns on the same bits, and
    it holds no other key. *)
Theorem decode_agrees_with_field_decoders (bv : bitvec) :
  decode bv = list_to_map (field_decoders bv).
Proof.
  apply map_eq. intros k. unfold decode, field_decoders.
  cbn [list_to_map foldr fst snd uncurry].
  reflexivity.
Qed.

(** X24. [encode] never reads the keys ['MessageID'],
    ['RegionalReserved'] and ['Spare']: whatever the dictionary holds
    under them, the result (bits or exception) is the same. *)
Theorem encode_ignores_fixed_keys (params : gmap string pval) (k : string)
  (v : pval) :
  fixed_key k -> encode (<[k := v]> params) = encode params.
Proof.
  intros Hk. unfold encode, opt_int, opt_scaled, get_int, get_dec, get_truth.
  destruct Hk as [-> | [-> | ->]];
    repeat (rewrite lookup_insert_ne by discriminate); reflexivity.
Qed.

Lemma encode_ignores_fixed_keys_witness :
  encode (<["MessageID" := PInt 5]> testParams) = encode testParams.
Proof.
  apply (encode_ignores_fixed_keys testParams "MessageID" (PInt 5)).
  now left.
Defined.

(** X25. A dictionary without ['UserID'] makes [encode] raise
    [KeyError] for that key (not [ValueError]), the repeat indicator
    being absent or a natural number. *)
Theorem encode_missing_user_id (params : gmap string pval) :
  params !! "UserID" = None ->
  (params !! "RepeatIndicator" = None \/
   exists n, 0 <= n /\ params !! "RepeatIndicator" = Some (PInt n)) ->
  encode params = Raise (KeyError "UserID").
Proof.
  intros Hu Hri. unfold encode, opt_int, get_int. rewrite Hu.
  assert (Hnat : forall n w, 0 <= n -> exists b, uint n w = Ok b).
  { intros n w Hn. unfold uint.
    destruct n as [|p|p]; [| |lia]; cbn; eexists; reflexivity. }
  destruct (Hnat 1 6%nat ltac:(lia)) as [b1 ->].
  cbn [mbind result_bind bind].
  destruct Hri as [-> | [n [Hn ->]]]; cbn [mbind result_bind bind].
  - destruct (Hnat 0 2%nat ltac:(lia)) as [b2 ->]. reflexivity.
  - destruct (Hnat n 2%nat Hn) as [b2 ->]. reflexivity.
Qed.

Lemma encode_missing_user_id_witness :
  encode (delete "UserID" testParams) = Raise (KeyError "UserID").
Proof.
  apply (encode_missing_user_id (delete "UserID" testParams)).
  - reflexivity.
  - right. exists 1. split; [lia|reflexivity].
Defined.

(** X26. The defaults of [encode] are the "not available" codes, and
    they come back: for a dictionary holding only the six keys
    [encode] requires, each within its width, [encode] returns 168
    bits from which [decode] reads the required fields as given and,
    for the nine absent ones, repeat indicator 0, navigation status
    15, rate of turn -128, speed 1023/10, longitude 181 degrees,
    latitude 91 degrees, course 3600/10, heading 511 and second
    60. *)
Theorem encode_defaults (uid pa : Z) (raim : bool) (ss st so : Z) :
  0 <= uid < 2 ^ 30 -> 0 <= pa < 2 ^ 1 -> 0 <= ss < 2 ^ 2 ->
  0 <= st < 2 ^ 3 -> 0 <= so < 2 ^ 14 ->
  exists bv,
    encode (required_params uid pa raim ss st so) = Ok bv /\
    length bv = 168%nat /\
    decode bv !! "UserID" = Some (PInt uid) /\
    decode bv !! "PositionAccuracy" = Some (PInt pa) /\
    decode bv !! "RAIM" = Some (PBool raim) /\
    decode bv !! "state_syncstate" = Some (PInt ss) /\
    decode bv !! "state_slottimeout" = Some (PInt st) /\
    decode bv !! "state_slotoffset" = Some (PInt so) /\
    decode bv !! "RepeatIndicator" = Some (PInt 0) /\
    decode bv !! "NavigationStatus" = Some (PInt 15) /\
    decode bv !! "ROT" = Some (PInt (-128)) /\
    decode bv !! "SOG" = Some (PDec (1023 # 10)) /\
    decode bv !! "longitude" = Some (PDec (108600000 # 600000)) /\
    decode bv !! "latitude" = Some (PDec (54600000 # 600000)) /\
    decode bv !! "COG" = Some (PDec (3600 # 10)) /\
    decode bv !! "TrueHeading" = Some (PInt 511) /\
    decode bv !! "TimeStamp" = Some (PInt 60).
Proof.
  intros Huid Hpa Hss Hst Hso.
  unfold encode, opt_int, opt_scaled, get_int, get_dec, get_truth.
  set (params := required_params uid pa raim ss st so).
  change (params !! "RepeatIndicator") with (@None pval).
  change (params !! "UserID") with (Some (PInt uid)).
  change (params !! "NavigationStatus") with (@None pval).
  change (params !! "ROT") with (@None pval).
  change (params !! "SOG") with (@None pval).
  change (params !! "PositionAccuracy") with (Some (PInt pa)).
  change (params !! "longitude") with (@None pval).
  change (params !! "latitude") with (@None pval).
  change (params !! "COG") with (@None pval).
  change (params !! "TrueHeading") with (@None pval).
  change (params !! "TimeStamp") with (@None pval).
  change (params !! "RAIM") with (Some (PBool raim)).
  change (params !! "state_syncstate") with (Some (PInt ss)).
  change (params !! "state_slottimeout") with (Some (PInt st)).
  change (params !! "state_slotoffset") with (Some (PInt so)).
  cbn [mbind result_bind bind].
  use_uint 1 6%nat b_id Lid Vid.
  use_uint 0 2%nat b_ri Lri Vri.
  use_uint uid 30%nat b_uid Luid Vuid.
  use_uint 15 4%nat b_ns Lns Vns.
  use_uint 1023 10%nat b_sog Lsog Vsog.
  use_uint pa 1%nat b_pa Lpa Vpa.
  use_uint 3600 12%nat b_cog Lcog Vcog.
  use_uint 511 9%nat b_th Lth Vth.
  use_uint 60 6%nat b_ts Lts Vts.
  use_uint 0 4%nat b_rr Lrr Vrr.
  use_uint 0 1%nat b_sp Lsp Vsp.
  use_uint ss 2%nat b_ss Lss Vss.
  use_uint st 3%nat b_st Lst Vst.
  use_uint so 14%nat b_so Lso Vso.
  set (b_raim := if raim then TrueBV else FalseBV).
  assert (Lraim : length b_raim = 1%nat)
    by (subst b_raim; destruct raim; reflexivity).
  eexists. split; [reflexivity|]. split.
  { unfold joinBV. cbn [concat]. rewrite ?length_app, ?sint_length.
    cbn [length]. lia. }
  repeat split.
  - read_key. read_piece 2%nat. now rewrite Vuid.
  - read_key. read_piece 6%nat. now rewrite Vpa.
  - read_key. read_piece 14%nat. subst b_raim. destruct raim; reflexivity.
  - read_key. read_piece 15%nat. now rewrite Vss.
  - read_key. read_piece 16%nat. now rewrite Vst.
  - read_key. read_piece 17%nat. now rewrite Vso.
  - read_key. read_piece 1%nat. now rewrite Vri.
  - read_key. read_piece 3%nat. now rewrite Vns.
  - read_key. read_piece 4%nat. reflexivity.
  - read_key. read_piece 5%nat. now rewrite Vsog.
  - read_key. read_piece 7%nat. reflexivity.
  - read_key. read_piece 8%nat. reflexivity.
  - read_key. read_piece 9%nat. now rewrite Vcog.
  - read_key. read_piece 10%nat. now rewrite Vth.
  - read_key. read_piece 11%nat. now rewrite Vts.
Qed.

Lemma encode_defaults_witness :
  exists bv,
    encode (required_params 1193046 1 false 2 0 1221) = Ok bv /\
    length bv = 168%nat /\
    decode bv !! "UserID" = Some (PInt 1193046) /\
    decode bv !! "PositionAccuracy" = Some (PInt 1) /\
    decode bv !! "RAIM" = Some (PBool false) /\
    decode bv !! "state_syncstate" = Some (PInt 2) /\
    decode bv !! "state_slottimeout" = Some (PInt 0) /\
    decode bv !! "state_slotoffset" = Some (PInt 1221) /\
    decode bv !! "RepeatIndicator" = Some (PInt 0) /\
    decode bv !! "NavigationStatus" = Some (PInt 15) /\
    decode bv !! "ROT" = Some (PInt (-128)) /\
    decode bv !! "SOG" = Some (PDec (1023 # 10)) /\
    decode bv !! "longitude" = Some (PDec (108600000 # 600000)) /\
    decode bv !! "latitude" = Some (PDec (54600000 # 600000)) /\
    decode bv !! "COG" = Some (PDec (3600 # 10)) /\
    decode bv !! "TrueHeading" = Some (PInt 511) /\
    decode bv !! "TimeStamp" = Some (PInt 60).
Proof.
  apply (encode_defaults 1193046 1 false 2 0 1221); lia.
Defined.

(** ** The generator *)

(** X27. The fragment test compares the two fields as strings: with
    an announced count of 10 to 19, fragment 2 to 9 is not below the
    count, so the payload accumulated so far is handed to the decoder
    at that fragment already. *)
Theorem two_digit_count_emits_early (payload seg : string)
  (expect number : Z) :
  10 <= expect <= 19 -> 2 <= number <= 9 -> no_comma seg = true ->
  assemble payload (sentence expect number seg) = Ok (payload ++ seg, true).
Proof.
  intros He Hn Hseg. unfold assemble, sentence.
  assert (Hfields : forallb no_comma
            ["!AIVDM"; py_str_int expect; py_str_int number; ""; "A"; seg;
             "0*00"] = true).
  { assert (He' : expect = 10 \/ expect = 11 \/ expect = 12 \/ expect = 13
                  \/ expect = 14 \/ expect = 15 \/ expect = 16
                  \/ expect = 17 \/ expect = 18 \/ expect = 19) by lia.
    destruct He' as [->|[->|[->|[->|[->|[->|[->|[->|[->| ->]]]]]]]]];
    destruct (digit_cases number ltac:(lia))
      as [->|[->|[->|[->|[->|[->|[->|[->| ->]]]]]]]];
    cbn; rewrite Hseg; reflexivity. }
  rewrite split_concat by (auto; discriminate).
  assert (He' : expect = 10 \/ expect = 11 \/ expect = 12 \/ expect = 13
                \/ expect = 14 \/ expect = 15 \/ expect = 16
                \/ expect = 17 \/ expect = 18 \/ expect = 19) by lia.
  destruct He' as [->|[->|[->|[->|[->|[->|[->|[->|[->| ->]]]]]]]]];
    destruct (digit_cases number ltac:(lia))
      as [->|[->|[->|[->|[->|[->|[->|[->| ->]]]]]]]];
    try lia; reflexivity.
Qed.

Lemma two_digit_count_emits_early_witness :
  assemble "A" (sentence 10 2 "B") = Ok ("A" ++ "B", true).
Proof.
  apply (two_digit_count_emits_early "A" "B" 10 2); [lia|lia|reflexivity].
Defined.

(** X28. A sentence that is fragment 1 of 1 is decoded on its own,
    whatever the accumulator held: the generator yields the record of
    its payload and goes on with the lines that follow, or ends with
    the exception the decoding raised, the following lines unread. *)
Theorem single_sentence_decoded (seg payload : string)
  (source : list string) :
  no_comma seg = true ->
  parse_ais_messages (sentence 1 1 seg :: source) payload =
  match decode_payload seg with
  | None => None
  | Some (Raise e) => Some ([], Some e)
  | Some (Ok cooked) =>
      match parse_ais_messages source seg with
      | None => None
      | Some (rest, e) => Some (cooked :: rest, e)
      end
  end.
Proof.
  intros Hseg. cbn [parse_ais_messages].
  destruct (sentence_head 1 1 seg) as [rest Hhead].
  rewrite (assemble_sentence payload 1 1 seg) by (try lia; exact Hseg).
  rewrite Hhead. cbn [String.eqb String.prefix Ascii.eqb Bool.eqb].
  reflexivity.
Qed.

Lemma single_sentence_decoded_witness :
  parse_ais_messages (sentence 1 1 sample_payload :: []) "stale" =
  match decode_payload sample_payload with
  | None => None
  | Some (Raise e) => Some ([], Some e)
  | Some (Ok cooked) =>
      match parse_ais_messages [] sample_payload with
      | None => None
      | Some (rest, e) => Some (cooked :: rest, e)
      end
  end.
Proof.
  apply (single_sentence_decoded sample_payload "stale" []). reflexivity.
Defined.

(** X29. The generator comes to an end on every finite stream: the
    [while retry] loop of every message ends within the rounds the
    model allows it, so a result is always there. *)
Theorem parse_ais_messages_total (source : list string) :
  forall payload, exists r, parse_ais_messages source payload = Some r.
Proof.
  induction source as [|line source IH]; intros payload;
    cbn [parse_ais_messages]; [eexists; reflexivity|].
  destruct (String.eqb line ""); [eexists; reflexivity|].
  destruct (String.prefix "#" line); [apply IH|].
  destruct (assemble payload line) as [[payload' complete]|e];
    [|eexists; reflexivity].
  destruct complete; cbn [negb]; [|apply IH].
  unfold decode_payload.
  destruct (_ ≫= _) as [cooked|e]; [|eexists; reflexivity].
  destruct (extension_merge_cases cooked) as [[e ->]| ->];
    [eexists; reflexivity|].
  destruct (IH payload') as [[rest e] ->]. eexists. reflexivity.
Qed.

(** ** The integer hooks *)

Lemma py_str_int_parse (n : Z) :
  NilZero.int_of_string (py_str_int n) = Some (Z.to_int n).
Proof.
  unfold py_str_int. apply NilZero.isi.
  - destruct n as [|p|p]; cbn; try discriminate.
    intros [= H]. now apply Unsigned.to_uint_nonnil in H.
  - destruct n as [|p|p]; cbn; try discriminate.
    intros [= H]. now apply Unsigned.to_uint_nonnil in H.
Qed.

Lemma py_str_int_inj (n m : Z) : py_str_int n = py_str_int m -> n = m.
Proof.
  intros H. apply (f_equal NilZero.int_of_string) in H.
  rewrite !py_str_int_parse in H. injection H as H.
  now apply DecimalZ.to_int_inj.
Qed.

Lemma py_str_int_numeral (n : Z) (s : string) :
  NilZero.int_of_string s = None -> py_str_int n <> s.
Proof.
  intros Hs H. rewrite <- H, py_str_int_parse in Hs. discriminate Hs.
Qed.

Ltac hook_cases :=
  repeat match goal with
         | |- context [?a =? ?b] =>
             destruct (Z.eqb_spec a b); try lia
         | H : context [?a =? ?b] |- _ =>
             destruct (Z.eqb_spec a b); try lia
         end;
  try discriminate;
  try (exfalso; eapply py_str_int_numeral; [|eassumption]; reflexivity);
  try (exfalso; eapply py_str_int_numeral; [|symmetry; eassumption];
       reflexivity);
  try (now apply py_str_int_inj).

(** X30. The three hooks that format an integer without floating
    point ([cnb_second_format], [type9_alt_format],
    [type9_speed_format]) lose nothing: two different integers are
    never given the same text, the codes with a written legend
    included. *)
Theorem integer_hooks_injective :
  (forall n m, Hooks.cnb_second_format n = Hooks.cnb_second_format m ->
               n = m) /\
  (forall n m, Hooks.type9_alt_format n = Hooks.type9_alt_format m ->
               n = m) /\
  (forall n m, Hooks.type9_speed_format n = Hooks.type9_speed_format m ->
               n = m).
Proof.
  unfold Hooks.cnb_second_format, Hooks.type9_alt_format,
    Hooks.type9_speed_format.
  repeat split; intros n m H; hook_cases.
Qed.
